(** * MAS_Steel: the rule-based multi-agent control loop

    A shallow embedding of the control primitives, the safety-limit table,
    the message bus, the four agents, the gas network and the simulation
    environment of the steel_MAS package, followed by the properties that
    are checked against them.

    Numbers.  Python [int] and finite [float] values are rationals [Q];
    comparisons are the boolean tests of the source.  The only non-finite
    float of the code, [float('inf')], occurs as the default upper bound
    of [incremental_adjust] and is the constructor [Inf] of [bound].
    Where a property depends on the rounding of float arithmetic
    ([priority_allocate], [calculate_reward]) the function takes the
    rounding as an argument, see [Py.rounding].  Equalities between
    computed numbers are stated with [==] ([Qeq]). *)

From Stdlib Require Import QArith Qabs Lqa ZArith Lia String Ascii List Sorted.
From stdpp Require Import gmap strings.

Local Open Scope Q_scope.
Local Open Scope string_scope.

(* ================================================================== *)
(** ** Python built-ins used by the code *)

Module Py.

(** [a < b] and [a <= b] on numbers. *)
Definition lt (a b : Q) : bool := negb (Qle_bool b a).
Definition le (a b : Q) : bool := Qle_bool a b.
Definition gt (a b : Q) : bool := lt b a.

(** [max(a, b)]: the first argument unless the second is greater. *)
Definition max (a b : Q) : Q := if gt b a then b else a.

(** [min(a, b)]: the first argument unless the second is smaller. *)
Definition min (a b : Q) : Q := if lt b a then b else a.

(** [np.clip(x, lo, hi)] is [minimum(maximum(x, lo), hi)]. *)
Definition clip (x lo hi : Q) : Q := min (max x lo) hi.

(** Float arithmetic: an operation on finite floats returns the rounding
    of its exact result.  [exact] is arithmetic without rounding. *)
Definition exact (x : Q) : Q := x.

(** The rounding of binary64: to the nearest number with a 53-bit
    significand, ties to the even significand (the exponent range is not
    bounded, so there is neither overflow nor underflow). *)
Definition round53 (x : Q) : Q :=
  let n := Qnum x in
  let d := Zpos (Qden x) in
  if (n =? 0)%Z then 0
  else
    let a := Z.abs n in
    let e0 := (Z.log2 a - Z.log2 d - 52)%Z in
    let scaled (e : Z) : Z * Z :=
      if (0 <=? e)%Z then (a, d * 2 ^ e)%Z else (a * 2 ^ (- e), d)%Z in
    let e :=
      let '(num, den) := scaled e0 in
      if (num / den <? 2 ^ 52)%Z then (e0 - 1)%Z else e0 in
    let '(num, den) := scaled e in
    let m := (num / den)%Z in
    let r := (num mod den)%Z in
    let m' :=
      if (2 * r <? den)%Z then m
      else if (den <? 2 * r)%Z then (m + 1)%Z
      else if Z.even m then m else (m + 1)%Z in
    let v :=
      if (0 <=? e)%Z then inject_Z (m' * 2 ^ e)
      else Qmake m' (Z.to_pos (2 ^ (- e))) in
    if (0 <? n)%Z then v else - v.

(** What the properties use of a rounding: it is monotone, it returns
    numbers that it leaves unchanged, and 0 and 1 are such numbers.
    Both [exact] and the rounding of binary64 are of this kind. *)
Definition rounding (rnd : Q -> Q) : Prop :=
  (forall x y, x <= y -> rnd x <= rnd y)
  /\ (forall x, rnd (rnd x) == rnd x)
  /\ rnd 0 == 0
  /\ rnd 1 == 1.

(** Values found in the observation dictionaries: numbers and booleans.
    A Python [bool] is an [int] in arithmetic and comparisons, and a
    number is true when it is not zero. *)
Inductive value : Type :=
| Num (q : Q)
| Bool (b : bool).

Definition num (v : value) : Q :=
  match v with
  | Num q => q
  | Bool true => 1
  | Bool false => 0
  end.

Definition truthy (v : value) : bool :=
  match v with
  | Num q => negb (Qeq_bool q 0)
  | Bool b => b
  end.

(** [d.get(key, default)] on a dictionary that is only read. *)
Definition get (d : gmap string value) (key : string) (dflt : value) : value :=
  default dflt (d !! key).

(** [c.lower()] on ASCII letters. *)
Definition lower_ascii (c : ascii) : ascii :=
  let n := nat_of_ascii c in
  if (65 <=? n)%nat && (n <=? 90)%nat then ascii_of_nat (n + 32) else c.

Fixpoint lower (s : string) : string :=
  match s with
  | EmptyString => EmptyString
  | String c s' => String (lower_ascii c) (lower s')
  end.

(** [sub in s] on strings. *)
Fixpoint contains (sub s : string) : bool :=
  String.prefix sub s ||
  match s with
  | EmptyString => false
  | String _ s' => contains sub s'
  end.

(** A dictionary whose iteration order matters is a list of items in
    insertion order; [d[key]] fails with KeyError ([None]). *)
Definition dict (V : Type) : Type := list (string * V).

Fixpoint getitem {V : Type} (d : dict V) (key : string) : option V :=
  match d with
  | [] => None
  | (k, v) :: d' => if String.eqb k key then Some v else getitem d' key
  end.

Definition keys {V : Type} (d : dict V) : list string := map fst d.

End Py.

(* ================================================================== *)
(** ** solvers/rule_based.py *)

(** The upper bound of a clamp: a number or [float('inf')]. *)
Inductive bound : Type :=
| Fin (q : Q)
| Inf.

Coercion Fin : Q >-> bound.

Module SafetyLimits.
(* Blast Furnace *)
Definition BF_WIND_MIN : Q := 1000.
Definition BF_WIND_MAX : Q := 8000.
Definition BF_O2_MAX : Q := 6.0.
Definition BF_PCI_MAX : Q := 200.
Definition BF_TEMP_MAX : Q := 1600.
Definition BF_SI_MAX : Q := 0.8.
(* BOF *)
Definition BOF_O2_MAX : Q := 60000.
Definition BOF_TEMP_MAX : Q := 1750.
Definition BOF_P_MAX : Q := 15.0.
(* Coke Oven *)
Definition CO_TEMP_MAX : Q := 1400.
Definition CO_TEMP_MIN : Q := 1000.
(* Gas Holders *)
Definition GH_P_EMERGENCY : Q := 16.0.
Definition GH_P_MIN : Q := 8.0.
Definition GH_SOC_MIN : Q := 0.05.
Definition GH_SOC_MAX : Q := 0.95.
End SafetyLimits.

Module RuleBasedController.

(** [min(max_val, value)] with a possibly infinite [max_val]. *)
Definition min_bound (max_val : bound) (value : Q) : Q :=
  match max_val with
  | Fin m => Py.min m value
  | Inf => value
  end.

(** [max(min_val, min(max_val, value))] *)
Definition clamp (value min_val : Q) (max_val : bound) : Q :=
  Py.max min_val (min_bound max_val value).

Definition hysteresis_check
    (current_value target upper_band lower_band : Q) (current_state : bool)
    : bool * string :=
  if Py.gt current_value (target + upper_band) then (true, "above_upper_band")
  else if Py.lt current_value (target - lower_band) then (true, "below_lower_band")
  else if current_state
            && (Py.le (target - lower_band / 2) current_value
                && Py.le current_value (target + upper_band / 2))
       then (true, "within_hysteresis")
  else (false, "normal").

Definition incremental_adjust
    (current_value : Q) (direction : string) (step_size min_val : Q)
    (max_val : bound) : Q :=
  let new_value :=
    if String.eqb direction "increase" then current_value * (1 + step_size)
    else if String.eqb direction "decrease" then current_value * (1 - step_size)
    else current_value in
  clamp new_value min_val max_val.

(** [sorted(keys, key=..., reverse=True)]: stable, descending by key.
    Inserting from the right, an element goes before the first one
    whose key is not greater than its own, so equal keys keep their
    original order. *)
Fixpoint insert_desc (key : string -> Z) (x : string) (l : list string)
    : list string :=
  match l with
  | [] => [x]
  | y :: l' =>
      if (key y <=? key x)%Z then x :: l else y :: insert_desc key x l'
  end.

Definition sorted_desc (key : string -> Z) (l : list string) : list string :=
  foldr (insert_desc key) [] l.

(** The allocation loop, with its [break] once nothing remains.  The
    subtraction [remaining -= allocated] is the one arithmetic operation
    of the function; [rnd] is its rounding. *)
Fixpoint allocate_loop
    (rnd : Q -> Q) (demands : Py.dict Q) (consumers : list string)
    (remaining : Q) (allocation : gmap string Q) : option (gmap string Q) :=
  match consumers with
  | [] => Some allocation
  | consumer :: rest =>
      match Py.getitem demands consumer with
      | None => None
      | Some demand =>
          let allocated := Py.min demand remaining in
          let allocation := <[consumer := allocated]> allocation in
          let remaining := rnd (remaining - allocated) in
          if Py.le remaining 0 then Some allocation
          else allocate_loop rnd demands rest remaining allocation
      end
  end.

(** The second loop: zeros for consumers that did not get an allocation. *)
Definition fill_zeros (consumers : list string) (allocation : gmap string Q)
    : gmap string Q :=
  foldl (fun alloc consumer =>
           match alloc !! consumer with
           | Some _ => alloc
           | None => <[consumer := 0.0]> alloc
           end) allocation consumers.

Definition priority_of (priorities : gmap string Z) (x : string) : Z :=
  default 0%Z (priorities !! x).

Definition priority_allocate
    (rnd : Q -> Q) (available : Q) (demands : Py.dict Q)
    (priorities : gmap string Z) : option (gmap string Q) :=
  let sorted_consumers := sorted_desc (priority_of priorities) (Py.keys demands) in
  match allocate_loop rnd demands sorted_consumers available ∅ with
  | None => None
  | Some allocation => Some (fill_zeros (Py.keys demands) allocation)
  end.

End RuleBasedController.

(* ================================================================== *)
(** ** protocols/gas_request.py *)

Inductive MessageType : Type :=
| GAS_REQUEST
| GAS_RESPONSE
| BOFG_SURGE_WARNING
| STATE_BROADCAST
| EMERGENCY_ALERT.

Definition MessageType_eqb (a b : MessageType) : bool :=
  match a, b with
  | GAS_REQUEST, GAS_REQUEST
  | GAS_RESPONSE, GAS_RESPONSE
  | BOFG_SURGE_WARNING, BOFG_SURGE_WARNING
  | STATE_BROADCAST, STATE_BROADCAST
  | EMERGENCY_ALERT, EMERGENCY_ALERT => true
  | _, _ => false
  end.

Record Message : Type := {
  msg_type : MessageType;
  sender : string;
  receiver : string;
  timestamp : Q;
  data : Py.dict Q
}.

Module BOFGSurgeWarning.

Record t : Type := {
  time_to_blow : Q;
  expected_peak : Q;
  duration : Q;
  current_gh_soc : Q
}.

Definition to_message (self : t) (timestamp : Q) : Message :=
  {| msg_type := BOFG_SURGE_WARNING;
     sender := "BOFAgent";
     receiver := "GasHolderAgent";
     timestamp := timestamp;
     data := [("time_to_blow", time_to_blow self);
              ("expected_peak", expected_peak self);
              ("duration", duration self);
              ("gh_soc", current_gh_soc self)] |}.

End BOFGSurgeWarning.

Module MessageBus.

Record t : Type := {
  messages : list Message;
  time : Q
}.

Definition init : t := {| messages := []; time := 0.0 |}.

Definition send (self : t) (message : Message) : t :=
  {| messages := messages self ++ [message]; time := time self |}.

Definition get_messages (self : t) (receiver_id : string)
    (type_filter : option MessageType) : list Message :=
  let filtered :=
    List.filter (fun msg => String.eqb (receiver msg) receiver_id
                            || String.eqb (receiver msg) "all")
                (messages self) in
  match type_filter with
  | Some ty => List.filter (fun msg => MessageType_eqb (msg_type msg) ty) filtered
  | None => filtered
  end.

Definition clear (self : t) : t := {| messages := []; time := time self |}.

Definition update_time (self : t) (now : Q) : t :=
  {| messages := messages self; time := now |}.

End MessageBus.

(* ================================================================== *)
(** ** agents/bf_agent.py *)

Module BF_Agent.
Import RuleBasedController.

(** The [state] dictionary: its six keys are fixed by the constructor. *)
Record state : Type := {
  wind_volume : Q;
  O2_enrichment : Q;
  PCI : Q;
  COG_ratio : Q;
  Si_target : Q;
  T_target : Q
}.

Record hysteresis_states : Type := {
  gh_full_action_active : bool;
  gh_empty_action_active : bool;
  si_high_action_active : bool;
  si_low_action_active : bool
}.

Record t : Type := {
  agent_id : string;
  st : state;
  hyst : hysteresis_states
}.

(* Parameters *)
Definition Si_band : Q := 0.03.
Definition SOC_high : Q := 0.85.
Definition SOC_low : Q := 0.25.
Definition P_high : Q := 14.0.
Definition P_low : Q := 9.0.

Definition init (agent_id : string) : t :=
  {| agent_id := agent_id;
     st := {| wind_volume := 4000; O2_enrichment := 3.5; PCI := 150;
              COG_ratio := 0.2; Si_target := 0.45; T_target := 1500 |};
     hyst := {| gh_full_action_active := false;
                gh_empty_action_active := false;
                si_high_action_active := false;
                si_low_action_active := false |} |}.

(** Assignments to one key of [self.state] or [self.hysteresis_states]. *)
Definition set_wind_volume (v : Q) (a : t) : t :=
  {| agent_id := agent_id a; hyst := hyst a;
     st := {| wind_volume := v; O2_enrichment := O2_enrichment (st a);
              PCI := PCI (st a); COG_ratio := COG_ratio (st a);
              Si_target := Si_target (st a); T_target := T_target (st a) |} |}.
Definition set_O2_enrichment (v : Q) (a : t) : t :=
  {| agent_id := agent_id a; hyst := hyst a;
     st := {| wind_volume := wind_volume (st a); O2_enrichment := v;
              PCI := PCI (st a); COG_ratio := COG_ratio (st a);
              Si_target := Si_target (st a); T_target := T_target (st a) |} |}.
Definition set_PCI (v : Q) (a : t) : t :=
  {| agent_id := agent_id a; hyst := hyst a;
     st := {| wind_volume := wind_volume (st a);
              O2_enrichment := O2_enrichment (st a);
              PCI := v; COG_ratio := COG_ratio (st a);
              Si_target := Si_target (st a); T_target := T_target (st a) |} |}.
Definition set_COG_ratio (v : Q) (a : t) : t :=
  {| agent_id := agent_id a; hyst := hyst a;
     st := {| wind_volume := wind_volume (st a);
              O2_enrichment := O2_enrichment (st a);
              PCI := PCI (st a); COG_ratio := v;
              Si_target := Si_target (st a); T_target := T_target (st a) |} |}.
Definition set_gh_full (b : bool) (a : t) : t :=
  {| agent_id := agent_id a; st := st a;
     hyst := {| gh_full_action_active := b;
                gh_empty_action_active := gh_empty_action_active (hyst a);
                si_high_action_active := si_high_action_active (hyst a);
                si_low_action_active := si_low_action_active (hyst a) |} |}.
Definition set_gh_empty (b : bool) (a : t) : t :=
  {| agent_id := agent_id a; st := st a;
     hyst := {| gh_full_action_active := gh_full_action_active (hyst a);
                gh_empty_action_active := b;
                si_high_action_active := si_high_action_active (hyst a);
                si_low_action_active := si_low_action_active (hyst a) |} |}.
Definition set_si_high (b : bool) (a : t) : t :=
  {| agent_id := agent_id a; st := st a;
     hyst := {| gh_full_action_active := gh_full_action_active (hyst a);
                gh_empty_action_active := gh_empty_action_active (hyst a);
                si_high_action_active := b;
                si_low_action_active := si_low_action_active (hyst a) |} |}.
Definition set_si_low (b : bool) (a : t) : t :=
  {| agent_id := agent_id a; st := st a;
     hyst := {| gh_full_action_active := gh_full_action_active (hyst a);
                gh_empty_action_active := gh_empty_action_active (hyst a);
                si_high_action_active := si_high_action_active (hyst a);
                si_low_action_active := b |} |}.

Definition get_state (self : t) : state := st self.

(** Level 1: Safety rules (highest priority) *)
Definition _apply_safety_rules (Si T_hot_metal O2_available : Q) (self : t) : t :=
  let self :=
    set_wind_volume (clamp (wind_volume (st self))
                           SafetyLimits.BF_WIND_MIN SafetyLimits.BF_WIND_MAX) self in
  let self :=
    set_O2_enrichment (clamp (O2_enrichment (st self))
                             0.0 SafetyLimits.BF_O2_MAX) self in
  let self :=
    if Py.gt T_hot_metal SafetyLimits.BF_TEMP_MAX then
      let self := set_PCI (incremental_adjust (PCI (st self))
                             "decrease" 0.20 0.0 Inf) self in
      set_O2_enrichment (incremental_adjust (O2_enrichment (st self))
                           "decrease" 0.20 0.0 Inf) self
    else self in
  if Py.gt Si SafetyLimits.BF_SI_MAX then
    set_PCI (incremental_adjust (PCI (st self)) "decrease" 0.05 0.0 Inf) self
  else self.

(** Level 2: Process stability rules *)
Definition _apply_process_rules (Si : Q) (self : t) : t :=
  let Si_target := Si_target (st self) in
  let self :=
    if Py.gt Si (Si_target + Si_band) then
      let self := set_si_high true self in
      let self := set_PCI (incremental_adjust (PCI (st self))
                             "decrease" 0.10 0.0 Inf) self in
      set_O2_enrichment (incremental_adjust (O2_enrichment (st self))
                           "decrease" 0.10 0.0 Inf) self
    else if Py.lt Si (Si_target + Si_band / 2) then set_si_high false self
    else self in
  if Py.lt Si (Si_target - Si_band) then
    let self := set_si_low true self in
    let self := set_PCI (incremental_adjust (PCI (st self))
                           "increase" 0.10 0.0 SafetyLimits.BF_PCI_MAX) self in
    set_wind_volume (incremental_adjust (wind_volume (st self))
                       "increase" 0.10 0.0 SafetyLimits.BF_WIND_MAX) self
  else if Py.gt Si (Si_target - Si_band / 2) then set_si_low false self
  else self.

(** Level 3: Energy coordination rules *)
Definition _apply_energy_rules
    (SOC_bfg P_bfg COG_available COG_required O2_available : Q) (self : t) : t :=
  let self :=
    if Py.gt SOC_bfg SOC_high || Py.gt P_bfg P_high then
      let self := set_gh_full true self in
      let self := set_wind_volume
                    (incremental_adjust (wind_volume (st self))
                       "decrease" 0.15 SafetyLimits.BF_WIND_MIN Inf) self in
      let self := set_PCI (incremental_adjust (PCI (st self))
                             "decrease" 0.12 0.0 Inf) self in
      set_O2_enrichment (incremental_adjust (O2_enrichment (st self))
                           "decrease" 0.15 0.0 Inf) self
    else if Py.lt SOC_bfg 0.75 && Py.lt P_bfg 13.0 then set_gh_full false self
    else self in
  let self :=
    if Py.lt SOC_bfg SOC_low || Py.lt P_bfg P_low then
      let self := set_gh_empty true self in
      let self := set_wind_volume
                    (incremental_adjust (wind_volume (st self))
                       "increase" 0.15 0.0 SafetyLimits.BF_WIND_MAX) self in
      set_PCI (incremental_adjust (PCI (st self))
                 "increase" 0.12 0.0 SafetyLimits.BF_PCI_MAX) self
    else if Py.gt SOC_bfg 0.30 && Py.gt P_bfg 10.0 then set_gh_empty false self
    else self in
  let self :=
    if Py.lt COG_available COG_required then
      let self := set_COG_ratio (incremental_adjust (COG_ratio (st self))
                                   "decrease" 0.10 0.0 Inf) self in
      set_PCI (incremental_adjust (PCI (st self))
                 "increase" 0.05 0.0 SafetyLimits.BF_PCI_MAX) self
    else self in
  let O2_required := O2_enrichment (st self) * wind_volume (st self) / 100 in
  if Py.lt O2_available O2_required then
    let self := set_O2_enrichment (incremental_adjust (O2_enrichment (st self))
                                     "decrease" 0.10 0.0 Inf) self in
    set_PCI (incremental_adjust (PCI (st self))
               "increase" 0.04 0.0 SafetyLimits.BF_PCI_MAX) self
  else self.

(** Level 4: Economic optimization (lowest priority) *)
Definition _apply_economic_rules (peak_electricity : bool) (self : t) : t :=
  if peak_electricity then
    set_wind_volume (incremental_adjust (wind_volume (st self))
                       "decrease" 0.05 SafetyLimits.BF_WIND_MIN Inf) self
  else self.

(** [step(observations, message_bus)]: the bus is accepted and not used.
    The result is the agent after the step and the returned copy of its
    state. *)
Definition step (self : t) (observations : gmap string Py.value)
    (message_bus : option MessageBus.t) : t * state :=
  let Si := Py.num (Py.get observations "Si" (Py.Num 0.45)) in
  let T_hot_metal := Py.num (Py.get observations "T_hot_metal" (Py.Num 1500)) in
  let SOC_bfg := Py.num (Py.get observations "SOC_bfg" (Py.Num 0.5)) in
  let P_bfg := Py.num (Py.get observations "P_bfg" (Py.Num 12.0)) in
  let COG_available := Py.num (Py.get observations "COG_available" (Py.Num 10000)) in
  let COG_required := Py.num (Py.get observations "COG_required" (Py.Num 8000)) in
  let O2_available := Py.num (Py.get observations "O2_available" (Py.Num 50000)) in
  let peak_electricity :=
    Py.truthy (Py.get observations "peak_electricity" (Py.Bool false)) in
  let self := _apply_safety_rules Si T_hot_metal O2_available self in
  let self := _apply_process_rules Si self in
  let self := _apply_energy_rules SOC_bfg P_bfg COG_available COG_required
                                  O2_available self in
  let self := _apply_economic_rules peak_electricity self in
  (self, get_state self).

(** A sequence of calls of [step], one per observation map. *)
Definition run (self : t) (obs : list (gmap string Py.value)) : t :=
  foldl (fun a o => fst (step a o None)) self obs.

End BF_Agent.

(* ================================================================== *)
(** ** agents/bof_agent.py *)

Module BOF_Agent.
Import RuleBasedController.

Record state : Type := {
  oxygen : Q;
  scrap_steel : Q;
  T_target : Q;
  blow_time : Q;
  blow_duration : Q
}.

Record t : Type := {
  agent_id : string;
  st : state;
  time_to_next_blow : Q
}.

Definition init (agent_id : string) : t :=
  {| agent_id := agent_id;
     st := {| oxygen := 45000; scrap_steel := 20; T_target := 1650;
              blow_time := 0; blow_duration := 18 |};
     time_to_next_blow := 30.0 |}.

Definition set_oxygen (v : Q) (a : t) : t :=
  {| agent_id := agent_id a; time_to_next_blow := time_to_next_blow a;
     st := {| oxygen := v; scrap_steel := scrap_steel (st a);
              T_target := T_target (st a); blow_time := blow_time (st a);
              blow_duration := blow_duration (st a) |} |}.
Definition set_scrap_steel (v : Q) (a : t) : t :=
  {| agent_id := agent_id a; time_to_next_blow := time_to_next_blow a;
     st := {| oxygen := oxygen (st a); scrap_steel := v;
              T_target := T_target (st a); blow_time := blow_time (st a);
              blow_duration := blow_duration (st a) |} |}.
Definition set_time_to_next_blow (v : Q) (a : t) : t :=
  {| agent_id := agent_id a; st := st a; time_to_next_blow := v |}.

Definition get_state (self : t) : state := st self.

(** Level 1: Safety rules *)
Definition _apply_safety_rules (P_bof_gas : Q) (self : t) : t :=
  let self := set_oxygen (clamp (oxygen (st self)) 0.0 SafetyLimits.BOF_O2_MAX) self in
  if Py.gt P_bof_gas SafetyLimits.BOF_P_MAX then
    set_oxygen (incremental_adjust (oxygen (st self)) "decrease" 0.10 0.0 Inf) self
  else self.

(** Level 2: Process stability *)
Definition _apply_process_rules (T_steel : Q) (self : t) : t :=
  let T_target := T_target (st self) in
  if Py.gt T_steel (T_target + 20) then
    let self := set_oxygen (incremental_adjust (oxygen (st self))
                              "decrease" 0.03 0.0 Inf) self in
    set_scrap_steel (incremental_adjust (scrap_steel (st self))
                       "increase" 0.02 0.0 30) self
  else if Py.lt T_steel (T_target - 20) then
    set_oxygen (incremental_adjust (oxygen (st self))
                  "increase" 0.03 0.0 SafetyLimits.BOF_O2_MAX) self
  else self.

(** Level 3: Energy coordination.  The bus is [None] or the shared bus,
    which the method may extend. *)
Definition _apply_energy_rules
    (bof_gas_current SOC_bofg P_bofg : Q) (message_bus : option MessageBus.t)
    (self : t) : t * option MessageBus.t :=
  let message_bus :=
    match message_bus with
    | Some bus =>
        if Py.le (time_to_next_blow self) 2.0 then
          let warning :=
            {| BOFGSurgeWarning.time_to_blow := time_to_next_blow self;
               BOFGSurgeWarning.expected_peak := 60000;
               BOFGSurgeWarning.duration := blow_duration (st self);
               BOFGSurgeWarning.current_gh_soc := SOC_bofg |} in
          Some (MessageBus.send bus
                  (BOFGSurgeWarning.to_message warning (MessageBus.time bus)))
        else Some bus
    | None => None
    end in
  let bof_gas_design := 50000 in
  let self :=
    if Py.gt bof_gas_current (bof_gas_design * 1.3) && Py.gt P_bofg 14 then
      set_oxygen (incremental_adjust (oxygen (st self)) "decrease" 0.10 0.0 Inf) self
    else self in
  (self, message_bus).

Definition step (self : t) (observations : gmap string Py.value)
    (message_bus : option MessageBus.t) : t * state * option MessageBus.t :=
  let T_steel := Py.num (Py.get observations "T_steel" (Py.Num 1650)) in
  let P_bof_gas := Py.num (Py.get observations "P_bof_gas" (Py.Num 12.0)) in
  let bof_gas_current :=
    Py.num (Py.get observations "bof_gas_current" (Py.Num 30000)) in
  let SOC_bofg := Py.num (Py.get observations "SOC_bofg" (Py.Num 0.5)) in
  let P_bofg := Py.num (Py.get observations "P_bofg" (Py.Num 12.0)) in
  let self := _apply_safety_rules P_bof_gas self in
  let self := _apply_process_rules T_steel self in
  let '(self, message_bus) :=
    _apply_energy_rules bof_gas_current SOC_bofg P_bofg message_bus self in
  let self := set_time_to_next_blow (Py.max 0 (time_to_next_blow self - 1.0)) self in
  (self, get_state self, message_bus).

End BOF_Agent.

(* ================================================================== *)
(** ** agents/coke_oven_agent.py *)

Module CokeOven_Agent.
Import RuleBasedController.

Record state : Type := {
  heating_gas_input : Q;
  pushing_rate : Q;
  T_target : Q
}.

Record t : Type := {
  agent_id : string;
  st : state
}.

Definition T_band : Q := 20.

Definition init (agent_id : string) : t :=
  {| agent_id := agent_id;
     st := {| heating_gas_input := 15000; pushing_rate := 1.0;
              T_target := 1200 |} |}.

Definition set_heating_gas_input (v : Q) (a : t) : t :=
  {| agent_id := agent_id a;
     st := {| heating_gas_input := v; pushing_rate := pushing_rate (st a);
              T_target := T_target (st a) |} |}.
Definition set_pushing_rate (v : Q) (a : t) : t :=
  {| agent_id := agent_id a;
     st := {| heating_gas_input := heating_gas_input (st a); pushing_rate := v;
              T_target := T_target (st a) |} |}.

Definition get_state (self : t) : state := st self.

Definition _apply_safety_rules (T_furnace : Q) (self : t) : t :=
  let self :=
    if Py.gt T_furnace SafetyLimits.CO_TEMP_MAX then
      set_heating_gas_input (incremental_adjust (heating_gas_input (st self))
                               "decrease" 0.10 5000 Inf) self
    else self in
  if Py.lt T_furnace SafetyLimits.CO_TEMP_MIN then
    set_heating_gas_input (incremental_adjust (heating_gas_input (st self))
                             "increase" 0.10 0.0 25000) self
  else self.

Definition _apply_process_rules (T_furnace : Q) (self : t) : t :=
  let T_target := T_target (st self) in
  if Py.lt T_furnace (T_target - T_band) then
    set_heating_gas_input (incremental_adjust (heating_gas_input (st self))
                             "increase" 0.03 0.0 25000) self
  else if Py.gt T_furnace (T_target + T_band) then
    set_heating_gas_input (incremental_adjust (heating_gas_input (st self))
                             "decrease" 0.03 5000 Inf) self
  else self.

Definition _apply_energy_rules (SOC_cog : Q) (self : t) : t :=
  let self :=
    if Py.gt SOC_cog 0.85 then
      set_pushing_rate (incremental_adjust (pushing_rate (st self))
                          "decrease" 0.05 0.7 Inf) self
    else if Py.lt SOC_cog 0.75 then
      set_pushing_rate (Py.min 1.0 (pushing_rate (st self) * 1.02)) self
    else self in
  if Py.lt SOC_cog 0.25 then
    set_pushing_rate (incremental_adjust (pushing_rate (st self))
                        "increase" 0.03 0.0 1.2) self
  else if Py.gt SOC_cog 0.35 then
    if Py.gt (pushing_rate (st self)) 1.0 then
      set_pushing_rate (Py.max 1.0 (pushing_rate (st self) * 0.98)) self
    else self
  else self.

Definition step (self : t) (observations : gmap string Py.value)
    (message_bus : option MessageBus.t) : t * state :=
  let T_furnace := Py.num (Py.get observations "T_furnace" (Py.Num 1200)) in
  let SOC_cog := Py.num (Py.get observations "SOC_cog" (Py.Num 0.5)) in
  let self := _apply_safety_rules T_furnace self in
  let self := _apply_process_rules T_furnace self in
  let self := _apply_energy_rules SOC_cog self in
  (self, get_state self).

End CokeOven_Agent.

(* ================================================================== *)
(** ** agents/gas_holder_agent.py *)

Module GasHolder_Agent.
Import RuleBasedController.

Record state : Type := {
  bfg_to_pp : Q;
  bfg_to_heating : Q;
  bofg_to_pp : Q;
  bofg_to_heating : Q;
  cog_to_heating : Q;
  cog_to_bf : Q
}.

Record t : Type := {
  agent_id : string;
  st : state;
  surge_warning_active : bool
}.

Definition init (agent_id : string) : t :=
  {| agent_id := agent_id;
     st := {| bfg_to_pp := 50000; bfg_to_heating := 30000;
              bofg_to_pp := 20000; bofg_to_heating := 10000;
              cog_to_heating := 8000; cog_to_bf := 5000 |};
     surge_warning_active := false |}.

Definition with_state (s : state) (a : t) : t :=
  {| agent_id := agent_id a; st := s;
     surge_warning_active := surge_warning_active a |}.

Definition set_bfg_to_pp (v : Q) (a : t) : t :=
  with_state {| bfg_to_pp := v; bfg_to_heating := bfg_to_heating (st a);
                bofg_to_pp := bofg_to_pp (st a);
                bofg_to_heating := bofg_to_heating (st a);
                cog_to_heating := cog_to_heating (st a);
                cog_to_bf := cog_to_bf (st a) |} a.
Definition set_bfg_to_heating (v : Q) (a : t) : t :=
  with_state {| bfg_to_pp := bfg_to_pp (st a); bfg_to_heating := v;
                bofg_to_pp := bofg_to_pp (st a);
                bofg_to_heating := bofg_to_heating (st a);
                cog_to_heating := cog_to_heating (st a);
                cog_to_bf := cog_to_bf (st a) |} a.
Definition set_bofg_to_pp (v : Q) (a : t) : t :=
  with_state {| bfg_to_pp := bfg_to_pp (st a);
                bfg_to_heating := bfg_to_heating (st a);
                bofg_to_pp := v;
                bofg_to_heating := bofg_to_heating (st a);
                cog_to_heating := cog_to_heating (st a);
                cog_to_bf := cog_to_bf (st a) |} a.
Definition set_bofg_to_heating (v : Q) (a : t) : t :=
  with_state {| bfg_to_pp := bfg_to_pp (st a);
                bfg_to_heating := bfg_to_heating (st a);
                bofg_to_pp := bofg_to_pp (st a);
                bofg_to_heating := v;
                cog_to_heating := cog_to_heating (st a);
                cog_to_bf := cog_to_bf (st a) |} a.
Definition set_cog_to_heating (v : Q) (a : t) : t :=
  with_state {| bfg_to_pp := bfg_to_pp (st a);
                bfg_to_heating := bfg_to_heating (st a);
                bofg_to_pp := bofg_to_pp (st a);
                bofg_to_heating := bofg_to_heating (st a);
                cog_to_heating := v;
                cog_to_bf := cog_to_bf (st a) |} a.
Definition set_cog_to_bf (v : Q) (a : t) : t :=
  with_state {| bfg_to_pp := bfg_to_pp (st a);
                bfg_to_heating := bfg_to_heating (st a);
                bofg_to_pp := bofg_to_pp (st a);
                bofg_to_heating := bofg_to_heating (st a);
                cog_to_heating := cog_to_heating (st a);
                cog_to_bf := v |} a.
Definition set_surge_warning_active (b : bool) (a : t) : t :=
  {| agent_id := agent_id a; st := st a; surge_warning_active := b |}.

Definition get_state (self : t) : state := st self.

(** The returned dictionary, in the insertion order of the constructor. *)
Definition items (s : state) : Py.dict Q :=
  [("bfg_to_pp", bfg_to_pp s); ("bfg_to_heating", bfg_to_heating s);
   ("bofg_to_pp", bofg_to_pp s); ("bofg_to_heating", bofg_to_heating s);
   ("cog_to_heating", cog_to_heating s); ("cog_to_bf", cog_to_bf s)].

(** Control BFG holder *)
Definition _control_bfgh (soc p : Q) (self : t) : t :=
  if Py.gt p SafetyLimits.GH_P_EMERGENCY then
    let self := set_bfg_to_pp (incremental_adjust (bfg_to_pp (st self))
                                 "increase" 0.20 0.0 80000) self in
    set_bfg_to_heating (incremental_adjust (bfg_to_heating (st self))
                          "increase" 0.10 0.0 50000) self
  else if Py.lt soc SafetyLimits.GH_SOC_MIN then
    let self := set_bfg_to_pp (incremental_adjust (bfg_to_pp (st self))
                                 "decrease" 0.20 10000 Inf) self in
    set_bfg_to_heating (incremental_adjust (bfg_to_heating (st self))
                          "decrease" 0.20 5000 Inf) self
  else if Py.gt soc 0.85 || Py.gt p 14 then
    let self := set_bfg_to_pp (incremental_adjust (bfg_to_pp (st self))
                                 "increase" 0.10 0.0 80000) self in
    set_bfg_to_heating (incremental_adjust (bfg_to_heating (st self))
                          "increase" 0.05 0.0 50000) self
  else if Py.lt soc 0.25 || Py.lt p 9 then
    let self := set_bfg_to_pp (incremental_adjust (bfg_to_pp (st self))
                                 "decrease" 0.10 10000 Inf) self in
    set_bfg_to_heating (incremental_adjust (bfg_to_heating (st self))
                          "decrease" 0.08 5000 Inf) self
  else if (Py.lt 0.35 soc && Py.lt soc 0.75) && (Py.lt 10 p && Py.lt p 13) then
    let nominal_pp := 50000 in
    let nominal_heating := 30000 in
    let self :=
      if Py.gt (bfg_to_pp (st self)) nominal_pp then
        set_bfg_to_pp (bfg_to_pp (st self) * 0.98) self
      else if Py.lt (bfg_to_pp (st self)) nominal_pp then
        set_bfg_to_pp (bfg_to_pp (st self) * 1.02) self
      else self in
    if Py.gt (bfg_to_heating (st self)) nominal_heating then
      set_bfg_to_heating (bfg_to_heating (st self) * 0.98) self
    else if Py.lt (bfg_to_heating (st self)) nominal_heating then
      set_bfg_to_heating (bfg_to_heating (st self) * 1.02) self
    else self
  else self.

(** Control BOFG holder *)
Definition _control_bofgh (soc p : Q) (surge_warning : bool) (self : t) : t :=
  if surge_warning then
    let self := set_bofg_to_pp (incremental_adjust (bofg_to_pp (st self))
                                  "decrease" 0.20 5000 Inf) self in
    set_bofg_to_heating (incremental_adjust (bofg_to_heating (st self))
                           "decrease" 0.15 3000 Inf) self
  else if Py.gt p SafetyLimits.GH_P_EMERGENCY then
    set_bofg_to_pp (incremental_adjust (bofg_to_pp (st self))
                      "increase" 0.20 0.0 40000) self
  else if Py.lt soc SafetyLimits.GH_SOC_MIN then
    set_bofg_to_pp (incremental_adjust (bofg_to_pp (st self))
                      "decrease" 0.20 5000 Inf) self
  else if Py.gt soc 0.85 || Py.gt p 14 then
    set_bofg_to_pp (incremental_adjust (bofg_to_pp (st self))
                      "increase" 0.10 0.0 40000) self
  else if Py.lt soc 0.25 || Py.lt p 9 then
    set_bofg_to_pp (incremental_adjust (bofg_to_pp (st self))
                      "decrease" 0.10 5000 Inf) self
  else self.

(** Control COG holder *)
Definition _control_cogh (soc p : Q) (self : t) : t :=
  if Py.gt p SafetyLimits.GH_P_EMERGENCY then
    set_cog_to_heating (incremental_adjust (cog_to_heating (st self))
                          "increase" 0.20 0.0 15000) self
  else if Py.lt soc SafetyLimits.GH_SOC_MIN then
    let self := set_cog_to_heating (incremental_adjust (cog_to_heating (st self))
                                      "decrease" 0.20 2000 Inf) self in
    set_cog_to_bf (incremental_adjust (cog_to_bf (st self))
                     "decrease" 0.20 1000 Inf) self
  else if Py.gt soc 0.85 || Py.gt p 14 then
    let self := set_cog_to_heating (incremental_adjust (cog_to_heating (st self))
                                      "increase" 0.10 0.0 15000) self in
    set_cog_to_bf (incremental_adjust (cog_to_bf (st self))
                     "increase" 0.05 0.0 10000) self
  else if Py.lt soc 0.25 || Py.lt p 9 then
    let self := set_cog_to_heating (incremental_adjust (cog_to_heating (st self))
                                      "decrease" 0.10 2000 Inf) self in
    set_cog_to_bf (incremental_adjust (cog_to_bf (st self))
                     "decrease" 0.08 1000 Inf) self
  else self.

(** The surge warnings addressed to this agent (or to "all"). *)
Definition surge_warnings (self : t) (bus : MessageBus.t) : list Message :=
  MessageBus.get_messages bus (agent_id self) (Some BOFG_SURGE_WARNING).

Definition step (self : t) (observations : gmap string Py.value)
    (message_bus : option MessageBus.t) : t * state :=
  let soc_bfg := Py.num (Py.get observations "soc_bfg" (Py.Num 0.5)) in
  let p_bfg := Py.num (Py.get observations "p_bfg" (Py.Num 12.0)) in
  let soc_bofg := Py.num (Py.get observations "soc_bofg" (Py.Num 0.5)) in
  let p_bofg := Py.num (Py.get observations "p_bofg" (Py.Num 12.0)) in
  let soc_cog := Py.num (Py.get observations "soc_cog" (Py.Num 0.5)) in
  let p_cog := Py.num (Py.get observations "p_cog" (Py.Num 12.0)) in
  let self :=
    match message_bus with
    | Some bus =>
        match surge_warnings self bus with
        | [] => self
        | _ :: _ => set_surge_warning_active true self
        end
    | None => self
    end in
  let self := _control_bfgh soc_bfg p_bfg self in
  let self := _control_bofgh soc_bofg p_bofg (surge_warning_active self) self in
  let self := _control_cogh soc_cog p_cog self in
  let self := set_surge_warning_active false self in
  (self, get_state self).

End GasHolder_Agent.

(* ================================================================== *)
(** ** Digital_Twin/Gasholders/Gasholders.py *)

Module StateSpaceGasHolder.

(** The one-dimensional state-space model
    [y_k = C x_k + D u_k], [x_{k+1} = A x_k + B u_k]. *)
Record t : Type := { A : Q; B : Q; C : Q; D : Q; x : Q }.

(** [model({"gas_net_flow": u})]: the new model and the output. *)
Definition call (self : t) (u : Q) : t * Q :=
  let y := C self * x self + D self * u in
  ({| A := A self; B := B self; C := C self; D := D self;
      x := A self * x self + B self * u |}, y).

Definition BFGH : t :=
  {| A := 0.994; B := 3.135 * 1e-6; C := 3.49416 * 1e6; D := 0; x := 0.004 |}.
Definition BOFGH : t :=
  {| A := 0.999; B := 7.2884 * 1e-6; C := 3.2121 * 1e6; D := 0; x := 0.0049 |}.
Definition COGH : t :=
  {| A := 1; B := 1.7187 * 1e-6; C := 1.0066 * 1e6; D := 0; x := 0.0045 |}.

End StateSpaceGasHolder.

(* ================================================================== *)
(** ** models/gas_network.py *)

(** The three gas types the network is updated for, and their tags. *)
Inductive gas_type : Type := bfg | bofg | cog.

Definition tag (g : gas_type) : string :=
  match g with
  | bfg => "bfg"
  | bofg => "bofg"
  | cog => "cog"
  end.

Module GasNetwork.

Record GasNetworkState : Type := {
  soc_bfg : Q; p_bfg : Q; bfg_level : Q;
  soc_bofg : Q; p_bofg : Q; bofg_level : Q;
  soc_cog : Q; p_cog : Q; cog_level : Q
}.

Definition to_dict (s : GasNetworkState) : Py.dict Q :=
  [("soc_bfg", soc_bfg s); ("p_bfg", p_bfg s);
   ("soc_bofg", soc_bofg s); ("p_bofg", p_bofg s);
   ("soc_cog", soc_cog s); ("p_cog", p_cog s)].

Record t : Type := {
  use_state_space_models : bool;
  bfgh : StateSpaceGasHolder.t;
  bofgh : StateSpaceGasHolder.t;
  cogh : StateSpaceGasHolder.t;
  state : GasNetworkState
}.

Definition capacities (g : gas_type) : Q :=
  match g with
  | bfg => 400000
  | bofg => 150000
  | cog => 100000
  end.

Definition p_min : Q := 8.0.
Definition p_range : Q := 8.0.

Definition nominal : GasNetworkState :=
  {| soc_bfg := 0.5; p_bfg := 12.0; bfg_level := 0.5;
     soc_bofg := 0.5; p_bofg := 12.0; bofg_level := 0.5;
     soc_cog := 0.5; p_cog := 12.0; cog_level := 0.5 |}.

Definition init (use_state_space_models : bool) : t :=
  {| use_state_space_models := use_state_space_models;
     bfgh := StateSpaceGasHolder.BFGH;
     bofgh := StateSpaceGasHolder.BOFGH;
     cogh := StateSpaceGasHolder.COGH;
     state := nominal |}.

Definition _calculate_net_flow (g : gas_type)
    (gas_production : gmap string Q) (gas_demands : Py.dict Q) : Q :=
  let production := default 0.0 (gas_production !! tag g) in
  let consumption :=
    fold_left (fun acc kv =>
                 if Py.contains (tag g) (Py.lower (fst kv)) then acc + snd kv
                 else acc)
              gas_demands 0.0 in
  production - consumption.

Definition get_soc (g : gas_type) (s : GasNetworkState) : Q :=
  match g with
  | bfg => soc_bfg s
  | bofg => soc_bofg s
  | cog => soc_cog s
  end.

Definition get_p (g : gas_type) (s : GasNetworkState) : Q :=
  match g with
  | bfg => p_bfg s
  | bofg => p_bofg s
  | cog => p_cog s
  end.

Definition get_model (g : gas_type) (self : t) : StateSpaceGasHolder.t :=
  match g with
  | bfg => bfgh self
  | bofg => bofgh self
  | cog => cogh self
  end.

(** The three [setattr] calls at the end of [_update_holder]. *)
Definition set_holder (g : gas_type) (new_soc new_p level : Q)
    (s : GasNetworkState) : GasNetworkState :=
  match g with
  | bfg =>
      {| soc_bfg := new_soc; p_bfg := new_p; bfg_level := level;
         soc_bofg := soc_bofg s; p_bofg := p_bofg s; bofg_level := bofg_level s;
         soc_cog := soc_cog s; p_cog := p_cog s; cog_level := cog_level s |}
  | bofg =>
      {| soc_bfg := soc_bfg s; p_bfg := p_bfg s; bfg_level := bfg_level s;
         soc_bofg := new_soc; p_bofg := new_p; bofg_level := level;
         soc_cog := soc_cog s; p_cog := p_cog s; cog_level := cog_level s |}
  | cog =>
      {| soc_bfg := soc_bfg s; p_bfg := p_bfg s; bfg_level := bfg_level s;
         soc_bofg := soc_bofg s; p_bofg := p_bofg s; bofg_level := bofg_level s;
         soc_cog := new_soc; p_cog := new_p; cog_level := level |}
  end.

Definition set_model (g : gas_type) (m : StateSpaceGasHolder.t)
    (s : GasNetworkState) (self : t) : t :=
  {| use_state_space_models := use_state_space_models self;
     bfgh := match g with bfg => m | _ => bfgh self end;
     bofgh := match g with bofg => m | _ => bofgh self end;
     cogh := match g with cog => m | _ => cogh self end;
     state := s |}.

Definition _update_holder (g : gas_type) (net_flow timestep : Q) (self : t) : t :=
  let current_soc := get_soc g (state self) in
  let capacity := capacities g in
  let delta_soc := (net_flow / 3600) * timestep * 60 / capacity in
  let new_soc := current_soc + delta_soc in
  let new_soc := Py.clip new_soc 0.05 0.95 in
  let new_p := p_min + new_soc * p_range in
  if use_state_space_models self then
    let '(model, level) := StateSpaceGasHolder.call (get_model g self) net_flow in
    set_model g model (set_holder g new_soc new_p level (state self)) self
  else
    set_model g (get_model g self)
              (set_holder g new_soc new_p new_soc (state self)) self.

Definition update (self : t) (gas_production : gmap string Q)
    (gas_demands : Py.dict Q) (timestep : Q) : t :=
  let bfg_net := _calculate_net_flow bfg gas_production gas_demands in
  let bofg_net := _calculate_net_flow bofg gas_production gas_demands in
  let cog_net := _calculate_net_flow cog gas_production gas_demands in
  let self := _update_holder bfg bfg_net timestep self in
  let self := _update_holder bofg bofg_net timestep self in
  _update_holder cog cog_net timestep self.

Definition reset (self : t) : t :=
  {| use_state_space_models := use_state_space_models self;
     bfgh := bfgh self; bofgh := bofgh self; cogh := cogh self;
     state := nominal |}.

Definition get_state_dict (self : t) : Py.dict Q := to_dict (state self).

End GasNetwork.

(* ================================================================== *)
(** ** env/mas_sim_env.py

    The digital twins are external to the control loop.  The environment
    is modelled in its [use_twins = False] configuration, the one it also
    falls back to when the twins cannot be loaded; the draw of
    [np.random.normal(0, 0.01)] in a step is an argument of [step]. *)

Module MAS_SimEnv.

Record t : Type := {
  message_bus : MessageBus.t;
  time : Q;
  timestep : Q;
  gas_network : GasNetwork.t;
  state : gmap string Py.value
}.

(** [agent_actions]: an absent key is [None] and is read as [{}]. *)
Record actions : Type := {
  BF : option BF_Agent.state;
  BOF : option BOF_Agent.state;
  CokeOven : option CokeOven_Agent.state;
  GasHolder : option GasHolder_Agent.state
}.

Definition initial_state : gmap string Py.value :=
  <["Si" := Py.Num 0.45]> (
  <["T_hot_metal" := Py.Num 1500]> (
  <["pig_iron_production" := Py.Num 200]> (
  <["T_steel" := Py.Num 1650]> (
  <["liquid_steel" := Py.Num 95]> (
  <["T_furnace" := Py.Num 1200]> (
  <["coke_production" := Py.Num 72]> (
  <["soc_bfg" := Py.Num 0.5]> (
  <["p_bfg" := Py.Num 12.0]> (
  <["bfg_supply" := Py.Num 100000]> (
  <["soc_bofg" := Py.Num 0.5]> (
  <["p_bofg" := Py.Num 12.0]> (
  <["bofg_supply" := Py.Num 30000]> (
  <["soc_cog" := Py.Num 0.5]> (
  <["p_cog" := Py.Num 12.0]> (
  <["cog_supply" := Py.Num 15000]> (
  <["COG_available" := Py.Num 15000]> (
  <["O2_available" := Py.Num 50000]> (
  <["peak_electricity" := Py.Bool false]> ∅)))))))))))))))))).

Definition init : t :=
  {| message_bus := MessageBus.init;
     time := 0.0;
     timestep := 1.0;
     gas_network := GasNetwork.init false;
     state := initial_state |}.

Definition get_message_bus (self : t) : MessageBus.t := message_bus self.

Definition get_observations (self : t) : gmap string Py.value := state self.

(** [d.update(other)] with the items of [other] in order. *)
Definition dict_update (d : gmap string Py.value) (other : Py.dict Q)
    : gmap string Py.value :=
  fold_left (fun acc kv => <[fst kv := Py.Num (snd kv)]> acc) other d.

(** [_step_simple_dynamics]; [None] is the KeyError of
    [self.state["Si"]]. *)
Definition _step_simple_dynamics (self : t) (bf_action : option BF_Agent.state)
    (gh_action : Py.dict Q) (noise : Q) : option t :=
  let wind :=
    match bf_action with
    | Some a => BF_Agent.wind_volume a
    | None => 4000
    end in
  let st := <["pig_iron_production" := Py.Num (wind / 20)]> (state self) in
  let st := <["bfg_supply" := Py.Num (wind * 25)]> st in
  let gas_production : gmap string Q :=
    <["bfg" := wind * 25]> (
    <["bofg" := Py.num (Py.get st "bofg_supply" (Py.Num 30000))]> (
    <["cog" := Py.num (Py.get st "cog_supply" (Py.Num 15000))]> ∅)) in
  let network :=
    GasNetwork.update (gas_network self) gas_production gh_action (timestep self) in
  let st := dict_update st (GasNetwork.to_dict (GasNetwork.state network)) in
  match st !! "Si" with
  | None => None
  | Some si =>
      let st := <["Si" := Py.Num (Py.num si + noise)]> st in
      let st := <["Si" := Py.Num (Py.clip (Py.num si + noise) 0.3 0.6)]> st in
      Some {| message_bus := message_bus self; time := time self;
              timestep := timestep self; gas_network := network; state := st |}
  end.

Definition step (self : t) (agent_actions : actions) (noise : Q)
    : option (t * gmap string Py.value) :=
  let now := time self + timestep self in
  let self :=
    {| message_bus := MessageBus.update_time (message_bus self) now;
       time := now; timestep := timestep self;
       gas_network := gas_network self; state := state self |} in
  let gh_action :=
    match GasHolder agent_actions with
    | Some a => GasHolder_Agent.items a
    | None => []
    end in
  match _step_simple_dynamics self (BF agent_actions) gh_action noise with
  | None => None
  | Some self => Some (self, get_observations self)
  end.

Definition reset (self : t) : t * gmap string Py.value :=
  let st := state self in
  let st := <["soc_bfg" := Py.Num 0.5]> st in
  let st := <["soc_bofg" := Py.Num 0.5]> st in
  let st := <["soc_cog" := Py.Num 0.5]> st in
  let st := <["Si" := Py.Num 0.45]> st in
  let st := <["T_hot_metal" := Py.Num 1500]> st in
  let st := <["T_steel" := Py.Num 1650]> st in
  let self :=
    {| message_bus := MessageBus.clear (message_bus self);
       time := 0.0; timestep := timestep self;
       gas_network := GasNetwork.reset (gas_network self);
       state := st |} in
  (self, get_observations self).

End MAS_SimEnv.

(* ================================================================== *)
(** ** main.py: the driver loop of [run_mas_simulation]

    The history lists and the printing are left out; a tick is the body
    of the [for] loop.  The agents are called as [agent.step(obs)], that
    is, with [message_bus = None]. *)

Module Main.

Record sim : Type := {
  env : MAS_SimEnv.t;
  bf_agent : BF_Agent.t;
  bof_agent : BOF_Agent.t;
  co_agent : CokeOven_Agent.t;
  gh_agent : GasHolder_Agent.t;
  obs : gmap string Py.value
}.

Definition start : sim :=
  let '(env, obs) := MAS_SimEnv.reset MAS_SimEnv.init in
  {| env := env;
     bf_agent := BF_Agent.init "BF1";
     bof_agent := BOF_Agent.init "BOF1";
     co_agent := CokeOven_Agent.init "CO1";
     gh_agent := GasHolder_Agent.init "GH1";
     obs := obs |}.

Definition clear_bus (e : MAS_SimEnv.t) : MAS_SimEnv.t :=
  {| MAS_SimEnv.message_bus := MessageBus.clear (MAS_SimEnv.message_bus e);
     MAS_SimEnv.time := MAS_SimEnv.time e;
     MAS_SimEnv.timestep := MAS_SimEnv.timestep e;
     MAS_SimEnv.gas_network := MAS_SimEnv.gas_network e;
     MAS_SimEnv.state := MAS_SimEnv.state e |}.

Definition tick (s : sim) (noise : Q) : option sim :=
  let env := clear_bus (env s) in
  let '(bf, bf_action) := BF_Agent.step (bf_agent s) (obs s) None in
  let '(bof, bof_action, _) := BOF_Agent.step (bof_agent s) (obs s) None in
  let '(co, co_action) := CokeOven_Agent.step (co_agent s) (obs s) None in
  let '(gh, gh_action) := GasHolder_Agent.step (gh_agent s) (obs s) None in
  let actions :=
    {| MAS_SimEnv.BF := Some bf_action; MAS_SimEnv.BOF := Some bof_action;
       MAS_SimEnv.CokeOven := Some co_action;
       MAS_SimEnv.GasHolder := Some gh_action |} in
  match MAS_SimEnv.step env actions noise with
  | None => None
  | Some (env, obs) =>
      Some {| env := env; bf_agent := bf; bof_agent := bof; co_agent := co;
              gh_agent := gh; obs := obs |}
  end.

(** [num_steps] ticks, one noise draw per tick. *)
Fixpoint run (s : sim) (noises : list Q) : option sim :=
  match noises with
  | [] => Some s
  | n :: rest =>
      match tick s n with
      | None => None
      | Some s' => run s' rest
      end
  end.

Definition run_mas_simulation (noises : list Q) : option sim := run start noises.

End Main.

(* ================================================================== *)
(** ** models/standard_interfaces.py and models/reward_calculation.py *)

Module Reward.

Record GasHolderState : Type := {
  soc_bfg : Q; soc_bofg : Q; soc_cog : Q;
  p_bfg : Q; p_bofg : Q; p_cog : Q
}.

Record ProductionState : Type := {
  bf_bfg_supply : Q;
  bf_t_hot_metal : Q;
  bf_si_content : Q;
  bof_bofg_supply : Q;
  coke_cog_supply : Q
}.

Record DemandState : Type := {
  power_plant_demand : Q;
  heating_demand : Q;
  priority_level : Q
}.

Record StandardState : Type := {
  time : Z;
  gas_holder : GasHolderState;
  production : ProductionState;
  demand : DemandState
}.

Record GasAllocation : Type := {
  bfg_to_power_plant : Q;
  bfg_to_heating : Q;
  bofg_to_power_plant : Q;
  cog_to_bf : Q;
  cog_to_heating : Q
}.

Record ProductionControl : Type := {
  bf_wind_volume : Q;
  bf_pci : Q;
  bf_o2_enrichment : Q;
  bof_oxygen : Q;
  bof_scrap_steel : Q;
  coke_pushing_rate : Q;
  coke_heating_gas : Q
}.

Record StandardAction : Type := {
  gas_allocation : GasAllocation;
  production_control : ProductionControl
}.

Record t : Type := {
  production_score : Q;
  stability_score : Q;
  efficiency_score : Q;
  total : Q;
  breakdown : Py.dict Q
}.

(** The list of penalties collected by the loop over the three SOCs;
    [rnd] is the rounding of the float operations. *)
Fixpoint soc_penalties (rnd : Q -> Q) (socs : list Q) : list Q :=
  match socs with
  | [] => []
  | soc :: rest =>
      if Py.lt soc 0.25 then rnd (0.25 - soc) :: soc_penalties rnd rest
      else if Py.gt soc 0.85 then rnd (soc - 0.85) :: soc_penalties rnd rest
      else soc_penalties rnd rest
  end.

(** [sum(l)]: the additions from the left, starting from 0, each one
    rounded (the summation of CPython up to 3.11; from 3.12 on [sum]
    compensates the rounding errors of the additions, which changes
    nothing for a list of at most two numbers). *)
Definition sum (rnd : Q -> Q) (l : list Q) : Q :=
  fold_left (fun acc x => rnd (acc + x)) l 0.

(** [calculate_reward]; [None] is the ZeroDivisionError of the
    utilization ratio. *)
Definition calculate_reward (rnd : Q -> Q) (state : StandardState)
    (action : StandardAction) (next_state : StandardState) : option t :=
  let bf_bfg := bf_bfg_supply (production next_state) in
  let production_score := Py.min (rnd (bf_bfg / 140000.0)) 1.0 in
  let soc_bfg := soc_bfg (gas_holder next_state) in
  let soc_bofg := soc_bofg (gas_holder next_state) in
  let soc_cog := soc_cog (gas_holder next_state) in
  let total_soc_penalty := sum rnd (soc_penalties rnd [soc_bfg; soc_bofg; soc_cog]) in
  let stability_score := Py.max 0.0 (rnd (1.0 - rnd (total_soc_penalty * 2.0))) in
  let total_supply :=
    rnd (rnd (bf_bfg_supply (production next_state)
              + bof_bofg_supply (production next_state))
         + coke_cog_supply (production next_state)) in
  let total_consumption :=
    rnd (rnd (rnd (rnd (bfg_to_power_plant (gas_allocation action)
                        + bfg_to_heating (gas_allocation action))
                   + bofg_to_power_plant (gas_allocation action))
              + cog_to_bf (gas_allocation action))
         + cog_to_heating (gas_allocation action)) in
  if Qeq_bool (rnd (total_supply + 1e-6)) 0 then None
  else
    let utilization := rnd (total_consumption / rnd (total_supply + 1e-6)) in
    let efficiency_score :=
      if Py.le 0.7 utilization && Py.le utilization 0.9 then 1.0
      else if Py.lt utilization 0.7 then rnd (utilization / 0.7)
      else Py.max 0.0 (rnd (1.0 - rnd (rnd (utilization - 0.9) * 5.0))) in
    let total :=
      rnd (rnd (rnd (0.4 * production_score) + rnd (0.4 * stability_score))
           + rnd (0.2 * efficiency_score)) in
    Some {| production_score := production_score;
            stability_score := stability_score;
            efficiency_score := efficiency_score;
            total := total;
            breakdown :=
              [("bf_bfg_supply", bf_bfg);
               ("soc_penalty_total", total_soc_penalty);
               ("soc_bfg", soc_bfg); ("soc_bofg", soc_bofg);
               ("soc_cog", soc_cog);
               ("utilization", utilization);
               ("total_supply", total_supply);
               ("total_consumption", total_consumption)] |}.

End Reward.

(* ================================================================== *)
(** ** Predicates used to state the properties *)

Module BF_Limits.
Import BF_Agent.

(** The table-bounded quantities of the blast furnace agent. *)
Definition within_limits (s : state) : Prop :=
  SafetyLimits.BF_WIND_MIN <= wind_volume s <= SafetyLimits.BF_WIND_MAX
  /\ 0 <= O2_enrichment s <= SafetyLimits.BF_O2_MAX
  /\ 0 <= PCI s <= SafetyLimits.BF_PCI_MAX.

End BF_Limits.

Module HolderInvariant.
Import GasNetwork.

(** One holder of the network: its state of charge is inside the safe
    window and its pressure is the affine image of the state of charge. *)
Definition holder_ok (g : gas_type) (s : GasNetworkState) : Prop :=
  0.05 <= get_soc g s <= 0.95
  /\ get_p g s == p_min + get_soc g s * p_range.

Definition network_ok (s : GasNetworkState) : Prop :=
  forall g, holder_ok g s.

End HolderInvariant.

Module StabilitySpec.
Import Reward.

(** The band of the stability score. *)
Definition in_band (soc : Q) : Prop := 0.25 <= soc <= 0.85.

(** The penalty the loop of [calculate_reward] collects for one SOC, if
    it collects one. *)
Definition penalty_of (rnd : Q -> Q) (soc : Q) : option Q :=
  if Py.lt soc 0.25 then Some (rnd (0.25 - soc))
  else if Py.gt soc 0.85 then Some (rnd (soc - 0.85))
  else None.

(** One step of the summation of the collected penalties. *)
Definition add_penalty (rnd : Q -> Q) (acc : Q) (p : option Q) : Q :=
  match p with
  | Some x => rnd (acc + x)
  | None => acc
  end.

(** The summed penalty of three SOCs and the score computed from it. *)
Definition total_penalty (rnd : Q -> Q) (a b c : Q) : Q :=
  add_penalty rnd
    (add_penalty rnd (add_penalty rnd 0 (penalty_of rnd a)) (penalty_of rnd b))
    (penalty_of rnd c).

Definition score_of (rnd : Q -> Q) (total : Q) : Q :=
  Py.max 0.0 (rnd (1.0 - rnd (total * 2.0))).

(** A penalty that is absent or smaller than another one. *)
Definition penalty_le (p p' : option Q) : Prop :=
  match p, p' with
  | None, None => True
  | None, Some x' => 0 <= x'
  | Some x, Some x' => x <= x'
  | Some _, None => False
  end.

Definition soc_of (g : gas_type) (s : StandardState) : Q :=
  match g with
  | bfg => soc_bfg (gas_holder s)
  | bofg => soc_bofg (gas_holder s)
  | cog => soc_cog (gas_holder s)
  end.

(** The state [s] with the SOC of one gas type replaced. *)
Definition set_soc (g : gas_type) (v : Q) (s : StandardState) : StandardState :=
  let h := gas_holder s in
  {| time := time s;
     gas_holder :=
       {| soc_bfg := match g with bfg => v | _ => soc_bfg h end;
          soc_bofg := match g with bofg => v | _ => soc_bofg h end;
          soc_cog := match g with cog => v | _ => soc_cog h end;
          p_bfg := p_bfg h; p_bofg := p_bofg h; p_cog := p_cog h |};
     production := production s;
     demand := demand s |}.

(** A SOC at or beyond an edge of the band moves further away from it. *)
Definition further_out (old new : Q) : Prop :=
  (new < old /\ old <= 0.25) \/ (old < new /\ 0.85 <= old).

Definition total_supply (rnd : Q -> Q) (s : StandardState) : Q :=
  rnd (rnd (bf_bfg_supply (production s) + bof_bofg_supply (production s))
       + coke_cog_supply (production s)).

(** The divisor of the utilization ratio. *)
Definition divisor (rnd : Q -> Q) (s : StandardState) : Q :=
  rnd (total_supply rnd s + 1e-6).

(** A state with the three SOCs given and nominal values elsewhere. *)
Definition state_with_socs (a b c : Q) : StandardState :=
  {| time := 0;
     gas_holder := {| soc_bfg := a; soc_bofg := b; soc_cog := c;
                      p_bfg := 12.0; p_bofg := 12.0; p_cog := 12.0 |};
     production := {| bf_bfg_supply := 100000; bf_t_hot_metal := 1500.0;
                      bf_si_content := 0.45; bof_bofg_supply := 30000;
                      coke_cog_supply := 15000 |};
     demand := {| power_plant_demand := 50000.0; heating_demand := 20000.0;
                  priority_level := 0.5 |} |}.

(** [create_default_action()] *)
Definition create_default_action : StandardAction :=
  {| gas_allocation :=
       {| bfg_to_power_plant := 30000.0; bfg_to_heating := 20000.0;
          bofg_to_power_plant := 10000.0; cog_to_bf := 5000.0;
          cog_to_heating := 3000.0 |};
     production_control :=
       {| bf_wind_volume := 4000.0; bf_pci := 150.0; bf_o2_enrichment := 3.5;
          bof_oxygen := 20000.0; bof_scrap_steel := 20.0;
          coke_pushing_rate := 1.2; coke_heating_gas := 15000.0 |} |}.

End StabilitySpec.

Module AllocationSpec.
Import RuleBasedController.


(** The amount a consumer holds in an allocation, 0 without an entry. *)
Definition allocated (allocation : gmap string Q) (c : string) : Q :=
  default 0 (allocation !! c).


End AllocationSpec.

Module Scenario.

(** The surge warning the BOF agent builds from its countdown, its blow
    duration and the observed SOC. *)
Definition surge_warning (self : BOF_Agent.t) (soc now : Q) : Message :=
  {| msg_type := BOFG_SURGE_WARNING;
     sender := "BOFAgent";
     receiver := "GasHolderAgent";
     timestamp := now;
     data := [("time_to_blow", BOF_Agent.time_to_next_blow self);
              ("expected_peak", 60000);
              ("duration", BOF_Agent.blow_duration (BOF_Agent.st self));
              ("gh_soc", soc)] |}.

(** The BOF agent of the driver after [n] ticks of nominal observations. *)
Definition bof_after (n : nat) : BOF_Agent.t :=
  Nat.iter n (fun a => fst (fst (BOF_Agent.step a (Main.obs Main.start) None)))
           (BOF_Agent.init "BOF1").

(** The keys [reset] assigns in the observation dictionary. *)
Definition reset_keys : list string :=
  ["soc_bfg"; "soc_bofg"; "soc_cog"; "Si"; "T_hot_metal"; "T_steel"].

End Scenario.

(* ================================================================== *)
(** ** protocols/gas_request.py: the other numeric messages

    [GasRequest] carries strings in its payload and is not modelled. *)

Module GasResponse.

Record t : Type := {
  allocated_amount : Q;
  available_amount : Q;
  allocation_ratio : Q
}.

Definition to_message (self : t) (from to : string) (timestamp : Q) : Message :=
  {| msg_type := GAS_RESPONSE;
     sender := from;
     receiver := to;
     timestamp := timestamp;
     data := [("allocated", allocated_amount self);
              ("available", available_amount self);
              ("ratio", allocation_ratio self)] |}.

End GasResponse.

Module StateBroadcast.

(** The broadcast state is a dictionary of numbers, as the agents'
    states are. *)
Record t : Type := {
  agent_name : string;
  state : Py.dict Q
}.

Definition to_message (self : t) (timestamp : Q) : Message :=
  {| msg_type := STATE_BROADCAST;
     sender := agent_name self;
     receiver := "all";
     timestamp := timestamp;
     data := state self |}.

End StateBroadcast.

(* ================================================================== *)
(** ** Sequences of agent steps *)

Module Runs.

(** One observation map and one optional bus per call of [step]. *)
Definition call : Type := gmap string Py.value * option MessageBus.t.

Definition bof_run (a : BOF_Agent.t) (calls : list call) : BOF_Agent.t :=
  foldl (fun a c => fst (fst (BOF_Agent.step a (fst c) (snd c)))) a calls.

Definition co_run (a : CokeOven_Agent.t) (calls : list call) : CokeOven_Agent.t :=
  foldl (fun a c => fst (CokeOven_Agent.step a (fst c) (snd c))) a calls.

Definition gh_run (a : GasHolder_Agent.t) (calls : list call) : GasHolder_Agent.t :=
  foldl (fun a c => fst (GasHolder_Agent.step a (fst c) (snd c))) a calls.

(** Repeated calls of [incremental_adjust] with the same bounds. *)
Definition adjust_many (v : Q) (steps : list (string * Q)) (lo : Q) (hi : bound) : Q :=
  foldl (fun v ds => RuleBasedController.incremental_adjust v (fst ds) (snd ds) lo hi)
        v steps.

End Runs.

(* ================================================================== *)
(** ** The action dictionaries returned by [get_state] *)

Module ActionDict.

Definition bf (s : BF_Agent.state) : gmap string Py.value :=
  <["wind_volume" := Py.Num (BF_Agent.wind_volume s)]> (
  <["O2_enrichment" := Py.Num (BF_Agent.O2_enrichment s)]> (
  <["PCI" := Py.Num (BF_Agent.PCI s)]> (
  <["COG_ratio" := Py.Num (BF_Agent.COG_ratio s)]> (
  <["Si_target" := Py.Num (BF_Agent.Si_target s)]> (
  <["T_target" := Py.Num (BF_Agent.T_target s)]> ∅))))).

Definition bof (s : BOF_Agent.state) : gmap string Py.value :=
  <["oxygen" := Py.Num (BOF_Agent.oxygen s)]> (
  <["scrap_steel" := Py.Num (BOF_Agent.scrap_steel s)]> (
  <["T_target" := Py.Num (BOF_Agent.T_target s)]> (
  <["blow_time" := Py.Num (BOF_Agent.blow_time s)]> (
  <["blow_duration" := Py.Num (BOF_Agent.blow_duration s)]> ∅)))).

Definition coke_oven (s : CokeOven_Agent.state) : gmap string Py.value :=
  <["heating_gas_input" := Py.Num (CokeOven_Agent.heating_gas_input s)]> (
  <["pushing_rate" := Py.Num (CokeOven_Agent.pushing_rate s)]> (
  <["T_target" := Py.Num (CokeOven_Agent.T_target s)]> ∅)).

End ActionDict.

(* ================================================================== *)
(** ** models/twin_data.py: the typed twin inputs *)

Module BFInput.

Record t : Type := {
  ore : Q;
  pellets : Q;
  sinter : Q;
  coke_mass_flow : Q;
  coke_gas_flow : Q;
  calorific_value_coke_gas : Q;
  power : Q;
  oxygen : Q;
  wind_volume : Q;
  intern_bf_gas_percentage : Q;
  power_plant_bf_gas_percentage : Q;
  slab_heat_furnace_bf_gas_percentage : Q;
  coke_plant_bf_gas_percentage : Q
}.

Definition validate (self : t) : bool :=
  let percentages :=
    intern_bf_gas_percentage self + power_plant_bf_gas_percentage self
    + slab_heat_furnace_bf_gas_percentage self + coke_plant_bf_gas_percentage self in
  if Py.gt (Qabs (percentages - 100.0)) 0.01 then false
  else if existsb (fun val => Py.lt val 0)
            [ore self; pellets self; sinter self; coke_mass_flow self;
             coke_gas_flow self; power self; oxygen self]
  then false
  else true.

End BFInput.

Module BOFInput.

Record t : Type := {
  pig_iron : Q;
  scrap_steel : Q;
  oxygen : Q;
  lime : Q;
  power : Q
}.

Definition validate (self : t) : bool :=
  forallb (fun val => Py.le 0 val)
    [pig_iron self; scrap_steel self; oxygen self; lime self; power self].

End BOFInput.

Module CokeOvenInput.

Record t : Type := {
  coal_input : Q;
  heating_gas : Q;
  heating_gas_calorific_value : Q;
  steam : Q;
  power : Q
}.

Definition validate (self : t) : bool :=
  forallb (fun val => Py.le 0 val)
    [coal_input self; heating_gas self; heating_gas_calorific_value self;
     steam self; power self].

End CokeOvenInput.

(* ================================================================== *)
(** ** translators/twin_translator.py: from actions to twin inputs *)

Module TwinTranslator.

Definition PCI_TO_COKE_FACTOR : Q := 1.5.

Definition bf_action_to_twin_input (agent_action env_state : gmap string Py.value)
    : BFInput.t :=
  let wind_volume := Py.num (Py.get agent_action "wind_volume" (Py.Num 4000)) in
  let o2_enrichment_pct := Py.num (Py.get agent_action "O2_enrichment" (Py.Num 3.5)) in
  let pci := Py.num (Py.get agent_action "PCI" (Py.Num 150)) in
  let coke_mass_flow := pci / PCI_TO_COKE_FACTOR in
  let base_o2_from_wind := 0.21 * wind_volume * 60 in
  let oxygen_enrichment_flow := base_o2_from_wind * (o2_enrichment_pct / 100) in
  let cog_available := Py.num (Py.get env_state "COG_available" (Py.Num 20000)) in
  {| BFInput.ore := 50.0;
     BFInput.pellets := 100.0;
     BFInput.sinter := 100.0;
     BFInput.coke_mass_flow := coke_mass_flow;
     BFInput.coke_gas_flow := cog_available;
     BFInput.calorific_value_coke_gas := 20.0;
     BFInput.power := 50000.0;
     BFInput.oxygen := base_o2_from_wind;
     BFInput.wind_volume := wind_volume;
     BFInput.intern_bf_gas_percentage := 50.0;
     BFInput.power_plant_bf_gas_percentage := 20.0;
     BFInput.slab_heat_furnace_bf_gas_percentage := 20.0;
     BFInput.coke_plant_bf_gas_percentage := 10.0 |}.

Definition bof_action_to_twin_input (agent_action env_state : gmap string Py.value)
    : BOFInput.t :=
  let oxygen := Py.num (Py.get agent_action "oxygen" (Py.Num 45000)) in
  let scrap_steel := Py.num (Py.get agent_action "scrap_steel" (Py.Num 20)) in
  let pig_iron_available :=
    Py.num (Py.get env_state "pig_iron_production" (Py.Num 200)) in
  let pig_iron_to_bof := Py.min pig_iron_available 80 in
  {| BOFInput.pig_iron := pig_iron_to_bof;
     BOFInput.scrap_steel := scrap_steel;
     BOFInput.oxygen := oxygen;
     BOFInput.lime := 5.0;
     BOFInput.power := 5000.0 |}.

Definition coke_oven_action_to_twin_input
    (agent_action env_state : gmap string Py.value) : CokeOvenInput.t :=
  let heating_gas := Py.num (Py.get agent_action "heating_gas_input" (Py.Num 15000)) in
  {| CokeOvenInput.coal_input := 100.0;
     CokeOvenInput.heating_gas := heating_gas;
     CokeOvenInput.heating_gas_calorific_value := 4.5;
     CokeOvenInput.steam := 2.0;
     CokeOvenInput.power := 3000.0 |}.

Definition calculate_gas_net_flow (gas_production : Q)
    (gas_consumption_dict : Py.dict Q) (g : gas_type) : Q :=
  let consumption :=
    fold_left (fun acc kv =>
                 if Py.contains (tag g) (Py.lower (fst kv)) then acc + snd kv
                 else acc)
              gas_consumption_dict 0.0 in
  gas_production - consumption.

End TwinTranslator.

(* ================================================================== *)
(** ** models/enhanced_recorder.py *)

Module EnhancedDataRecorder.

Record Transition : Type := {
  state : Reward.StandardState;
  action : Reward.StandardAction;
  next_state : Reward.StandardState;
  reward : Reward.t;
  step : nat;
  done : bool
}.

Record t : Type := {
  transitions : list Transition;
  rewards : list Reward.t;
  states : list Reward.StandardState;
  actions : list Reward.StandardAction;
  episode_count : nat;
  current_episode_steps : nat
}.

Definition init : t :=
  {| transitions := []; rewards := []; states := []; actions := [];
     episode_count := 0; current_episode_steps := 0 |}.

(** [record_transition]; the reward is computed when it is not given, with
    the rounding [rnd] of [calculate_reward], and [None] is the
    ZeroDivisionError of that computation. *)
Definition record_transition (rnd : Q -> Q) (self : t) (s : Reward.StandardState)
    (a : Reward.StandardAction) (ns : Reward.StandardState)
    (given : option Reward.t) (is_done : bool) : option t :=
  let computed :=
    match given with
    | Some r => Some r
    | None => Reward.calculate_reward rnd s a ns
    end in
  match computed with
  | None => None
  | Some r =>
      let transition :=
        {| state := s; action := a; next_state := ns; reward := r;
           step := length (transitions self); done := is_done |} in
      let steps := S (current_episode_steps self) in
      Some {| transitions := (transitions self ++ [transition])%list;
              rewards := (rewards self ++ [r])%list;
              states := (states self ++ [s])%list;
              actions := (actions self ++ [a])%list;
              episode_count :=
                if is_done then S (episode_count self) else episode_count self;
              current_episode_steps := if is_done then 0%nat else steps |}
  end.

(** [self.transitions[-n:]]: a negative start counts from the end and is
    cut at the front of the list; [-0] is [0]. *)
Definition get_last_n_transitions (self : t) (n : Z) : list Transition :=
  let len := Z.of_nat (length (transitions self)) in
  let start := if (0 <? n)%Z then Z.max (len - n) 0 else Z.min (- n) len in
  drop (Z.to_nat start) (transitions self).

(** One recorded call: the arguments of [record_transition]. *)
Definition entry : Type :=
  Reward.StandardState * Reward.StandardAction * Reward.StandardState
  * option Reward.t * bool.

Fixpoint record_all (rnd : Q -> Q) (self : t) (entries : list entry) : option t :=
  match entries with
  | [] => Some self
  | (s, a, ns, r, d) :: rest =>
      match record_transition rnd self s a ns r d with
      | None => None
      | Some self' => record_all rnd self' rest
      end
  end.

End EnhancedDataRecorder.

(* ================================================================== *)
(** ** Predicates used to state the further properties *)

Module AgentLimits.

(** The BOF agent: oxygen within its hard limit, scrap between its
    initial value and its ceiling, targets as constructed. *)
Definition bof_ok (s : BOF_Agent.state) : Prop :=
  0 <= BOF_Agent.oxygen s <= 60000
  /\ 20 <= BOF_Agent.scrap_steel s <= 30
  /\ BOF_Agent.T_target s = 1650
  /\ BOF_Agent.blow_duration s = 18.

(** The coke oven agent: heating gas and pushing rate within the floors
    and ceilings of its rules. *)
Definition co_ok (s : CokeOven_Agent.state) : Prop :=
  5000 <= CokeOven_Agent.heating_gas_input s <= 25000
  /\ 0.7 <= CokeOven_Agent.pushing_rate s <= 1.2
  /\ CokeOven_Agent.T_target s = 1200.

(** The gas holder agent: every outflow between the floor and the ceiling
    its rules use for it. *)
Definition gh_ok (s : GasHolder_Agent.state) : Prop :=
  10000 <= GasHolder_Agent.bfg_to_pp s <= 80000
  /\ 5000 <= GasHolder_Agent.bfg_to_heating s <= 50000
  /\ 5000 <= GasHolder_Agent.bofg_to_pp s <= 40000
  /\ 3000 <= GasHolder_Agent.bofg_to_heating s <= 10000
  /\ 2000 <= GasHolder_Agent.cog_to_heating s <= 15000
  /\ 1000 <= GasHolder_Agent.cog_to_bf s <= 10000.

End AgentLimits.

Module DriverSpec.

(** Observation keys the agents ask for and the environment never
    provides. *)
Definition unread_keys : list string :=
  ["SOC_bfg"; "P_bfg"; "COG_required"; "SOC_bofg"; "P_bofg"; "P_bof_gas";
   "bof_gas_current"; "SOC_cog"; "COG_demand"].

(** What holds of the driver between two ticks. *)
Definition driver_ok (s : Main.sim) : Prop :=
  is_Some (MAS_SimEnv.state (Main.env s) !! "Si")
  /\ MAS_SimEnv.timestep (Main.env s) = 1.0
  /\ Main.obs s = MAS_SimEnv.state (Main.env s)
  /\ MessageBus.messages (MAS_SimEnv.message_bus (Main.env s)) = []
  /\ (forall k, k ∈ unread_keys -> Main.obs s !! k = None)
  /\ BF_Agent.gh_full_action_active (BF_Agent.hyst (Main.bf_agent s)) = false
  /\ BF_Agent.gh_empty_action_active (BF_Agent.hyst (Main.bf_agent s)) = false.

End DriverSpec.

(* ================================================================== *)
(** * Properties *)

(** ** Comparisons and bounds *)

Section Comparisons.

Lemma lt_true (a b : Q) : Py.lt a b = true -> a < b.
Proof.
  unfold Py.lt. intros H. apply negb_true_iff in H.
  destruct (Qlt_le_dec a b) as [Hlt | Hle]; [exact Hlt |].
  apply Qle_bool_iff in Hle. congruence.
Qed.

Lemma lt_false (a b : Q) : Py.lt a b = false -> b <= a.
Proof.
  unfold Py.lt. intros H. apply negb_false_iff in H.
  now apply Qle_bool_iff.
Qed.

Lemma le_true (a b : Q) : Py.le a b = true -> a <= b.
Proof. unfold Py.le. apply Qle_bool_iff. Qed.

Lemma le_false (a b : Q) : Py.le a b = false -> b < a.
Proof.
  unfold Py.le. intros H.
  destruct (Qlt_le_dec b a) as [Hlt | Hle]; [exact Hlt |].
  apply Qle_bool_iff in Hle. congruence.
Qed.

Lemma lt_intro (a b : Q) : a < b -> Py.lt a b = true.
Proof.
  intros H. destruct (Py.lt a b) eqn:E; [reflexivity |].
  apply lt_false in E. lra.
Qed.

Lemma le_intro (a b : Q) : a <= b -> Py.le a b = true.
Proof. unfold Py.le. apply Qle_bool_iff. Qed.

End Comparisons.

(** Case analysis on every comparison of the goal, turning the boolean
    outcomes into order facts. *)
Ltac no_if t :=
  lazymatch t with
  | context [if _ then _ else _] => fail
  | _ => idtac
  end.

Ltac cmp_cases :=
  repeat match goal with
    | |- context [Py.lt ?a ?b] =>
        no_if a; no_if b;
        let E := fresh "E" in
        destruct (Py.lt a b) eqn:E;
        [apply lt_true in E | apply lt_false in E]
    | |- context [Py.le ?a ?b] =>
        no_if a; no_if b;
        let E := fresh "E" in
        destruct (Py.le a b) eqn:E;
        [apply le_true in E | apply le_false in E]
    end.

(** Split a conjunction into its components, and nothing else. *)
Ltac split_conj := repeat match goal with |- _ /\ _ => split end.

Section Clamp.
Import RuleBasedController.

Lemma max_spec (a b : Q) : a <= Py.max a b /\ b <= Py.max a b
                           /\ (Py.max a b = a \/ Py.max a b = b).
Proof. unfold Py.max, Py.gt. cmp_cases; repeat split; auto; lra. Qed.


Lemma clip_bounds (x lo hi : Q) : lo <= hi -> lo <= Py.clip x lo hi <= hi.
Proof.
  intros H. unfold Py.clip, Py.min, Py.max, Py.gt. cmp_cases; lra.
Qed.

Lemma clip_inside (x lo hi : Q) : lo <= x <= hi -> Py.clip x lo hi == x.
Proof.
  intros H. unfold Py.clip, Py.min, Py.max, Py.gt. cmp_cases; lra.
Qed.

Lemma clamp_bounds (v lo hi : Q) : lo <= hi -> lo <= clamp v lo hi <= hi.
Proof.
  intros H. unfold clamp, min_bound, Py.min, Py.max, Py.gt. cmp_cases; lra.
Qed.

Lemma clamp_inside (v lo hi : Q) : lo <= v <= hi -> clamp v lo hi == v.
Proof.
  intros H. unfold clamp, min_bound, Py.min, Py.max, Py.gt. cmp_cases; lra.
Qed.

(** A decrease never leaves the interval between the floor and the
    current value. *)
Lemma decrease_bounds (v s lo : Q) :
  0 <= s <= 1 -> 0 <= v -> lo <= v ->
  lo <= incremental_adjust v "decrease" s lo Inf <= v.
Proof.
  intros Hs Hv Hlo. unfold incremental_adjust. cbn [String.eqb Ascii.eqb Bool.eqb].
  cbn. unfold clamp, min_bound, Py.max, Py.gt.
  assert (v * (1 - s) <= v) by nra.
  cmp_cases; lra.
Qed.

(** An increase never leaves the interval between the current value
    and the ceiling. *)
Lemma increase_bounds (v s lo hi : Q) :
  0 <= s -> 0 <= v -> lo <= v -> v <= hi ->
  v <= incremental_adjust v "increase" s lo hi <= hi.
Proof.
  intros Hs Hv Hlo Hhi. unfold incremental_adjust. cbn.
  unfold clamp, min_bound, Py.max, Py.min, Py.gt.
  assert (v <= v * (1 + s)) by nra.
  cmp_cases; lra.
Qed.

End Clamp.

(** ** The blast furnace agent stays within its safety limits *)

Section BF_LimitsProofs.
Import RuleBasedController BF_Agent.

Arguments incremental_adjust : simpl never.
Arguments clamp : simpl never.

(** Name the innermost adjusted value and record its bounds. *)
Ltac name_adjust :=
  match goal with
  | |- context [incremental_adjust ?v "decrease" ?s ?lo Inf] =>
      lazymatch v with
      | context [incremental_adjust] => fail
      | context [clamp] => fail
      | _ => idtac
      end;
      let H := fresh "Hadj" in
      let x := fresh "x" in
      assert (H : lo <= incremental_adjust v "decrease" s lo Inf <= v)
        by (apply decrease_bounds; lra);
      set (x := incremental_adjust v "decrease" s lo Inf) in *; clearbody x
  | |- context [incremental_adjust ?v "increase" ?s ?lo (Fin ?hi)] =>
      lazymatch v with
      | context [incremental_adjust] => fail
      | context [clamp] => fail
      | _ => idtac
      end;
      let H := fresh "Hadj" in
      let x := fresh "x" in
      assert (H : v <= incremental_adjust v "increase" s lo hi <= hi)
        by (apply increase_bounds; lra);
      set (x := incremental_adjust v "increase" s lo hi) in *; clearbody x
  | |- context [clamp ?v ?lo (Fin ?hi)] =>
      let H := fresh "Hclamp" in
      let x := fresh "x" in
      assert (H : lo <= clamp v lo hi <= hi) by (apply clamp_bounds; lra);
      set (x := clamp v lo hi) in *; clearbody x
  end.

(** Split on the innermost condition of the rule under study. *)
Ltac split_rule :=
  match goal with
  | |- context [if ?c then _ else _] => no_if c; destruct c
  end.

Ltac limits_tac :=
  unfold BF_Limits.within_limits, SafetyLimits.BF_WIND_MIN, SafetyLimits.BF_WIND_MAX,
    SafetyLimits.BF_O2_MAX, SafetyLimits.BF_PCI_MAX in *;
  repeat split_rule; cbn; repeat name_adjust; lra.

Lemma safety_rules_limits (Si T O2a : Q) (a : t) :
  BF_Limits.within_limits (st a) -> BF_Limits.within_limits (st (_apply_safety_rules Si T O2a a)).
Proof. intros H. unfold _apply_safety_rules. limits_tac. Qed.

Lemma process_rules_limits (Si : Q) (a : t) :
  BF_Limits.within_limits (st a) -> BF_Limits.within_limits (st (_apply_process_rules Si a)).
Proof. intros H. unfold _apply_process_rules. limits_tac. Qed.

Lemma energy_rules_limits (soc p ca cr o2 : Q) (a : t) :
  BF_Limits.within_limits (st a) -> BF_Limits.within_limits (st (_apply_energy_rules soc p ca cr o2 a)).
Proof. intros H. unfold _apply_energy_rules. limits_tac. Qed.

Lemma economic_rules_limits (peak : bool) (a : t) :
  BF_Limits.within_limits (st a) -> BF_Limits.within_limits (st (_apply_economic_rules peak a)).
Proof. intros H. unfold _apply_economic_rules. limits_tac. Qed.

Lemma step_limits (a : t) (obs : gmap string Py.value) (bus : option MessageBus.t) :
  BF_Limits.within_limits (st a) -> BF_Limits.within_limits (st (fst (step a obs bus))).
Proof.
  intros H. unfold step. cbn [fst].
  apply economic_rules_limits, energy_rules_limits, process_rules_limits,
    safety_rules_limits, H.
Qed.

Lemma init_limits (id : string) : BF_Limits.within_limits (st (init id)).
Proof. unfold BF_Limits.within_limits. split_conj; vm_compute; congruence. Qed.

Lemma run_snoc (a : t) (obs : list (gmap string Py.value)) (o : gmap string Py.value) :
  run a (obs ++ [o]) = fst (step (run a obs) o None).
Proof. unfold run. now rewrite foldl_app. Qed.

Lemma step_returns_state (a : t) (obs : gmap string Py.value)
    (bus : option MessageBus.t) :
  snd (step a obs bus) = st (fst (step a obs bus)).
Proof. reflexivity. Qed.

End BF_LimitsProofs.

(** C2: along every sequence of [BF_Agent.step] calls from the constructed
    agent, whatever the observation maps hold (absent keys, out-of-range
    numbers, booleans), the wind volume stays in [1000, 8000], the O2
    enrichment in [0, 6.0] and the PCI rate in [0, 200]; [step] is a total
    function and the action it returns is the state it leaves behind. *)
Theorem bf_agent_within_safety_limits :
  forall (id : string) (obs : list (gmap string Py.value)),
    let a := BF_Agent.run (BF_Agent.init id) obs in
    (1000 <= BF_Agent.wind_volume (BF_Agent.st a) <= 8000
     /\ 0 <= BF_Agent.O2_enrichment (BF_Agent.st a) <= 6.0
     /\ 0 <= BF_Agent.PCI (BF_Agent.st a) <= 200)
    /\ forall o bus, snd (BF_Agent.step a o bus)
                     = BF_Agent.st (fst (BF_Agent.step a o bus)).
Proof.
  intros id obs a. split; [| intros; apply step_returns_state].
  change (BF_Limits.within_limits (BF_Agent.st a)). subst a.
  induction obs as [| o obs IH] using rev_ind.
  - apply init_limits.
  - rewrite run_snoc. now apply step_limits.
Qed.

(** ** Hysteresis *)

Section Hysteresis.
Import RuleBasedController.

(** What the function computes for an active flag between the outer
    thresholds: the flag survives exactly inside the half-band. *)
Lemma hysteresis_active_between (v t ub lb : Q) :
  t - lb <= v <= t + ub ->
  hysteresis_check v t ub lb true
  = if Py.le (t - lb / 2) v && Py.le v (t + ub / 2)
    then (true, "within_hysteresis") else (false, "normal").
Proof.
  intros [Hlo Hhi]. unfold hysteresis_check, Py.gt.
  destruct (Py.lt (t + ub) v) eqn:E1; [apply lt_true in E1; lra |].
  destruct (Py.lt v (t - lb)) eqn:E2; [apply lt_true in E2; lra |].
  reflexivity.
Qed.

(** The inline hysteresis of the blast furnace agent keeps its flag
    between the release threshold and the trigger threshold. *)
Lemma bf_si_high_flag_kept (Si : Q) (a : BF_Agent.t) :
  BF_Agent.Si_target (BF_Agent.st a) + BF_Agent.Si_band / 2 <= Si ->
  Si <= BF_Agent.Si_target (BF_Agent.st a) + BF_Agent.Si_band ->
  BF_Agent.si_high_action_active (BF_Agent.hyst (BF_Agent._apply_process_rules Si a))
  = BF_Agent.si_high_action_active (BF_Agent.hyst a).
Proof.
  intros H1 H2. unfold BF_Agent._apply_process_rules, Py.gt.
  destruct (Py.lt (_ + BF_Agent.Si_band) Si) eqn:E1; [apply lt_true in E1; lra |].
  destruct (Py.lt Si (_ + BF_Agent.Si_band / 2)) eqn:E2; [apply lt_true in E2; lra |].
  repeat match goal with
         | |- context [if ?c then _ else _] => destruct c
         end; reflexivity.
Qed.

End Hysteresis.

(** C1, amended: for an active flag and a value between the outer
    thresholds, [hysteresis_check] keeps the flag, with the reason
    "within_hysteresis", exactly while the value is inside the half-band
    [target - lower_band/2, target + upper_band/2]; once the value is
    between the half-band and an outer threshold it releases the flag,
    with the reason "normal".  The band that triggers is the wide one, the
    band that holds is the narrow one. *)
Theorem hysteresis_check_release_rule :
  forall (value target upper_band lower_band : Q),
    target - lower_band <= value <= target + upper_band ->
    (target - lower_band / 2 <= value <= target + upper_band / 2 ->
     RuleBasedController.hysteresis_check value target upper_band lower_band true
     = (true, "within_hysteresis"))
    /\ (value < target - lower_band / 2 \/ target + upper_band / 2 < value ->
        RuleBasedController.hysteresis_check value target upper_band lower_band true
        = (false, "normal")).
Proof.
  intros v t ub lb Hbetween. rewrite (hysteresis_active_between v t ub lb Hbetween).
  split.
  - intros [H1 H2]. now rewrite (le_intro _ _ H1), (le_intro _ _ H2).
  - intros [H | H].
    + destruct (Py.le (t - lb / 2) v) eqn:E; [apply le_true in E; lra | reflexivity].
    + destruct (Py.le v (t + ub / 2)) eqn:E; [apply le_true in E; lra |].
      now rewrite andb_false_r.
Qed.

Lemma hysteresis_check_release_rule_witness :
  RuleBasedController.hysteresis_check 96 100 10 10 true = (true, "within_hysteresis").
Proof.
  refine (proj1 (hysteresis_check_release_rule 96 100 10 10 _) _);
    split; vm_compute; congruence.
Defined.

(** C1 as stated fails: an active flag at value 107 (target 100, bands
    10) is between the half-band [95, 105] and the outer threshold 110,
    so the value has not re-entered the half-band, and the flag is
    released; at 103, back inside the half-band, the flag is kept. *)
Lemma hysteresis_check_drops_flag_outside_half_band :
  RuleBasedController.hysteresis_check 107 100 10 10 true = (false, "normal")
  /\ RuleBasedController.hysteresis_check 103 100 10 10 true
     = (true, "within_hysteresis").
Proof. split; reflexivity. Qed.

(** C8: [hysteresis_check] returns an active flag whenever the value is
    beyond an outer threshold, whatever the incoming flag, and, for an
    active incoming flag, whenever the value is within the half-band;
    with target 100 and bands 10, an inactive flag becomes active at 112
    and an active flag stays active at 103 for the reason
    "within_hysteresis". *)
Theorem hysteresis_check_activation :
  forall (value target upper_band lower_band : Q) (flag : bool),
    (target + upper_band < value \/ value < target - lower_band
     \/ (flag = true
         /\ target - lower_band / 2 <= value /\ value <= target + upper_band / 2)) ->
    fst (RuleBasedController.hysteresis_check value target upper_band lower_band flag)
    = true
    /\ RuleBasedController.hysteresis_check 112 100 10 10 false
       = (true, "above_upper_band")
    /\ RuleBasedController.hysteresis_check 103 100 10 10 true
       = (true, "within_hysteresis").
Proof.
  intros v t ub lb flag H. split; [| split; reflexivity].
  unfold RuleBasedController.hysteresis_check, Py.gt.
  destruct (Py.lt (t + ub) v) eqn:E1; [reflexivity |].
  destruct (Py.lt v (t - lb)) eqn:E2; [reflexivity |].
  apply lt_false in E1, E2.
  destruct H as [H | [H | (-> & H1 & H2)]]; [lra | lra |].
  rewrite (le_intro _ _ H1), (le_intro _ _ H2). reflexivity.
Qed.

Lemma hysteresis_check_activation_witness :
  fst (RuleBasedController.hysteresis_check 103 100 10 10 true) = true
  /\ RuleBasedController.hysteresis_check 112 100 10 10 false
     = (true, "above_upper_band")
  /\ RuleBasedController.hysteresis_check 103 100 10 10 true
     = (true, "within_hysteresis").
Proof.
  apply (hysteresis_check_activation 103 100 10 10 true).
  right. right. split; [reflexivity | split; vm_compute; congruence].
Defined.

(** ** The gas network *)

Section GasNetworkProofs.
Import GasNetwork HolderInvariant.

Lemma nominal_ok : network_ok nominal.
Proof. intros []; split; vm_compute; (reflexivity || (split; congruence)). Qed.

(** [_update_holder] establishes the invariant of the holder it updates. *)
Lemma update_holder_same (g : gas_type) (net ts : Q) (n : t) :
  holder_ok g (state (_update_holder g net ts n)).
Proof.
  unfold holder_ok, _update_holder, StateSpaceGasHolder.call.
  destruct (use_state_space_models n), g; cbn;
    (split; [apply clip_bounds; vm_compute; congruence | reflexivity]).
Qed.

(** and leaves the other holders as they were. *)
Lemma update_holder_other (g h : gas_type) (net ts : Q) (n : t) :
  g <> h ->
  get_soc h (state (_update_holder g net ts n)) = get_soc h (state n)
  /\ get_p h (state (_update_holder g net ts n)) = get_p h (state n).
Proof.
  intros Hne. unfold _update_holder, StateSpaceGasHolder.call.
  destruct (use_state_space_models n), g, h; cbn; try congruence; split; reflexivity.
Qed.

Lemma update_holder_keeps (g h : gas_type) (net ts : Q) (n : t) :
  g <> h -> holder_ok h (state n) ->
  holder_ok h (state (_update_holder g net ts n)).
Proof.
  intros Hne Hok. unfold holder_ok.
  destruct (update_holder_other g h net ts n Hne) as [-> ->]. exact Hok.
Qed.

Lemma update_ok (n : t) (production : gmap string Q) (demands : Py.dict Q) (ts : Q) :
  network_ok (state (update n production demands ts)).
Proof.
  intros g. unfold update. destruct g.
  - apply update_holder_keeps; [discriminate |].
    apply update_holder_keeps; [discriminate |]. apply update_holder_same.
  - apply update_holder_keeps; [discriminate |]. apply update_holder_same.
  - apply update_holder_same.
Qed.

End GasNetworkProofs.

(** C3: after construction, after [reset] and after every [update],
    whatever the production map, the demand map, the timestep and the
    state before, each of the three states of charge lies in [0.05, 0.95]
    and each stored pressure is [p_min + soc * p_range], that is
    [8.0 + soc * 8.0]. *)
Theorem gas_network_soc_and_pressure_invariant :
  forall (use_models : bool) (n : GasNetwork.t) (production : gmap string Q)
         (demands : Py.dict Q) (timestep : Q) (s : GasNetwork.GasNetworkState),
    s = GasNetwork.state (GasNetwork.init use_models)
    \/ s = GasNetwork.state (GasNetwork.reset n)
    \/ s = GasNetwork.state (GasNetwork.update n production demands timestep) ->
    (0.05 <= GasNetwork.soc_bfg s <= 0.95
     /\ GasNetwork.p_bfg s == 8.0 + GasNetwork.soc_bfg s * 8.0)
    /\ (0.05 <= GasNetwork.soc_bofg s <= 0.95
        /\ GasNetwork.p_bofg s == 8.0 + GasNetwork.soc_bofg s * 8.0)
    /\ (0.05 <= GasNetwork.soc_cog s <= 0.95
        /\ GasNetwork.p_cog s == 8.0 + GasNetwork.soc_cog s * 8.0).
Proof.
  intros b n production demands ts s Hs.
  assert (Hok : HolderInvariant.network_ok s).
  { destruct Hs as [-> | [-> | ->]];
      [apply nominal_ok | apply nominal_ok | apply update_ok]. }
  exact (conj (Hok bfg) (conj (Hok bofg) (Hok cog))).
Qed.

Lemma gas_network_soc_and_pressure_invariant_witness :
  let s := GasNetwork.state (GasNetwork.reset (GasNetwork.init false)) in
  (0.05 <= GasNetwork.soc_bfg s <= 0.95
   /\ GasNetwork.p_bfg s == 8.0 + GasNetwork.soc_bfg s * 8.0)
  /\ (0.05 <= GasNetwork.soc_bofg s <= 0.95
      /\ GasNetwork.p_bofg s == 8.0 + GasNetwork.soc_bofg s * 8.0)
  /\ (0.05 <= GasNetwork.soc_cog s <= 0.95
      /\ GasNetwork.p_cog s == 8.0 + GasNetwork.soc_cog s * 8.0).
Proof.
  exact (gas_network_soc_and_pressure_invariant false (GasNetwork.init false)
           ∅ [] 1.0 _ (or_intror (or_introl eq_refl))).
Defined.


(** ** Roundings *)

Section Rounding.

Variable rnd : Q -> Q.
Hypothesis Hrnd : Py.rounding rnd.

Lemma rnd_mono (x y : Q) : x <= y -> rnd x <= rnd y.
Proof. apply Hrnd. Qed.

Lemma rnd_eq (x y : Q) : x == y -> rnd x == rnd y.
Proof.
  intros H. apply Qle_antisym; apply rnd_mono; rewrite H; apply Qle_refl.
Qed.

Lemma rnd_idem (x : Q) : rnd (rnd x) == rnd x.
Proof. apply Hrnd. Qed.

Lemma rnd_zero (x : Q) : x == 0 -> rnd x == 0.
Proof.
  intros H. rewrite (rnd_eq x 0 H). apply Hrnd.
Qed.

Lemma rnd_one (x : Q) : x == 1 -> rnd x == 1.
Proof.
  intros H. rewrite (rnd_eq x 1 H). apply Hrnd.
Qed.

Lemma rnd_nonneg (x : Q) : 0 <= x -> 0 <= rnd x.
Proof.
  intros H. apply rnd_mono in H. rewrite (rnd_zero 0) in H; [exact H | reflexivity].
Qed.

(** A rounding does not cross a number that it leaves unchanged. *)
Lemma rnd_below (x f : Q) : rnd f == f -> x <= f -> rnd x <= f.
Proof. intros Hf H. rewrite <- Hf. now apply rnd_mono. Qed.

Lemma rnd_above (x f : Q) : rnd f == f -> f <= x -> f <= rnd x.
Proof. intros Hf H. rewrite <- Hf. now apply rnd_mono. Qed.

End Rounding.

Lemma exact_rounding : Py.rounding Py.exact.
Proof. unfold Py.rounding, Py.exact. split_conj; intros; first [assumption | reflexivity]. Qed.

(** ** The stability score of the reward *)

Section StabilityProofs.
Import Reward StabilitySpec.

Variable rnd : Q -> Q.
Hypothesis Hrnd : Py.rounding rnd.

Lemma penalties_sum (a b c : Q) :
  sum rnd (soc_penalties rnd [a; b; c]) = total_penalty rnd a b c.
Proof.
  unfold sum, soc_penalties, total_penalty, penalty_of, add_penalty.
  destruct (Py.lt a 0.25), (Py.gt a 0.85), (Py.lt b 0.25), (Py.gt b 0.85),
    (Py.lt c 0.25), (Py.gt c 0.85); reflexivity.
Qed.

Lemma penalty_nonneg (x : Q) :
  match penalty_of rnd x with
  | Some p => 0 <= p
  | None => True
  end.
Proof.
  unfold penalty_of, Py.gt.
  destruct (Py.lt x 0.25) eqn:E1; [apply lt_true in E1 |].
  - apply (rnd_nonneg rnd Hrnd). lra.
  - destruct (Py.lt 0.85 x) eqn:E2; [apply lt_true in E2 | exact I].
    apply (rnd_nonneg rnd Hrnd). lra.
Qed.

Lemma penalty_in_band (x : Q) : in_band x -> penalty_of rnd x = None.
Proof.
  intros [H1 H2]. unfold penalty_of, Py.gt.
  destruct (Py.lt x 0.25) eqn:E1; [apply lt_true in E1; lra |].
  destruct (Py.lt 0.85 x) eqn:E2; [apply lt_true in E2; lra | reflexivity].
Qed.

Lemma penalty_le_refl (x : Q) : penalty_le (penalty_of rnd x) (penalty_of rnd x).
Proof.
  pose proof (penalty_nonneg x) as H. unfold penalty_le.
  destruct (penalty_of rnd x); [apply Qle_refl | exact I].
Qed.

Lemma penalty_further_out (old new : Q) :
  further_out old new -> penalty_le (penalty_of rnd old) (penalty_of rnd new).
Proof.
  intros H. pose proof (penalty_nonneg new) as Hnew. revert Hnew.
  unfold further_out in H. unfold penalty_le, penalty_of, Py.gt.
  destruct (Py.lt old 0.25) eqn:E1; [apply lt_true in E1 | apply lt_false in E1];
    (destruct (Py.lt new 0.25) eqn:E2; [apply lt_true in E2 | apply lt_false in E2]);
    (destruct (Py.lt 0.85 old) eqn:E3; [apply lt_true in E3 | apply lt_false in E3]);
    (destruct (Py.lt 0.85 new) eqn:E4; [apply lt_true in E4 | apply lt_false in E4]);
    intros Hnew; try exact Hnew; try (exfalso; lra);
    apply (rnd_mono rnd Hrnd); lra.
Qed.

Lemma add_penalty_fixed (acc : Q) (p : option Q) :
  rnd acc == acc -> rnd (add_penalty rnd acc p) == add_penalty rnd acc p.
Proof.
  intros H. destruct p; cbn; [apply (rnd_idem rnd Hrnd) | exact H].
Qed.

Lemma add_penalty_nonneg (acc : Q) (p : option Q) :
  0 <= acc -> match p with Some x => 0 <= x | None => True end ->
  0 <= add_penalty rnd acc p.
Proof.
  intros Ha Hp. destruct p; cbn; [| exact Ha].
  apply (rnd_nonneg rnd Hrnd). lra.
Qed.

Lemma add_penalty_mono (acc acc' : Q) (p p' : option Q) :
  acc <= acc' -> rnd acc' == acc' -> penalty_le p p' ->
  add_penalty rnd acc p <= add_penalty rnd acc' p'.
Proof.
  intros Ha Hf Hp. destruct p as [x |], p' as [x' |]; cbn in *.
  - apply (rnd_mono rnd Hrnd). lra.
  - contradiction.
  - assert (H : rnd acc' <= rnd (acc' + x')) by (apply (rnd_mono rnd Hrnd); lra).
    lra.
  - exact Ha.
Qed.

Lemma total_penalty_nonneg (a b c : Q) : 0 <= total_penalty rnd a b c.
Proof.
  unfold total_penalty.
  repeat apply add_penalty_nonneg; try apply penalty_nonneg. apply Qle_refl.
Qed.

Lemma total_penalty_in_band (a b c : Q) :
  in_band a -> in_band b -> in_band c -> total_penalty rnd a b c = 0.
Proof.
  intros Ha Hb Hc. unfold total_penalty.
  now rewrite !penalty_in_band.
Qed.

Lemma total_penalty_mono (a b c a' b' c' : Q) :
  penalty_le (penalty_of rnd a) (penalty_of rnd a') ->
  penalty_le (penalty_of rnd b) (penalty_of rnd b') ->
  penalty_le (penalty_of rnd c) (penalty_of rnd c') ->
  total_penalty rnd a b c <= total_penalty rnd a' b' c'.
Proof.
  intros Ha Hb Hc. unfold total_penalty.
  assert (H0 : rnd 0 == 0) by apply Hrnd.
  apply add_penalty_mono; [| now repeat apply add_penalty_fixed | exact Hc].
  apply add_penalty_mono; [| now apply add_penalty_fixed | exact Hb].
  apply add_penalty_mono; [apply Qle_refl | exact H0 | exact Ha].
Qed.

(** The score as a function of the summed penalty. *)
Lemma score_bounds (t : Q) : 0 <= t -> 0 <= score_of rnd t <= 1.
Proof.
  intros Ht. unfold score_of.
  assert (H2 : 0 <= rnd (t * 2.0)) by (apply (rnd_nonneg rnd Hrnd); lra).
  assert (H1 : rnd (1.0 - rnd (t * 2.0)) <= 1).
  { apply (rnd_below rnd Hrnd); [apply Hrnd | lra]. }
  unfold Py.max, Py.gt.
  destruct (Py.lt 0.0 _) eqn:E; [apply lt_true in E | apply lt_false in E]; lra.
Qed.

Lemma score_mono (t t' : Q) : t <= t' -> score_of rnd t' <= score_of rnd t.
Proof.
  intros Ht. unfold score_of.
  assert (H2 : rnd (t * 2.0) <= rnd (t' * 2.0)) by (apply (rnd_mono rnd Hrnd); lra).
  assert (H1 : rnd (1.0 - rnd (t' * 2.0)) <= rnd (1.0 - rnd (t * 2.0)))
    by (apply (rnd_mono rnd Hrnd); lra).
  unfold Py.max, Py.gt.
  destruct (Py.lt 0.0 (rnd (1.0 - rnd (t' * 2.0)))) eqn:E;
    [apply lt_true in E | apply lt_false in E];
    (destruct (Py.lt 0.0 (rnd (1.0 - rnd (t * 2.0)))) eqn:E';
     [apply lt_true in E' | apply lt_false in E']); lra.
Qed.

Lemma score_one (t : Q) : t == 0 -> score_of rnd t == 1.
Proof.
  intros Ht. unfold score_of.
  assert (H2 : rnd (t * 2.0) == 0) by (apply (rnd_zero rnd Hrnd); lra).
  assert (H1 : rnd (1.0 - rnd (t * 2.0)) == 1) by (apply (rnd_one rnd Hrnd); lra).
  unfold Py.max, Py.gt.
  destruct (Py.lt 0.0 _) eqn:E; [apply lt_true in E | apply lt_false in E]; lra.
Qed.

Lemma score_floor (t : Q) : 0.5 <= t -> score_of rnd t == 0.
Proof.
  intros Ht. unfold score_of.
  assert (H2 : 1 <= rnd (t * 2.0)).
  { apply (rnd_above rnd Hrnd); [apply Hrnd | lra]. }
  assert (H1 : rnd (1.0 - rnd (t * 2.0)) <= 0).
  { apply (rnd_below rnd Hrnd); [apply Hrnd | lra]. }
  unfold Py.max, Py.gt.
  destruct (Py.lt 0.0 _) eqn:E; [apply lt_true in E | apply lt_false in E]; lra.
Qed.

(** The reward exists unless the utilization ratio divides by zero, and
    its stability component is the score of the summed penalty. *)
Lemma calculate_reward_stability (s : StandardState) (a : StandardAction)
    (ns : StandardState) :
  ~ divisor rnd ns == 0 ->
  exists r, calculate_reward rnd s a ns = Some r
            /\ stability_score r
               = score_of rnd (total_penalty rnd (soc_of bfg ns) (soc_of bofg ns)
                                 (soc_of cog ns)).
Proof.
  intros Hne. unfold calculate_reward.
  change (rnd (rnd (rnd (bf_bfg_supply (production ns)
                         + bof_bofg_supply (production ns))
                    + coke_cog_supply (production ns)) + 1e-6))
    with (divisor rnd ns).
  destruct (Qeq_bool (divisor rnd ns) 0) eqn:E.
  - apply Qeq_bool_iff in E. contradiction.
  - eexists. split; [reflexivity |]. cbn [stability_score].
    now rewrite penalties_sum.
Qed.

End StabilityProofs.

(** C7, amended: [calculate_reward] returns a reward whenever the
    utilization ratio is defined, in exact arithmetic and under every
    rounding of the float operations.  Its stability score lies in
    [0, 1]; it is 1.0 when the three next-state SOCs lie in
    [0.25, 0.85]; it is 0.0 once the summed penalty is 0.5 or more; and
    when one SOC moves further outside the band the score never
    increases. *)
Theorem stability_score_band_and_monotone :
  forall (rnd : Q -> Q) (state : Reward.StandardState)
         (action : Reward.StandardAction) (next_state : Reward.StandardState),
    Py.rounding rnd ->
    ~ StabilitySpec.divisor rnd next_state == 0 ->
    exists r,
      Reward.calculate_reward rnd state action next_state = Some r
      /\ 0 <= Reward.stability_score r <= 1
      /\ (StabilitySpec.in_band (Reward.soc_bfg (Reward.gas_holder next_state))
          /\ StabilitySpec.in_band (Reward.soc_bofg (Reward.gas_holder next_state))
          /\ StabilitySpec.in_band (Reward.soc_cog (Reward.gas_holder next_state))
          -> Reward.stability_score r == 1.0)
      /\ (0.5 <= StabilitySpec.total_penalty rnd
                   (Reward.soc_bfg (Reward.gas_holder next_state))
                   (Reward.soc_bofg (Reward.gas_holder next_state))
                   (Reward.soc_cog (Reward.gas_holder next_state))
          -> Reward.stability_score r == 0.0)
      /\ forall (g : gas_type) (v : Q),
          StabilitySpec.further_out (StabilitySpec.soc_of g next_state) v ->
          exists r',
            Reward.calculate_reward rnd state action
              (StabilitySpec.set_soc g v next_state) = Some r'
            /\ Reward.stability_score r' <= Reward.stability_score r.
Proof.
  intros rnd s a ns Hrnd Hne.
  destruct (calculate_reward_stability rnd s a ns Hne) as (r & Hr & Hs).
  exists r. split; [exact Hr |]. rewrite Hs.
  change (Reward.soc_bfg (Reward.gas_holder ns)) with (StabilitySpec.soc_of bfg ns).
  change (Reward.soc_bofg (Reward.gas_holder ns)) with (StabilitySpec.soc_of bofg ns).
  change (Reward.soc_cog (Reward.gas_holder ns)) with (StabilitySpec.soc_of cog ns).
  set (x := StabilitySpec.soc_of bfg ns) in *.
  set (y := StabilitySpec.soc_of bofg ns) in *.
  set (z := StabilitySpec.soc_of cog ns) in *.
  split_conj.
  - apply (score_bounds rnd Hrnd), (total_penalty_nonneg rnd Hrnd).
  - apply (score_bounds rnd Hrnd), (total_penalty_nonneg rnd Hrnd).
  - intros (Hx & Hy & Hz).
    rewrite (score_one rnd Hrnd (StabilitySpec.total_penalty rnd x y z));
      [reflexivity |].
    now rewrite (total_penalty_in_band rnd x y z Hx Hy Hz).
  - intros Ht.
    rewrite (score_floor rnd Hrnd (StabilitySpec.total_penalty rnd x y z) Ht).
    reflexivity.
  - intros g v Hout.
    assert (Hne' : ~ StabilitySpec.divisor rnd (StabilitySpec.set_soc g v ns) == 0)
      by exact Hne.
    destruct (calculate_reward_stability rnd s a _ Hne') as (r' & Hr' & Hs').
    exists r'. split; [exact Hr' |]. rewrite Hs'.
    apply (score_mono rnd Hrnd).
    apply (penalty_further_out rnd Hrnd) in Hout.
    destruct g; cbn [StabilitySpec.soc_of StabilitySpec.set_soc Reward.gas_holder
                     Reward.soc_bfg Reward.soc_bofg Reward.soc_cog] in *;
      fold x y z; apply (total_penalty_mono rnd Hrnd);
      first [exact Hout | apply (penalty_le_refl rnd Hrnd)].
Qed.

Lemma stability_score_band_and_monotone_witness :
  exists r,
    Reward.calculate_reward Py.exact (StabilitySpec.state_with_socs 0.5 0.5 0.5)
      StabilitySpec.create_default_action (StabilitySpec.state_with_socs 0.5 0.5 0.9)
    = Some r
    /\ 0 <= Reward.stability_score r <= 1.
Proof.
  destruct (stability_score_band_and_monotone Py.exact
              (StabilitySpec.state_with_socs 0.5 0.5 0.5)
              StabilitySpec.create_default_action
              (StabilitySpec.state_with_socs 0.5 0.5 0.9)) as (r & Hr & Hb & _).
  - exact exact_rounding.
  - vm_compute. congruence.
  - exists r. split; [exact Hr | exact Hb].
Defined.

(** C7 as stated fails: with the SOCs at (0.05, 0.05, 0.10) the penalties
    already push the score to its floor 0, and moving the third SOC
    further out, to 0.05, leaves the score at 0; this is so in exact
    arithmetic and in binary64. *)
Lemma stability_score_not_strictly_decreasing :
  (exists r r',
      Reward.calculate_reward Py.exact (StabilitySpec.state_with_socs 0.5 0.5 0.5)
        StabilitySpec.create_default_action
        (StabilitySpec.state_with_socs 0.05 0.05 0.10) = Some r
      /\ Reward.calculate_reward Py.exact (StabilitySpec.state_with_socs 0.5 0.5 0.5)
           StabilitySpec.create_default_action
           (StabilitySpec.state_with_socs 0.05 0.05 0.05) = Some r'
      /\ StabilitySpec.further_out 0.10 0.05
      /\ ~ Reward.stability_score r' < Reward.stability_score r)
  /\ (exists r r',
        Reward.calculate_reward Py.round53 (StabilitySpec.state_with_socs 0.5 0.5 0.5)
          StabilitySpec.create_default_action
          (StabilitySpec.state_with_socs (Py.round53 0.05) (Py.round53 0.05)
             (Py.round53 0.10)) = Some r
        /\ Reward.calculate_reward Py.round53
             (StabilitySpec.state_with_socs 0.5 0.5 0.5)
             StabilitySpec.create_default_action
             (StabilitySpec.state_with_socs (Py.round53 0.05) (Py.round53 0.05)
                (Py.round53 0.05)) = Some r'
        /\ StabilitySpec.further_out (Py.round53 0.10) (Py.round53 0.05)
        /\ ~ Reward.stability_score r' < Reward.stability_score r).
Proof.
  split; eexists; eexists;
    (split; [vm_compute; reflexivity |]);
    (split; [vm_compute; reflexivity |]);
    (split; [left; split; vm_compute; congruence |]);
    vm_compute; congruence.
Qed.

(** In binary64 the two other parts of C7 as stated fail as well.  An SOC
    one unit in the last place below 0.25 is outside the band and still
    scores exactly 1.0, and the SOCs 1/8 and 1/8 - 2^-56, the second
    further out than the first, both score 0.75. *)
Lemma stability_score_binary64_rounding :
  let below := 0.25 - (1 # 36028797018963968) in
  let further := (1 # 8) - (1 # 72057594037927936) in
  let score (soc : Q) : option Q :=
    option_map Reward.stability_score
      (Reward.calculate_reward Py.round53 (StabilitySpec.state_with_socs 0.5 0.5 0.5)
         StabilitySpec.create_default_action
         (StabilitySpec.state_with_socs soc 0.5 0.5)) in
  Py.round53 below == below /\ Py.round53 further == further
  /\ ~ StabilitySpec.in_band below
  /\ StabilitySpec.further_out (1 # 8) further
  /\ match score below with Some v => v == 1 | None => False end
  /\ match score (1 # 8) with Some v => v == 0.75 | None => False end
  /\ match score further with Some v => v == 0.75 | None => False end.
Proof.
  cbv zeta. split_conj; try (vm_compute; reflexivity).
  - intros [H _]. vm_compute in H. congruence.
  - left. split; vm_compute; congruence.
Qed.
(** ** Priority allocation *)

Section AllocationProofs.
Import RuleBasedController AllocationSpec.

Lemma getitem_elem (d : Py.dict Q) (c : string) :
  c ∈ Py.keys d -> exists v, Py.getitem d c = Some v /\ (c, v) ∈ d.
Proof.
  induction d as [| [k v] d IH]; cbn; intros H.
  - inversion H.
  - destruct (String.eqb_spec k c) as [-> | Hne].
    + exists v. split; [reflexivity | left].
    + apply elem_of_cons in H as [H | H]; [congruence |].
      destruct (IH H) as (w & Hw & Hin). exists w. split; [exact Hw | now right].
Qed.


(** *** The stable descending sort *)

Lemma insert_desc_perm (key : string -> Z) (x : string) (l : list string) :
  insert_desc key x l ≡ₚ x :: l.
Proof.
  induction l as [| y l IH]; cbn; [reflexivity |].
  destruct (key y <=? key x)%Z; [reflexivity |].
  rewrite IH. apply perm_swap.
Qed.

Lemma sorted_desc_perm (key : string -> Z) (l : list string) :
  sorted_desc key l ≡ₚ l.
Proof.
  induction l as [| x l IH]; cbn; [reflexivity |].
  rewrite insert_desc_perm. now rewrite IH.
Qed.

Lemma insert_desc_sorted (key : string -> Z) (x : string) (l : list string) :
  StronglySorted (fun a b => (key b <= key a)%Z) l ->
  StronglySorted (fun a b => (key b <= key a)%Z) (insert_desc key x l).
Proof.
  induction 1 as [| y l Hs IH Hall]; cbn.
  - constructor; constructor.
  - destruct (Z.leb_spec (key y) (key x)) as [Hle | Hgt].
    + constructor; [constructor; assumption |].
      constructor; [exact Hle |].
      eapply Forall_impl; [exact Hall |]. cbn. intros z Hz. lia.
    + constructor; [exact IH |].
      rewrite insert_desc_perm. constructor; [lia | exact Hall].
Qed.

Lemma sorted_desc_sorted (key : string -> Z) (l : list string) :
  StronglySorted (fun a b => (key b <= key a)%Z) (sorted_desc key l).
Proof.
  induction l as [| x l IH]; cbn; [constructor |].
  now apply insert_desc_sorted.
Qed.

(** Equal keys keep their original order: the sort is stable. *)
Lemma insert_desc_stable (key : string -> Z) (x : string) (l : list string) :
  Forall (fun y => (key y <= key x)%Z) l -> insert_desc key x l = x :: l.
Proof.
  destruct 1 as [| y l Hy _]; cbn; [reflexivity |].
  destruct (Z.leb_spec (key y) (key x)); [reflexivity | lia].
Qed.

(** *** The zero-filling loop *)

Lemma fill_zeros_cons (c0 : string) (cs : list string) (alloc : gmap string Q) :
  fill_zeros (c0 :: cs) alloc
  = fill_zeros cs (match alloc !! c0 with
                   | Some _ => alloc
                   | None => <[c0 := 0.0]> alloc
                   end).
Proof. reflexivity. Qed.

Lemma fill_zeros_lookup (cs : list string) (alloc : gmap string Q) (c : string) :
  fill_zeros cs alloc !! c
  = match alloc !! c with
    | Some v => Some v
    | None => if decide (c ∈ cs) then Some 0.0 else None
    end.
Proof.
  revert alloc. induction cs as [| c0 cs IH]; intros alloc.
  - cbn. destruct (alloc !! c); [reflexivity |].
    destruct (decide (c ∈ [])) as [H | _]; [inversion H | reflexivity].
  - rewrite fill_zeros_cons, IH. destruct (alloc !! c0) eqn:E0.
    + destruct (alloc !! c) eqn:Ec; [reflexivity |].
      destruct (decide (c ∈ cs)) as [Hin | Hnin];
        destruct (decide (c ∈ c0 :: cs)) as [Hin' | Hnin']; try reflexivity.
      * exfalso. apply Hnin'. now right.
      * apply elem_of_cons in Hin' as [-> | Hin']; [congruence | contradiction].
    + destruct (decide (c0 = c)) as [-> | Hne].
      * rewrite lookup_insert_eq, E0.
        destruct (decide (c ∈ c :: cs)) as [_ | Hnin]; [reflexivity |].
        exfalso. apply Hnin. left.
      * rewrite lookup_insert_ne by exact Hne.
        destruct (alloc !! c); [reflexivity |].
        destruct (decide (c ∈ cs)) as [Hin | Hnin];
          destruct (decide (c ∈ c0 :: cs)) as [Hin' | Hnin']; try reflexivity.
        -- exfalso. apply Hnin'. now right.
        -- apply elem_of_cons in Hin' as [-> | Hin']; [congruence | contradiction].
Qed.

End AllocationProofs.

Section AllocateLoop.
Import RuleBasedController AllocationSpec.

Variable rnd : Q -> Q.
Hypothesis Hrnd : Py.rounding rnd.
Variable demands : Py.dict Q.


(** Whatever the demands and the amount are, the loop ends without a
    KeyError and touches only the consumers it is given. *)
Lemma allocate_loop_some (cs : list string) :
  forall (rem : Q) (alloc : gmap string Q),
    (forall c, c ∈ cs -> is_Some (Py.getitem demands c)) ->
    exists alloc', allocate_loop rnd demands cs rem alloc = Some alloc'
                   /\ (forall c, c ∉ cs -> alloc' !! c = alloc !! c).
Proof.
  induction cs as [| c0 rest IH]; intros rem alloc Hdem.
  - exists alloc. split; [reflexivity | auto].
  - destruct (Hdem c0 ltac:(left)) as [d0 Hd0].
    cbn [allocate_loop]. rewrite Hd0.
    destruct (Py.le (rnd (rem - Py.min d0 rem)) 0).
    + eexists. split; [reflexivity |]. intros c Hc.
      apply not_elem_of_cons in Hc as [Hne _]. now rewrite lookup_insert_ne.
    + destruct (IH (rnd (rem - Py.min d0 rem)) (<[c0 := Py.min d0 rem]> alloc))
        as (alloc' & Hrun & Hframe).
      { intros c Hc. apply Hdem. now right. }
      exists alloc'. split; [exact Hrun |]. intros c Hc.
      apply not_elem_of_cons in Hc as [Hne Hc].
      rewrite Hframe by exact Hc. now rewrite lookup_insert_ne.
Qed.

End AllocateLoop.

Section PriorityAllocate.
Import RuleBasedController AllocationSpec.




End PriorityAllocate.




(** In binary64 the sum of the allocations can exceed the available
    amount: with 3.52 available and the demands 1.36 and 5.0, the second
    consumer receives the rounded difference 3.52 - 1.36, and the two
    allocations add up to more than 3.52, exactly and as a float sum. *)
Lemma priority_allocate_binary64_sum_exceeds_available :
  let available := Py.round53 3.52 in
  let demands := [("A", Py.round53 1.36); ("B", 5.0)] in
  match RuleBasedController.priority_allocate Py.round53 available demands
          (<["A" := 2%Z]> (<["B" := 1%Z]> ∅)) with
  | Some allocation =>
      let a := AllocationSpec.allocated allocation "A" in
      let b := AllocationSpec.allocated allocation "B" in
      a == Py.round53 1.36
      /\ b == Py.round53 (available - Py.round53 1.36)
      /\ available < a + b
      /\ available < Py.round53 (a + b)
  | None => False
  end.
Proof. vm_compute. split_conj; reflexivity. Qed.
(** ** The surge warning of the BOF agent *)

Section SurgeWarning.
Import RuleBasedController.

Lemma bof_rules_keep_countdown (P T : Q) (a : BOF_Agent.t) :
  let a' := BOF_Agent._apply_process_rules T (BOF_Agent._apply_safety_rules P a) in
  BOF_Agent.time_to_next_blow a' = BOF_Agent.time_to_next_blow a
  /\ BOF_Agent.blow_duration (BOF_Agent.st a') = BOF_Agent.blow_duration (BOF_Agent.st a).
Proof.
  unfold BOF_Agent._apply_process_rules, BOF_Agent._apply_safety_rules.
  repeat match goal with
         | |- context [if ?c then _ else _] => no_if c; destruct c
         end; split; reflexivity.
Qed.

Lemma bof_step_bus (a : BOF_Agent.t) (obs : gmap string Py.value)
    (bus : option MessageBus.t) :
  snd (BOF_Agent.step a obs bus)
  = match bus with
    | Some b =>
        if Py.le (BOF_Agent.time_to_next_blow a) 2.0
        then Some (MessageBus.send b
                     (Scenario.surge_warning a
                        (Py.num (Py.get obs "SOC_bofg" (Py.Num 0.5)))
                        (MessageBus.time b)))
        else Some b
    | None => None
    end.
Proof.
  unfold BOF_Agent.step, BOF_Agent._apply_energy_rules.
  destruct (bof_rules_keep_countdown
              (Py.num (Py.get obs "P_bof_gas" (Py.Num 12.0)))
              (Py.num (Py.get obs "T_steel" (Py.Num 1650))) a) as [Ht Hd].
  cbv zeta in Ht, Hd.
  set (a' := BOF_Agent._apply_process_rules _ (BOF_Agent._apply_safety_rules _ a)) in *.
  clearbody a'.
  destruct bus as [b |]; cbn [snd]; [| reflexivity].
  rewrite Ht. destruct (Py.le (BOF_Agent.time_to_next_blow a) 2.0); [| reflexivity].
  unfold Scenario.surge_warning, BOFGSurgeWarning.to_message. cbn.
  rewrite Hd. reflexivity.
Qed.


(** The driver loop hands no bus to the agents: after a tick the bus of
    the environment is still empty. *)
Lemma driver_tick_publishes_nothing (s s' : Main.sim) (noise : Q) :
  Main.tick s noise = Some s' ->
  MessageBus.messages (MAS_SimEnv.message_bus (Main.env s')) = [].
Proof.
  unfold Main.tick.
  destruct (BF_Agent.step _ _ _) as [bf bfa].
  destruct (BOF_Agent.step _ _ _) as [[bof bofa] bus].
  destruct (CokeOven_Agent.step _ _ _) as [co coa].
  destruct (GasHolder_Agent.step _ _ _) as [gh gha].
  unfold MAS_SimEnv.step, MAS_SimEnv._step_simple_dynamics.
  cbn [MAS_SimEnv.state MAS_SimEnv.message_bus].
  destruct (_ !! "Si"); [| discriminate].
  intros H. injection H as <-. reflexivity.
Qed.

End SurgeWarning.

(** C9: a step of the BOF agent with a bus while the countdown is at most
    2.0 appends exactly one message, of type BOFG_SURGE_WARNING, whose data
    hold the countdown, the expected peak 60000, the blow duration and the
    observed buffer SOC; with a countdown above 2.0 the bus is unchanged,
    and without a bus there is none to append to. *)
Theorem bof_step_surge_warning :
  forall (self : BOF_Agent.t) (obs : gmap string Py.value) (bus : MessageBus.t),
    (BOF_Agent.time_to_next_blow self <= 2.0 ->
     exists msg,
       snd (BOF_Agent.step self obs (Some bus))
       = Some {| MessageBus.messages := (MessageBus.messages bus ++ [msg])%list;
                 MessageBus.time := MessageBus.time bus |}
       /\ msg_type msg = BOFG_SURGE_WARNING
       /\ data msg
          = [("time_to_blow", BOF_Agent.time_to_next_blow self);
             ("expected_peak", 60000);
             ("duration", BOF_Agent.blow_duration (BOF_Agent.st self));
             ("gh_soc", Py.num (Py.get obs "SOC_bofg" (Py.Num 0.5)))])
    /\ (2.0 < BOF_Agent.time_to_next_blow self ->
        snd (BOF_Agent.step self obs (Some bus)) = Some bus)
    /\ snd (BOF_Agent.step self obs None) = None.
Proof.
  intros self obs bus. rewrite !bof_step_bus. repeat split.
  - intros H. rewrite (le_intro _ _ H). eexists. split; [reflexivity |].
    split; reflexivity.
  - intros H. destruct (Py.le _ 2.0) eqn:E; [apply le_true in E; lra | reflexivity].
Qed.

Lemma bof_step_surge_warning_witness :
  exists msg,
    snd (BOF_Agent.step (Scenario.bof_after 28) ∅ (Some MessageBus.init))
    = Some {| MessageBus.messages := [msg]; MessageBus.time := 0.0 |}
    /\ msg_type msg = BOFG_SURGE_WARNING
    /\ data msg = [("time_to_blow", BOF_Agent.time_to_next_blow (Scenario.bof_after 28));
                   ("expected_peak", 60000);
                   ("duration",
                    BOF_Agent.blow_duration (BOF_Agent.st (Scenario.bof_after 28)));
                   ("gh_soc", 0.5)].
Proof.
  refine (proj1 (bof_step_surge_warning (Scenario.bof_after 28) ∅ MessageBus.init) _).
  vm_compute. congruence.
Defined.

(** ** Reset of the environment *)

Section Reset.

Lemma reset_time_bus_network (e : MAS_SimEnv.t) :
  MAS_SimEnv.time (fst (MAS_SimEnv.reset e)) = 0.0
  /\ MessageBus.messages (MAS_SimEnv.message_bus (fst (MAS_SimEnv.reset e))) = []
  /\ GasNetwork.state (MAS_SimEnv.gas_network (fst (MAS_SimEnv.reset e)))
     = GasNetwork.nominal.
Proof. split_conj; reflexivity. Qed.

(** The six keys [reset] assigns take their initial values. *)
Lemma reset_assigned_keys (e : MAS_SimEnv.t) (k : string) :
  k ∈ Scenario.reset_keys ->
  snd (MAS_SimEnv.reset e) !! k = MAS_SimEnv.initial_state !! k.
Proof.
  unfold Scenario.reset_keys. intros H.
  unfold MAS_SimEnv.reset, MAS_SimEnv.get_observations. cbn [snd MAS_SimEnv.state].
  repeat (apply elem_of_cons in H as [-> | H];
          [repeat (rewrite lookup_insert_ne by discriminate);
           rewrite lookup_insert_eq; vm_compute; reflexivity |]).
  inversion H.
Qed.

(** Every other key keeps the value it had before the reset. *)
Lemma reset_other_keys (e : MAS_SimEnv.t) (k : string) :
  k ∉ Scenario.reset_keys ->
  snd (MAS_SimEnv.reset e) !! k = MAS_SimEnv.state e !! k.
Proof.
  unfold Scenario.reset_keys. intros H.
  unfold MAS_SimEnv.reset, MAS_SimEnv.get_observations. cbn [snd MAS_SimEnv.state].
  repeat (rewrite lookup_insert_ne; [| intros <-; apply H; set_solver]).
  reflexivity.
Qed.

End Reset.

(** C10: after one tick of the driver, [reset] zeroes the time, empties
    the bus, puts the gas network back at its baseline and restores the
    SOC entries to 0.5, but the observation it returns still carries the
    pressure of the tick, 8 + (0.5 + 1/1200) * 8, where the initial value
    is 12.0. *)
Theorem reset_returns_stale_pressure :
  match Main.run_mas_simulation [0] with
  | None => False
  | Some s =>
      let '(env, obs) := MAS_SimEnv.reset (Main.env s) in
      MAS_SimEnv.time env = 0.0
      /\ MessageBus.messages (MAS_SimEnv.message_bus env) = []
      /\ GasNetwork.state (MAS_SimEnv.gas_network env) = GasNetwork.nominal
      /\ obs !! "soc_bfg" = Some (Py.Num 0.5)
      /\ MAS_SimEnv.initial_state !! "p_bfg" = Some (Py.Num 12.0)
      /\ exists p,
           obs !! "p_bfg" = Some (Py.Num p)
           /\ p == 8.0 + (0.5 + (1 # 1200)) * 8.0
           /\ ~ p == 12.0
  end.
Proof.
  vm_compute. split_conj; try reflexivity.
  eexists. split_conj; [reflexivity | reflexivity | discriminate].
Qed.

(* ================================================================== *)
(** * Further properties of the control primitives *)

(** Case analysis on the comparisons of the goal that keeps the boolean
    outcome besides the order fact. *)
Ltac cmp_keep :=
  repeat match goal with
    | |- context [Py.lt ?a ?b] =>
        no_if a; no_if b;
        let E := fresh "E" in
        let H := fresh "H" in
        destruct (Py.lt a b) eqn:E;
        [pose proof (lt_true _ _ E) as H | pose proof (lt_false _ _ E) as H]
    | |- context [Py.le ?a ?b] =>
        no_if a; no_if b;
        let E := fresh "E" in
        let H := fresh "H" in
        destruct (Py.le a b) eqn:E;
        [pose proof (le_true _ _ E) as H | pose proof (le_false _ _ E) as H]
    end.

(** X1: for [min_val <= max_val], [clamp] returns a value of the interval,
    returns an in-range value unchanged, and clamping twice is clamping
    once. *)
Theorem clamp_range_and_idempotence :
  forall (v lo hi : Q),
    lo <= hi ->
    lo <= RuleBasedController.clamp v lo hi <= hi
    /\ RuleBasedController.clamp (RuleBasedController.clamp v lo hi) lo hi
       = RuleBasedController.clamp v lo hi
    /\ (lo <= v <= hi -> RuleBasedController.clamp v lo hi == v).
Proof.
  intros v lo hi H. split; [now apply clamp_bounds |].
  split; [| now apply clamp_inside].
  unfold RuleBasedController.clamp, RuleBasedController.min_bound, Py.max, Py.min, Py.gt.
  cmp_keep; first [reflexivity | lra].
Qed.

Lemma clamp_range_and_idempotence_witness :
  1000 <= RuleBasedController.clamp 9000 1000 8000 <= 8000
  /\ RuleBasedController.clamp (RuleBasedController.clamp 9000 1000 8000) 1000 8000
     = RuleBasedController.clamp 9000 1000 8000
  /\ (1000 <= 9000 <= 8000 -> RuleBasedController.clamp 9000 1000 8000 == 9000).
Proof.
  refine (clamp_range_and_idempotence 9000 1000 8000 _). vm_compute. congruence.
Defined.

(** X2: with inverted bounds ([max_val < min_val]) [clamp] returns
    [min_val] for every value; with the infinite default upper bound it
    is the larger of the value and [min_val]. *)
Theorem clamp_inverted_and_unbounded :
  forall (v lo hi : Q),
    (hi < lo -> RuleBasedController.clamp v lo hi = lo)
    /\ lo <= RuleBasedController.clamp v lo Inf
    /\ v <= RuleBasedController.clamp v lo Inf
    /\ (lo <= v -> RuleBasedController.clamp v lo Inf == v)
    /\ (v <= lo -> RuleBasedController.clamp v lo Inf = lo).
Proof.
  intros v lo hi.
  unfold RuleBasedController.clamp, RuleBasedController.min_bound, Py.max, Py.min, Py.gt.
  split_conj;
    try match goal with |- _ -> _ => intros H end;
    cmp_keep; first [reflexivity | lra].
Qed.

Lemma clamp_inverted_and_unbounded_witness :
  RuleBasedController.clamp 5 10 0 = 10.
Proof.
  refine (proj1 (clamp_inverted_and_unbounded 5 10 0) _). vm_compute. reflexivity.
Defined.

(** X3: whatever the directions and step sizes, after one or more calls
    of [incremental_adjust] with bounds [min_val <= max_val] the value lies
    within the bounds; a direction other than "increase" and "decrease"
    only clamps the current value. *)
Theorem incremental_adjust_stays_within_bounds :
  forall (v lo hi : Q) (steps : list (string * Q)),
    lo <= hi -> steps <> [] ->
    lo <= Runs.adjust_many v steps lo hi <= hi
    /\ forall d s, d <> "increase" -> d <> "decrease" ->
                   RuleBasedController.incremental_adjust v d s lo hi
                   = RuleBasedController.clamp v lo hi.
Proof.
  intros v lo hi steps Hle Hne. split.
  - destruct steps as [| st steps _] using rev_ind; [congruence |].
    unfold Runs.adjust_many. rewrite foldl_app. cbn [foldl].
    unfold RuleBasedController.incremental_adjust. now apply clamp_bounds.
  - intros d s H1 H2. unfold RuleBasedController.incremental_adjust.
    destruct (String.eqb_spec d "increase"); [contradiction |].
    destruct (String.eqb_spec d "decrease"); [contradiction | reflexivity].
Qed.

Lemma incremental_adjust_stays_within_bounds_witness :
  1000 <= Runs.adjust_many 4000 [("increase", 0.15); ("increase", 5); ("hold", 1)]
            1000 8000 <= 8000.
Proof.
  refine (proj1 (incremental_adjust_stays_within_bounds 4000 1000 8000
                   [("increase", 0.15); ("increase", 5); ("hold", 1)] _ _)).
  - vm_compute. congruence.
  - discriminate.
Defined.

(** X4: for a non-negative value inside the bounds, an increase never
    lowers it and a decrease (step at most 1) never raises it; a value at
    the ceiling stays there under an increase and a value at the floor
    stays there under a decrease. *)
Theorem incremental_adjust_monotone_and_saturating :
  forall (v s lo hi : Q),
    0 <= v -> lo <= v -> v <= hi -> 0 <= s ->
    v <= RuleBasedController.incremental_adjust v "increase" s lo hi <= hi
    /\ (v == hi -> RuleBasedController.incremental_adjust v "increase" s lo hi == hi)
    /\ (s <= 1 ->
        lo <= RuleBasedController.incremental_adjust v "decrease" s lo hi <= v)
    /\ (s <= 1 -> v == lo ->
        RuleBasedController.incremental_adjust v "decrease" s lo hi == lo).
Proof.
  intros v s lo hi Hv Hlo Hhi Hs.
  assert (Hup : v <= v * (1 + s)) by nra.
  unfold RuleBasedController.incremental_adjust. cbn.
  unfold RuleBasedController.clamp, RuleBasedController.min_bound, Py.max, Py.min, Py.gt.
  split_conj; repeat match goal with |- _ -> _ => intro end; split_conj;
    try assert (v * (1 - s) <= v) by nra; cmp_cases; lra.
Qed.

Lemma incremental_adjust_monotone_and_saturating_witness :
  8000 <= RuleBasedController.incremental_adjust 8000 "increase" 0.15 1000 8000 <= 8000.
Proof.
  refine (proj1 (incremental_adjust_monotone_and_saturating 8000 0.15 1000 8000 _ _ _ _));
    vm_compute; congruence.
Defined.

Ltac solve_disj :=
  first [ lra | discriminate | reflexivity | (left; lra) | (right; left; lra)
        | (right; right; split_conj; first [reflexivity | lra]) ].

Ltac use_disj H :=
  destruct H as [H | [H | (? & ? & ?)]]; first [lra | discriminate].

Ltac table_case :=
  cbn; split_conj;
  [ split; intros H; [first [discriminate | solve_disj] | first [reflexivity | use_disj H]]
  | split; intros H; first [reflexivity | discriminate]
  | intros Hf Hb; first [reflexivity | lra | discriminate] ].

(** X5: the full decision table of [hysteresis_check]: the flag it
    returns is true exactly when the value is beyond an outer threshold,
    or the incoming flag is set and the value is inside the half-band;
    the reason is "normal" exactly when the flag is false; an unset flag
    is never set while the value is between the outer thresholds. *)
Theorem hysteresis_check_decision_table :
  forall (value target upper_band lower_band : Q) (flag : bool),
    let r := RuleBasedController.hysteresis_check value target upper_band lower_band
               flag in
    (fst r = true <->
     target + upper_band < value \/ value < target - lower_band
     \/ (flag = true /\ target - lower_band / 2 <= value
         /\ value <= target + upper_band / 2))
    /\ (snd r = "normal" <-> fst r = false)
    /\ (flag = false -> target - lower_band <= value <= target + upper_band ->
        r = (false, "normal")).
Proof.
  intros v t ub lb flag. cbv zeta.
  unfold RuleBasedController.hysteresis_check, Py.gt.
  destruct (Py.lt (t + ub) v) eqn:E1; [apply lt_true in E1 | apply lt_false in E1];
    [table_case |].
  destruct (Py.lt v (t - lb)) eqn:E2; [apply lt_true in E2 | apply lt_false in E2];
    [table_case |].
  destruct flag; cbn [andb]; [| table_case].
  destruct (Py.le (t - lb / 2) v) eqn:E3; [apply le_true in E3 | apply le_false in E3];
    cbn [andb]; [| table_case].
  destruct (Py.le v (t + ub / 2)) eqn:E4; [apply le_true in E4 | apply le_false in E4];
    table_case.
Qed.

(* ================================================================== *)
(** * Further properties of the priority allocation *)

Section SortStability.
Import RuleBasedController.

Lemma insert_desc_filter (key : string -> Z) (k : Z) (x : string) (l : list string) :
  StronglySorted (fun a b => (key b <= key a)%Z) l ->
  List.filter (fun y => (key y =? k)%Z) (insert_desc key x l)
  = if (key x =? k)%Z then x :: List.filter (fun y => (key y =? k)%Z) l
    else List.filter (fun y => (key y =? k)%Z) l.
Proof.
  induction 1 as [| y l Hs IH Hall]; cbn.
  - destruct (key x =? k)%Z; reflexivity.
  - destruct (Z.leb_spec (key y) (key x)) as [Hle | Hgt].
    + cbn. destruct (key x =? k)%Z; reflexivity.
    + cbn. rewrite IH.
      destruct (Z.eqb_spec (key x) k) as [Hx | Hx];
        destruct (Z.eqb_spec (key y) k) as [Hy | Hy]; try reflexivity.
      lia.
Qed.

Lemma sorted_desc_fixpoint (key : string -> Z) (l : list string) :
  StronglySorted (fun a b => (key b <= key a)%Z) l -> sorted_desc key l = l.
Proof.
  induction 1 as [| x l Hs IH Hall]; [reflexivity |].
  cbn. unfold sorted_desc in IH. rewrite IH. apply insert_desc_stable.
  eapply Forall_impl; [exact Hall |]. cbn. auto.
Qed.

End SortStability.

(** X6: the order in which consumers are served is a permutation of the
    demand keys, descending in priority, and stable: the consumers of any
    one priority keep their insertion order, a list already in descending
    order is unchanged, and without priorities the order is the insertion
    order. *)
Theorem sorted_desc_is_stable_descending_sort :
  forall (key : string -> Z) (l : list string),
    RuleBasedController.sorted_desc key l ≡ₚ l
    /\ StronglySorted (fun a b => (key b <= key a)%Z)
         (RuleBasedController.sorted_desc key l)
    /\ (forall k : Z,
          List.filter (fun y => (key y =? k)%Z) (RuleBasedController.sorted_desc key l)
          = List.filter (fun y => (key y =? k)%Z) l)
    /\ (StronglySorted (fun a b => (key b <= key a)%Z) l ->
        RuleBasedController.sorted_desc key l = l)
    /\ RuleBasedController.sorted_desc (RuleBasedController.priority_of ∅) l = l.
Proof.
  intros key l. split_conj.
  - apply sorted_desc_perm.
  - apply sorted_desc_sorted.
  - intros k. induction l as [| x l IH]; [reflexivity |].
    cbn [RuleBasedController.sorted_desc foldr].
    change (foldr (RuleBasedController.insert_desc key) [] l)
      with (RuleBasedController.sorted_desc key l).
    rewrite insert_desc_filter by apply sorted_desc_sorted.
    rewrite IH. cbn. destruct (key x =? k)%Z; reflexivity.
  - apply sorted_desc_fixpoint.
  - apply sorted_desc_fixpoint.
    induction l as [| x l IH]; constructor; [exact IH |].
    apply Forall_forall. intros y _. unfold RuleBasedController.priority_of.
    rewrite !lookup_empty. cbn. lia.
Qed.

(** X9: for every amount and every demand map, of any sign, and whatever
    the rounding of the subtraction, [priority_allocate] returns an
    allocation (no KeyError) whose keys are exactly the demand keys.
    When the available amount is negative and the demands are not, the
    consumer served first is allocated that negative amount and every
    other consumer 0.0. *)
Theorem priority_allocate_any_input :
  forall (rnd : Q -> Q) (available : Q) (demands : Py.dict Q)
         (priorities : gmap string Z),
    exists allocation,
      RuleBasedController.priority_allocate rnd available demands priorities
      = Some allocation
      /\ (forall c, c ∈ Py.keys demands <-> is_Some (allocation !! c))
      /\ (Py.rounding rnd -> available < 0 ->
          Forall (fun kv => 0 <= snd kv) demands ->
          forall first rest,
            RuleBasedController.sorted_desc
              (RuleBasedController.priority_of priorities) (Py.keys demands)
            = first :: rest ->
            allocation !! first = Some available
            /\ forall c, c ∈ Py.keys demands -> c <> first ->
                         allocation !! c = Some 0.0).
Proof.
  intros rnd available demands priorities.
  set (ks := RuleBasedController.sorted_desc
               (RuleBasedController.priority_of priorities) (Py.keys demands)).
  assert (Hperm : ks ≡ₚ Py.keys demands) by apply sorted_desc_perm.
  destruct (allocate_loop_some rnd demands ks available ∅) as (alloc1 & Hrun & Hframe).
  { intros c Hc. rewrite Hperm in Hc.
    destruct (getitem_elem demands c Hc) as (v & Hv & _). eauto. }
  exists (RuleBasedController.fill_zeros (Py.keys demands) alloc1).
  split; [unfold RuleBasedController.priority_allocate; fold ks; now rewrite Hrun |].
  split.
  - intros c. rewrite fill_zeros_lookup. split.
    + intros Hc. destruct (alloc1 !! c); [eauto |].
      destruct (decide (c ∈ Py.keys demands)); [eauto | contradiction].
    + intros Hs. destruct (alloc1 !! c) eqn:E.
      * rewrite <- Hperm. destruct (decide (c ∈ ks)) as [H | H]; [exact H |].
        rewrite (Hframe c H), lookup_empty in E. discriminate.
      * destruct (decide (c ∈ Py.keys demands)); [assumption |].
        destruct Hs; discriminate.
  - intros Hrnd Hneg Hpos first rest Hks. fold ks in Hks.
    assert (Hin : first ∈ Py.keys demands) by (rewrite <- Hperm, Hks; left).
    destruct (getitem_elem demands first Hin) as (d & Hd & Hind).
    assert (Hdpos : 0 <= d) by (rewrite Forall_forall in Hpos; exact (Hpos _ Hind)).
    rewrite Hks in Hrun. cbn [RuleBasedController.allocate_loop] in Hrun.
    rewrite Hd in Hrun.
    assert (Hmin : Py.min d available = available).
    { unfold Py.min. rewrite (lt_intro available d) by lra. reflexivity. }
    rewrite Hmin in Hrun.
    assert (Hzero : rnd (available - available) == 0)
      by (apply (rnd_zero rnd Hrnd); lra).
    rewrite (le_intro (rnd (available - available)) 0) in Hrun by lra.
    injection Hrun as <-. split.
    + rewrite fill_zeros_lookup, lookup_insert_eq. reflexivity.
    + intros c Hc Hne. rewrite fill_zeros_lookup.
      rewrite lookup_insert_ne by congruence. rewrite lookup_empty.
      destruct (decide (c ∈ Py.keys demands)); [reflexivity | contradiction].
Qed.

Lemma priority_allocate_any_input_witness :
  exists allocation,
    RuleBasedController.priority_allocate Py.exact (-5) [("A", 60); ("B", 60)]
      (<["B" := 3%Z]> ∅) = Some allocation
    /\ allocation !! "B" = Some (-5)
    /\ allocation !! "A" = Some 0.0.
Proof.
  destruct (priority_allocate_any_input Py.exact (-5) [("A", 60); ("B", 60)]
              (<["B" := 3%Z]> ∅))
    as (allocation & Hrun & _ & Hneg).
  exists allocation. split; [exact Hrun |].
  destruct (Hneg exact_rounding ltac:(vm_compute; reflexivity)
                 ltac:(repeat constructor; vm_compute; congruence)
                 "B" ["A"] ltac:(vm_compute; reflexivity)) as [HB HA].
  split; [exact HB |]. apply HA; [cbn; left | discriminate].
Defined.

(* ================================================================== *)
(** * Further properties of the message bus *)

Section BusProofs.

Lemma MessageType_eqb_eq (a b : MessageType) : MessageType_eqb a b = true <-> a = b.
Proof. destruct a, b; cbn; split; intros H; congruence. Qed.

Lemma filter_sublist {A : Type} (f : A -> bool) (l : list A) :
  sublist (List.filter f l) l.
Proof.
  induction l as [| x l IH]; cbn; [constructor |].
  destruct (f x); now constructor.
Qed.

Lemma get_messages_send (bus : MessageBus.t) (m : Message) (id : string)
    (type_filter : option MessageType) :
  MessageBus.get_messages (MessageBus.send bus m) id type_filter
  = (MessageBus.get_messages bus id type_filter
     ++ if (String.eqb (receiver m) id || String.eqb (receiver m) "all")
           && match type_filter with
              | Some ty => MessageType_eqb (msg_type m) ty
              | None => true
              end
        then [m] else [])%list.
Proof.
  unfold MessageBus.get_messages, MessageBus.send. cbn [MessageBus.messages].
  rewrite List.filter_app. cbn [List.filter].
  destruct (String.eqb (receiver m) id || String.eqb (receiver m) "all");
    destruct type_filter as [ty |]; cbn [andb];
    rewrite ?List.filter_app; cbn [List.filter];
    try destruct (MessageType_eqb (msg_type m) ty); rewrite ?app_nil_r; reflexivity.
Qed.

End BusProofs.

(** X10: a message sent on the bus is appended after the messages already
    there: [get_messages] returns what it returned before, followed by the
    new message when it is addressed to the receiver or to "all" and
    passes the type filter.  [clear] leaves nothing to get and keeps the
    time; [update_time] keeps the messages. *)
Theorem bus_send_then_get_messages :
  forall (bus : MessageBus.t) (m : Message) (id : string)
         (type_filter : option MessageType) (now : Q),
    MessageBus.get_messages (MessageBus.send bus m) id type_filter
    = (MessageBus.get_messages bus id type_filter
       ++ if (String.eqb (receiver m) id || String.eqb (receiver m) "all")
             && match type_filter with
                | Some ty => MessageType_eqb (msg_type m) ty
                | None => true
                end
          then [m] else [])%list
    /\ MessageBus.get_messages (MessageBus.clear bus) id type_filter = []
    /\ MessageBus.time (MessageBus.clear bus) = MessageBus.time bus
    /\ MessageBus.get_messages (MessageBus.update_time bus now) id type_filter
       = MessageBus.get_messages bus id type_filter.
Proof.
  intros bus m id f now. split_conj.
  - apply get_messages_send.
  - destruct f; reflexivity.
  - reflexivity.
  - reflexivity.
Qed.

(** X11: [get_messages] returns exactly the messages of the bus that are
    addressed to the receiver or to "all" and, with a type filter, have
    that type; it returns them in the order in which they were sent. *)
Theorem bus_get_messages_exactly_addressed :
  forall (bus : MessageBus.t) (id : string) (m : Message) (ty : MessageType),
    (In m (MessageBus.get_messages bus id None) <->
     In m (MessageBus.messages bus) /\ (receiver m = id \/ receiver m = "all"))
    /\ (In m (MessageBus.get_messages bus id (Some ty)) <->
        In m (MessageBus.messages bus)
        /\ (receiver m = id \/ receiver m = "all") /\ msg_type m = ty)
    /\ sublist (MessageBus.get_messages bus id (Some ty)) (MessageBus.messages bus)
    /\ sublist (MessageBus.get_messages bus id None) (MessageBus.messages bus).
Proof.
  intros bus id m ty.
  assert (Haddr : String.eqb (receiver m) id || String.eqb (receiver m) "all" = true
                  <-> receiver m = id \/ receiver m = "all").
  { rewrite orb_true_iff, !String.eqb_eq. reflexivity. }
  unfold MessageBus.get_messages. split_conj.
  - rewrite List.filter_In, Haddr. reflexivity.
  - rewrite !List.filter_In, Haddr, MessageType_eqb_eq. tauto.
  - etransitivity; apply filter_sublist.
  - apply filter_sublist.
Qed.

(** X12: a state broadcast reaches every agent, whatever its identifier,
    also through the STATE_BROADCAST filter, and is invisible through any
    other type filter; a gas response reaches the agent it names, and
    every agent when it names "all"; unless it is addressed to "all" it
    reaches no agent with another identifier. *)
Theorem broadcast_reaches_every_agent :
  forall (bus : MessageBus.t) (b : StateBroadcast.t) (r : GasResponse.t)
         (from to id : string) (now : Q) (ty : MessageType),
    let msg := StateBroadcast.to_message b now in
    let resp := GasResponse.to_message r from to now in
    MessageBus.get_messages (MessageBus.send bus msg) id None
    = (MessageBus.get_messages bus id None ++ [msg])%list
    /\ MessageBus.get_messages (MessageBus.send bus msg) id (Some STATE_BROADCAST)
       = (MessageBus.get_messages bus id (Some STATE_BROADCAST) ++ [msg])%list
    /\ (ty <> STATE_BROADCAST ->
        MessageBus.get_messages (MessageBus.send bus msg) id (Some ty)
        = MessageBus.get_messages bus id (Some ty))
    /\ MessageBus.get_messages (MessageBus.send bus resp) to (Some GAS_RESPONSE)
       = (MessageBus.get_messages bus to (Some GAS_RESPONSE) ++ [resp])%list
    /\ (id <> to -> to <> "all" ->
        MessageBus.get_messages (MessageBus.send bus resp) id None
        = MessageBus.get_messages bus id None)
    /\ (to = "all" ->
        MessageBus.get_messages (MessageBus.send bus resp) id None
        = (MessageBus.get_messages bus id None ++ [resp])%list).
Proof.
  intros bus b r from to id now ty msg resp. split_conj.
  - rewrite get_messages_send. cbn [receiver msg StateBroadcast.to_message].
    rewrite String.eqb_refl, orb_true_r. reflexivity.
  - rewrite get_messages_send. cbn [receiver msg_type msg StateBroadcast.to_message].
    rewrite String.eqb_refl, orb_true_r. reflexivity.
  - intros Hty. rewrite get_messages_send.
    cbn [receiver msg_type msg StateBroadcast.to_message].
    destruct ty; try congruence; cbn; rewrite andb_false_r, app_nil_r; reflexivity.
  - rewrite get_messages_send. cbn [receiver msg_type resp GasResponse.to_message].
    rewrite String.eqb_refl. reflexivity.
  - intros H1 H2. rewrite get_messages_send.
    cbn [receiver msg_type resp GasResponse.to_message].
    destruct (String.eqb_spec to id) as [E | _]; [congruence |].
    destruct (String.eqb_spec to "all") as [E | _]; [congruence |].
    cbn. now rewrite app_nil_r.
  - intros ->. rewrite get_messages_send.
    cbn [receiver msg_type resp GasResponse.to_message].
    rewrite orb_true_r. reflexivity.
Qed.

(* ================================================================== *)
(** * Further properties of the agents *)

(** Name the innermost adjusted or clamped value of the goal and record
    the bounds it obeys. *)
Ltac name_value :=
  match goal with
  | |- context [RuleBasedController.incremental_adjust ?v "decrease" ?s ?lo Inf] =>
      lazymatch v with
      | context [RuleBasedController.incremental_adjust] => fail
      | context [RuleBasedController.clamp] => fail
      | context [Py.min] => fail
      | context [Py.max] => fail
      | _ => idtac
      end;
      let H := fresh "Hadj" in
      let x := fresh "x" in
      assert (H : lo <= RuleBasedController.incremental_adjust v "decrease" s lo Inf <= v)
        by (apply decrease_bounds; lra);
      set (x := RuleBasedController.incremental_adjust v "decrease" s lo Inf) in *;
      clearbody x
  | |- context [RuleBasedController.incremental_adjust ?v "increase" ?s ?lo (Fin ?hi)] =>
      lazymatch v with
      | context [RuleBasedController.incremental_adjust] => fail
      | context [RuleBasedController.clamp] => fail
      | context [Py.min] => fail
      | context [Py.max] => fail
      | _ => idtac
      end;
      let H := fresh "Hadj" in
      let x := fresh "x" in
      assert (H : v <= RuleBasedController.incremental_adjust v "increase" s lo hi <= hi)
        by (apply increase_bounds; lra);
      set (x := RuleBasedController.incremental_adjust v "increase" s lo hi) in *;
      clearbody x
  | |- context [RuleBasedController.clamp ?v ?lo (Fin ?hi)] =>
      let H := fresh "Hclamp" in
      let x := fresh "x" in
      assert (H : lo <= RuleBasedController.clamp v lo hi <= hi)
        by (apply clamp_bounds; lra);
      set (x := RuleBasedController.clamp v lo hi) in *; clearbody x
  | |- context [Py.min ?a ?b] =>
      no_if a; no_if b;
      lazymatch b with
      | context [RuleBasedController.incremental_adjust] => fail
      | _ => idtac
      end;
      let E := fresh "E" in
      change (Py.min a b) with (if Py.lt b a then b else a);
      destruct (Py.lt b a) eqn:E; [apply lt_true in E | apply lt_false in E]
  | |- context [Py.max ?a ?b] =>
      no_if a; no_if b;
      lazymatch b with
      | context [RuleBasedController.incremental_adjust] => fail
      | _ => idtac
      end;
      let E := fresh "E" in
      change (Py.max a b) with (if Py.lt a b then b else a);
      destruct (Py.lt a b) eqn:E; [apply lt_true in E | apply lt_false in E]
  end.

(** Split on the innermost condition of a rule; a single comparison
    leaves its order fact behind. *)
Ltac split_cond :=
  match goal with
  | |- context [if ?c then _ else _] =>
      no_if c;
      lazymatch c with
      | Py.lt ?a ?b =>
          let E := fresh "E" in
          destruct (Py.lt a b) eqn:E; [apply lt_true in E | apply lt_false in E]
      | Py.gt ?a ?b =>
          let E := fresh "E" in
          change (Py.gt a b) with (Py.lt b a);
          destruct (Py.lt b a) eqn:E; [apply lt_true in E | apply lt_false in E]
      | _ => destruct c
      end
  end.

Section AgentInvariants.
Import RuleBasedController.

Arguments incremental_adjust : simpl never.
Arguments clamp : simpl never.
Arguments Py.min : simpl never.
Arguments Py.max : simpl never.

Lemma bof_step_ok (a : BOF_Agent.t) (obs : gmap string Py.value)
    (bus : option MessageBus.t) :
  AgentLimits.bof_ok (BOF_Agent.st a) ->
  AgentLimits.bof_ok (BOF_Agent.st (fst (fst (BOF_Agent.step a obs bus)))).
Proof.
  intros (Ho & Hs & Ht & Hd). unfold AgentLimits.bof_ok, BOF_Agent.step.
  unfold BOF_Agent._apply_energy_rules, BOF_Agent._apply_process_rules,
    BOF_Agent._apply_safety_rules, SafetyLimits.BOF_O2_MAX, SafetyLimits.BOF_P_MAX.
  repeat split_cond; cbn; repeat name_value; split_conj; first [assumption | lra].
Qed.

Lemma bof_step_countdown (a : BOF_Agent.t) (obs : gmap string Py.value)
    (bus : option MessageBus.t) :
  BOF_Agent.time_to_next_blow (fst (fst (BOF_Agent.step a obs bus)))
  = Py.max 0 (BOF_Agent.time_to_next_blow a - 1.0).
Proof.
  unfold BOF_Agent.step.
  unfold BOF_Agent._apply_energy_rules, BOF_Agent._apply_process_rules,
    BOF_Agent._apply_safety_rules.
  repeat split_cond; reflexivity.
Qed.

Lemma bof_run_snoc (a : BOF_Agent.t) (calls : list Runs.call) (c : Runs.call) :
  Runs.bof_run a (calls ++ [c])
  = fst (fst (BOF_Agent.step (Runs.bof_run a calls) (fst c) (snd c))).
Proof. unfold Runs.bof_run. now rewrite foldl_app. Qed.

Lemma bof_run_countdown (id : string) (calls : list Runs.call) :
  let t := BOF_Agent.time_to_next_blow (Runs.bof_run (BOF_Agent.init id) calls) in
  let n := inject_Z (Z.of_nat (length calls)) in
  (n <= 30 -> t == 30 - n) /\ (30 <= n -> t == 0).
Proof.
  induction calls as [| c calls IH] using rev_ind; cbv zeta in *.
  - cbn. split; intros H; [reflexivity | vm_compute in H; congruence].
  - rewrite bof_run_snoc, bof_step_countdown.
    rewrite length_app, Nat2Z.inj_add, inject_Z_plus. cbn [length].
    change (inject_Z (Z.of_nat 1)) with 1.
    set (n := inject_Z (Z.of_nat (length calls))) in *.
    assert (Hn : 0 <= n).
    { subst n. change 0 with (inject_Z 0). rewrite <- Zle_Qle. lia. }
    destruct IH as [IH1 IH2].
    set (t := BOF_Agent.time_to_next_blow _) in *. clearbody t.
    unfold Py.max, Py.gt.
    destruct (Qlt_le_dec n 30) as [Hlt | Hge].
    + specialize (IH1 ltac:(lra)). split; intros H; cmp_cases; lra.
    + specialize (IH2 Hge). split; intros H; cmp_cases; lra.
Qed.

End AgentInvariants.

(** X13: along every sequence of steps of the BOF agent from its
    constructed state, with any observations and with or without a bus,
    the oxygen flow stays in [0, 60000] and the scrap charge in [20, 30],
    and the temperature target and blow duration are never changed. *)
Theorem bof_agent_within_limits :
  forall (id : string) (calls : list Runs.call),
    let s := BOF_Agent.st (Runs.bof_run (BOF_Agent.init id) calls) in
    0 <= BOF_Agent.oxygen s <= 60000
    /\ 20 <= BOF_Agent.scrap_steel s <= 30
    /\ BOF_Agent.T_target s = 1650
    /\ BOF_Agent.blow_duration s = 18.
Proof.
  intros id calls. cbv zeta.
  change (AgentLimits.bof_ok (BOF_Agent.st (Runs.bof_run (BOF_Agent.init id) calls))).
  induction calls as [| c calls IH] using rev_ind.
  - unfold AgentLimits.bof_ok. cbn. split_conj; first [reflexivity | vm_compute; congruence].
  - rewrite bof_run_snoc. now apply bof_step_ok.
Qed.

(** X14: the blow countdown of the BOF agent only runs down: after n steps
    from construction it is 30 - n, and 0 from the thirtieth step on; it is
    never restarted.  Hence after 28 or more steps every further step
    that is given a bus publishes a surge warning. *)
Theorem bof_countdown_never_restarts :
  forall (id : string) (calls : list Runs.call) (obs : gmap string Py.value)
         (bus : MessageBus.t),
    let a := Runs.bof_run (BOF_Agent.init id) calls in
    let n := inject_Z (Z.of_nat (length calls)) in
    (n <= 30 -> BOF_Agent.time_to_next_blow a == 30 - n)
    /\ (30 <= n -> BOF_Agent.time_to_next_blow a == 0)
    /\ (28 <= n ->
        exists msg,
          snd (BOF_Agent.step a obs (Some bus))
          = Some (MessageBus.send bus msg)
          /\ msg_type msg = BOFG_SURGE_WARNING).
Proof.
  intros id calls obs bus a n.
  destruct (bof_run_countdown id calls) as [H1 H2]. fold a n in H1, H2.
  split_conj; [exact H1 | exact H2 |].
  intros H28. rewrite bof_step_bus.
  assert (Hle : BOF_Agent.time_to_next_blow a <= 2.0).
  { destruct (Qlt_le_dec n 30) as [Hlt | Hge].
    - rewrite (H1 ltac:(lra)). lra.
    - rewrite (H2 Hge). lra. }
  rewrite (le_intro _ _ Hle). eexists. split; reflexivity.
Qed.

Section CokeAndHolderInvariants.
Import RuleBasedController.

Arguments incremental_adjust : simpl never.
Arguments clamp : simpl never.
Arguments Py.min : simpl never.
Arguments Py.max : simpl never.

Lemma co_safety_ok (T : Q) (a : CokeOven_Agent.t) :
  AgentLimits.co_ok (CokeOven_Agent.st a) ->
  AgentLimits.co_ok (CokeOven_Agent.st (CokeOven_Agent._apply_safety_rules T a)).
Proof.
  intros (Hh & Hp & Ht). unfold AgentLimits.co_ok.
  unfold CokeOven_Agent._apply_safety_rules, SafetyLimits.CO_TEMP_MAX,
    SafetyLimits.CO_TEMP_MIN.
  repeat split_cond; cbn; repeat name_value; split_conj; first [assumption | lra].
Qed.

Lemma co_process_ok (T : Q) (a : CokeOven_Agent.t) :
  AgentLimits.co_ok (CokeOven_Agent.st a) ->
  AgentLimits.co_ok (CokeOven_Agent.st (CokeOven_Agent._apply_process_rules T a)).
Proof.
  intros (Hh & Hp & Ht). unfold AgentLimits.co_ok.
  unfold CokeOven_Agent._apply_process_rules.
  repeat split_cond; cbn; repeat name_value; split_conj; first [assumption | lra].
Qed.

Lemma co_energy_ok (soc : Q) (a : CokeOven_Agent.t) :
  AgentLimits.co_ok (CokeOven_Agent.st a) ->
  AgentLimits.co_ok (CokeOven_Agent.st (CokeOven_Agent._apply_energy_rules soc a)).
Proof.
  intros (Hh & Hp & Ht). unfold AgentLimits.co_ok.
  unfold CokeOven_Agent._apply_energy_rules.
  repeat split_cond; cbn; repeat name_value; split_conj; first [assumption | lra].
Qed.

Lemma co_step_ok (a : CokeOven_Agent.t) (obs : gmap string Py.value)
    (bus : option MessageBus.t) :
  AgentLimits.co_ok (CokeOven_Agent.st a) ->
  AgentLimits.co_ok (CokeOven_Agent.st (fst (CokeOven_Agent.step a obs bus))).
Proof.
  intros H. unfold CokeOven_Agent.step. cbn [fst].
  apply co_energy_ok, co_process_ok, co_safety_ok, H.
Qed.

Lemma co_run_snoc (a : CokeOven_Agent.t) (calls : list Runs.call) (c : Runs.call) :
  Runs.co_run a (calls ++ [c])
  = fst (CokeOven_Agent.step (Runs.co_run a calls) (fst c) (snd c)).
Proof. unfold Runs.co_run. now rewrite foldl_app. Qed.

Lemma gh_bfgh_ok (soc p : Q) (a : GasHolder_Agent.t) :
  AgentLimits.gh_ok (GasHolder_Agent.st a) ->
  AgentLimits.gh_ok (GasHolder_Agent.st (GasHolder_Agent._control_bfgh soc p a)).
Proof.
  intros (H1 & H2 & H3 & H4 & H5 & H6).
  unfold AgentLimits.gh_ok, GasHolder_Agent._control_bfgh,
    SafetyLimits.GH_P_EMERGENCY, SafetyLimits.GH_SOC_MIN.
  repeat split_cond; cbn in *; repeat name_value; split_conj; first [assumption | lra].
Qed.

Lemma gh_bofgh_ok (soc p : Q) (w : bool) (a : GasHolder_Agent.t) :
  AgentLimits.gh_ok (GasHolder_Agent.st a) ->
  AgentLimits.gh_ok (GasHolder_Agent.st (GasHolder_Agent._control_bofgh soc p w a)).
Proof.
  intros (H1 & H2 & H3 & H4 & H5 & H6).
  unfold AgentLimits.gh_ok, GasHolder_Agent._control_bofgh,
    SafetyLimits.GH_P_EMERGENCY, SafetyLimits.GH_SOC_MIN.
  repeat split_cond; cbn in *; repeat name_value; split_conj; first [assumption | lra].
Qed.

Lemma gh_cogh_ok (soc p : Q) (a : GasHolder_Agent.t) :
  AgentLimits.gh_ok (GasHolder_Agent.st a) ->
  AgentLimits.gh_ok (GasHolder_Agent.st (GasHolder_Agent._control_cogh soc p a)).
Proof.
  intros (H1 & H2 & H3 & H4 & H5 & H6).
  unfold AgentLimits.gh_ok, GasHolder_Agent._control_cogh,
    SafetyLimits.GH_P_EMERGENCY, SafetyLimits.GH_SOC_MIN.
  repeat split_cond; cbn in *; repeat name_value; split_conj; first [assumption | lra].
Qed.

Lemma gh_step_ok (a : GasHolder_Agent.t) (obs : gmap string Py.value)
    (bus : option MessageBus.t) :
  AgentLimits.gh_ok (GasHolder_Agent.st a) ->
  AgentLimits.gh_ok (GasHolder_Agent.st (fst (GasHolder_Agent.step a obs bus)))
  /\ GasHolder_Agent.surge_warning_active (fst (GasHolder_Agent.step a obs bus)) = false.
Proof.
  intros H. unfold GasHolder_Agent.step. cbn [fst]. split; [| reflexivity].
  cbn [GasHolder_Agent.set_surge_warning_active GasHolder_Agent.st].
  apply gh_cogh_ok, gh_bofgh_ok, gh_bfgh_ok.
  destruct bus as [b |]; [| exact H].
  destruct (GasHolder_Agent.surge_warnings a b); exact H.
Qed.

Lemma gh_run_snoc (a : GasHolder_Agent.t) (calls : list Runs.call) (c : Runs.call) :
  Runs.gh_run a (calls ++ [c])
  = fst (GasHolder_Agent.step (Runs.gh_run a calls) (fst c) (snd c)).
Proof. unfold Runs.gh_run. now rewrite foldl_app. Qed.

(** The BFG and COG controllers leave the BOFG outflows alone. *)
Lemma gh_bfgh_frame (soc p : Q) (a : GasHolder_Agent.t) :
  let a' := GasHolder_Agent._control_bfgh soc p a in
  GasHolder_Agent.bofg_to_pp (GasHolder_Agent.st a')
  = GasHolder_Agent.bofg_to_pp (GasHolder_Agent.st a)
  /\ GasHolder_Agent.bofg_to_heating (GasHolder_Agent.st a')
     = GasHolder_Agent.bofg_to_heating (GasHolder_Agent.st a)
  /\ GasHolder_Agent.surge_warning_active a' = GasHolder_Agent.surge_warning_active a.
Proof.
  unfold GasHolder_Agent._control_bfgh. cbv zeta.
  repeat match goal with
         | |- context [if ?c then _ else _] => no_if c; destruct c
         end; split_conj; reflexivity.
Qed.

Lemma gh_cogh_frame (soc p : Q) (a : GasHolder_Agent.t) :
  let a' := GasHolder_Agent._control_cogh soc p a in
  GasHolder_Agent.bofg_to_pp (GasHolder_Agent.st a')
  = GasHolder_Agent.bofg_to_pp (GasHolder_Agent.st a)
  /\ GasHolder_Agent.bofg_to_heating (GasHolder_Agent.st a')
     = GasHolder_Agent.bofg_to_heating (GasHolder_Agent.st a).
Proof.
  unfold GasHolder_Agent._control_cogh. cbv zeta.
  repeat match goal with
         | |- context [if ?c then _ else _] => no_if c; destruct c
         end; split_conj; reflexivity.
Qed.

End CokeAndHolderInvariants.

(** X15: along every sequence of steps of the coke oven agent from its
    constructed state the heating gas input stays in [5000, 25000] and the
    pushing rate in [0.7, 1.2]; the temperature target is never changed. *)
Theorem coke_oven_agent_within_limits :
  forall (id : string) (calls : list Runs.call),
    let s := CokeOven_Agent.st (Runs.co_run (CokeOven_Agent.init id) calls) in
    5000 <= CokeOven_Agent.heating_gas_input s <= 25000
    /\ 0.7 <= CokeOven_Agent.pushing_rate s <= 1.2
    /\ CokeOven_Agent.T_target s = 1200.
Proof.
  intros id calls. cbv zeta.
  change (AgentLimits.co_ok
            (CokeOven_Agent.st (Runs.co_run (CokeOven_Agent.init id) calls))).
  induction calls as [| c calls IH] using rev_ind.
  - unfold AgentLimits.co_ok. cbn. split_conj; first [reflexivity | vm_compute; congruence].
  - rewrite co_run_snoc. now apply co_step_ok.
Qed.

(** X16: along every sequence of steps of the gas holder agent from its
    constructed state, with any observations and any bus contents, each
    of the six outflows stays between the floor and the ceiling of its
    rules (the BOFG flow to heating never rises above its initial 10000),
    and the surge flag is cleared again at the end of every step. *)
Theorem gas_holder_agent_within_limits :
  forall (id : string) (calls : list Runs.call),
    let a := Runs.gh_run (GasHolder_Agent.init id) calls in
    let s := GasHolder_Agent.st a in
    (10000 <= GasHolder_Agent.bfg_to_pp s <= 80000
     /\ 5000 <= GasHolder_Agent.bfg_to_heating s <= 50000
     /\ 5000 <= GasHolder_Agent.bofg_to_pp s <= 40000
     /\ 3000 <= GasHolder_Agent.bofg_to_heating s <= 10000
     /\ 2000 <= GasHolder_Agent.cog_to_heating s <= 15000
     /\ 1000 <= GasHolder_Agent.cog_to_bf s <= 10000)
    /\ GasHolder_Agent.surge_warning_active a = false.
Proof.
  intros id calls. cbv zeta.
  change (AgentLimits.gh_ok
            (GasHolder_Agent.st (Runs.gh_run (GasHolder_Agent.init id) calls))
          /\ GasHolder_Agent.surge_warning_active
               (Runs.gh_run (GasHolder_Agent.init id) calls) = false).
  induction calls as [| c calls IH] using rev_ind.
  - split; [| reflexivity].
    unfold AgentLimits.gh_ok. cbn. split_conj; vm_compute; congruence.
  - rewrite gh_run_snoc. apply gh_step_ok. apply IH.
Qed.

(** X17: a surge warning on the bus that is addressed to the gas holder
    agent, or to "all", makes its step lower both BOFG outflows by 20 % and
    15 % (not below 5000 and 3000), whatever the BOFG state of charge and
    pressure are, emergency over-pressure included. *)
Theorem gas_holder_surge_warning_overrides :
  forall (a : GasHolder_Agent.t) (obs : gmap string Py.value) (bus : MessageBus.t)
         (m : Message),
    In m (MessageBus.messages bus) ->
    msg_type m = BOFG_SURGE_WARNING ->
    receiver m = GasHolder_Agent.agent_id a \/ receiver m = "all" ->
    let a' := fst (GasHolder_Agent.step a obs (Some bus)) in
    GasHolder_Agent.bofg_to_pp (GasHolder_Agent.st a')
    = RuleBasedController.incremental_adjust
        (GasHolder_Agent.bofg_to_pp (GasHolder_Agent.st a)) "decrease" 0.20 5000 Inf
    /\ GasHolder_Agent.bofg_to_heating (GasHolder_Agent.st a')
       = RuleBasedController.incremental_adjust
           (GasHolder_Agent.bofg_to_heating (GasHolder_Agent.st a)) "decrease" 0.15
           3000 Inf.
Proof.
  intros a obs bus m Hin Hty Hrecv. cbv zeta.
  assert (Hw : exists w ws, GasHolder_Agent.surge_warnings a bus = w :: ws).
  { assert (Hm : In m (GasHolder_Agent.surge_warnings a bus)).
    { unfold GasHolder_Agent.surge_warnings, MessageBus.get_messages.
      rewrite !List.filter_In. split_conj; [exact Hin | |].
      - rewrite orb_true_iff, !String.eqb_eq. exact Hrecv.
      - rewrite Hty. reflexivity. }
    destruct (GasHolder_Agent.surge_warnings a bus) as [| w ws]; [inversion Hm | eauto]. }
  destruct Hw as (w & ws & Hw).
  unfold GasHolder_Agent.step. rewrite Hw. cbn [fst].
  cbn [GasHolder_Agent.set_surge_warning_active GasHolder_Agent.st].
  set (a1 := GasHolder_Agent.set_surge_warning_active true a).
  destruct (gh_bfgh_frame (Py.num (Py.get obs "soc_bfg" (Py.Num 0.5)))
              (Py.num (Py.get obs "p_bfg" (Py.Num 12.0))) a1) as (F1 & F2 & F3).
  cbv zeta in F1, F2, F3.
  set (a2 := GasHolder_Agent._control_bfgh _ _ a1) in *.
  rewrite F3. cbn [a1 GasHolder_Agent.set_surge_warning_active
                     GasHolder_Agent.surge_warning_active].
  destruct (gh_cogh_frame (Py.num (Py.get obs "soc_cog" (Py.Num 0.5)))
              (Py.num (Py.get obs "p_cog" (Py.Num 12.0)))
              (GasHolder_Agent._control_bofgh
                 (Py.num (Py.get obs "soc_bofg" (Py.Num 0.5)))
                 (Py.num (Py.get obs "p_bofg" (Py.Num 12.0))) true a2)) as (G1 & G2).
  cbv zeta in G1, G2. rewrite G1, G2.
  unfold GasHolder_Agent._control_bofgh. cbn. rewrite F1, F2. split; reflexivity.
Qed.

Lemma gas_holder_surge_warning_overrides_witness :
  let bus := MessageBus.send MessageBus.init
               (Scenario.surge_warning (BOF_Agent.init "BOF1") 0.5 0.0) in
  let a' := fst (GasHolder_Agent.step (GasHolder_Agent.init "GasHolderAgent")
                   (<["p_bofg" := Py.Num 17]> ∅) (Some bus)) in
  GasHolder_Agent.bofg_to_pp (GasHolder_Agent.st a')
  = RuleBasedController.incremental_adjust 20000 "decrease" 0.20 5000 Inf
  /\ GasHolder_Agent.bofg_to_heating (GasHolder_Agent.st a')
     = RuleBasedController.incremental_adjust 10000 "decrease" 0.15 3000 Inf.
Proof.
  refine (gas_holder_surge_warning_overrides
            (GasHolder_Agent.init "GasHolderAgent") (<["p_bofg" := Py.Num 17]> ∅)
            (MessageBus.send MessageBus.init
               (Scenario.surge_warning (BOF_Agent.init "BOF1") 0.5 0.0))
            (Scenario.surge_warning (BOF_Agent.init "BOF1") 0.5 0.0) _ _ _).
  - left. reflexivity.
  - reflexivity.
  - left. reflexivity.
Defined.

(* ================================================================== *)
(** * Further properties of the gas network *)

Section NetworkProofs.
Import GasNetwork.

Lemma update_soc (g : gas_type) (n : t) (production : gmap string Q)
    (demands : Py.dict Q) (ts : Q) :
  get_soc g (state (update n production demands ts))
  = Py.clip (get_soc g (state n)
             + (_calculate_net_flow g production demands / 3600) * ts * 60
               / capacities g) 0.05 0.95.
Proof.
  unfold update.
  set (n1 := _update_holder bfg _ ts n).
  set (n2 := _update_holder bofg _ ts n1).
  assert (Hsame : forall h net m,
             get_soc h (state (_update_holder h net ts m))
             = Py.clip (get_soc h (state m) + (net / 3600) * ts * 60 / capacities h)
                       0.05 0.95).
  { intros h net m. unfold _update_holder, StateSpaceGasHolder.call.
    destruct (use_state_space_models m), h; reflexivity. }
  destruct g.
  - rewrite (proj1 (update_holder_other cog bfg _ ts n2 ltac:(discriminate))).
    subst n2. rewrite (proj1 (update_holder_other bofg bfg _ ts n1 ltac:(discriminate))).
    subst n1. apply Hsame.
  - rewrite (proj1 (update_holder_other cog bofg _ ts n2 ltac:(discriminate))).
    subst n2. rewrite Hsame.
    subst n1. rewrite (proj1 (update_holder_other bfg bofg _ ts n ltac:(discriminate))).
    reflexivity.
  - rewrite Hsame. subst n2.
    rewrite (proj1 (update_holder_other bofg cog _ ts n1 ltac:(discriminate))).
    subst n1. rewrite (proj1 (update_holder_other bfg cog _ ts n ltac:(discriminate))).
    reflexivity.
Qed.

End NetworkProofs.

(** X18: every outflow of the gas holder agent is charged to exactly its
    own holder: with the agent's action as demand map, the BFG net flow is
    the BFG production minus the two BFG outflows, and likewise for BOFG
    and COG; a missing production entry counts as 0, and the translator's
    [calculate_gas_net_flow] computes the same net flow. *)
Theorem net_flow_of_gas_holder_action :
  forall (production : gmap string Q) (s : GasHolder_Agent.state) (g : gas_type),
    let demands := GasHolder_Agent.items s in
    let produced := default 0 (production !! tag g) in
    GasNetwork._calculate_net_flow g production demands
    == produced
       - match g with
         | bfg => GasHolder_Agent.bfg_to_pp s + GasHolder_Agent.bfg_to_heating s
         | bofg => GasHolder_Agent.bofg_to_pp s + GasHolder_Agent.bofg_to_heating s
         | cog => GasHolder_Agent.cog_to_heating s + GasHolder_Agent.cog_to_bf s
         end
    /\ TwinTranslator.calculate_gas_net_flow
         (default 0.0 (production !! tag g)) demands g
       = GasNetwork._calculate_net_flow g production demands.
Proof.
  intros production s g. cbv zeta. split; [| reflexivity].
  unfold GasNetwork._calculate_net_flow, GasHolder_Agent.items.
  destruct (production !! tag g) as [p |]; cbn [default];
    destruct g; cbn [fold_left fst snd tag];
    repeat match goal with
           | |- context [Py.contains ?a (Py.lower ?b)] =>
               let v := eval vm_compute in (Py.contains a (Py.lower b)) in
               change (Py.contains a (Py.lower b)) with v
           end; cbv iota; lra.
Qed.

(** X19: the three holders are updated independently: after [update] the
    SOC of each gas type is its previous SOC plus
    (net/3600)*timestep*60/capacity, clipped into [0.05, 0.95].  It is
    exactly that sum while the sum stays in the window, the bound 0.05 or
    0.95 once the sum leaves it, and with a non-negative net flow and
    timestep a SOC inside the window never falls. *)
Theorem gas_network_update_integrates_and_saturates :
  forall (n : GasNetwork.t) (production : gmap string Q) (demands : Py.dict Q)
         (timestep : Q) (g : gas_type),
    let soc := GasNetwork.get_soc g (GasNetwork.state n) in
    let net := GasNetwork._calculate_net_flow g production demands in
    let target := soc + (net / 3600) * timestep * 60 / GasNetwork.capacities g in
    let soc' := GasNetwork.get_soc g
                  (GasNetwork.state (GasNetwork.update n production demands timestep)) in
    soc' = Py.clip target 0.05 0.95
    /\ (0.05 <= target <= 0.95 -> soc' == target)
    /\ (target < 0.05 -> soc' = 0.05)
    /\ (0.95 < target -> soc' = 0.95)
    /\ (0 <= net -> 0 <= timestep -> 0.05 <= soc <= 0.95 -> soc <= soc').
Proof.
  intros n production demands ts g soc net target soc'.
  assert (H : soc' = Py.clip target 0.05 0.95) by apply update_soc.
  split; [exact H |]. rewrite H.
  assert (Hcap : 0 < GasNetwork.capacities g) by (destruct g; reflexivity).
  split_conj.
  - apply clip_inside.
  - intros Hlt. unfold Py.clip, Py.min, Py.max, Py.gt.
    rewrite (lt_intro target 0.05 Hlt).
    destruct (Py.lt 0.95 0.05) eqn:E; [vm_compute in E; discriminate | reflexivity].
  - intros Hgt. unfold Py.clip, Py.min, Py.max, Py.gt.
    destruct (Py.lt target 0.05) eqn:E; [apply lt_true in E; lra |].
    rewrite (lt_intro 0.95 target Hgt). reflexivity.
  - intros Hnet Hts Hsoc.
    assert (Hd : 0 <= (net / 3600) * ts * 60 / GasNetwork.capacities g).
    { apply Qle_shift_div_l; [exact Hcap |].
      assert (0 <= net / 3600) by (apply Qle_shift_div_l; lra). nra. }
    assert (Ht : soc <= target) by (subst target; lra).
    pose proof (clip_bounds target 0.05 0.95 ltac:(lra)) as Hb.
    destruct (Qlt_le_dec 0.95 target) as [Hbig | Hsmall].
    + unfold Py.clip, Py.min, Py.max, Py.gt.
      destruct (Py.lt target 0.05) eqn:E; [apply lt_true in E; lra |].
      rewrite (lt_intro 0.95 target Hbig). lra.
    + rewrite (clip_inside target 0.05 0.95); lra.
Qed.

(** X20: without the state-space models the level stored by [update] is
    the new SOC of each holder; with them it is the output C*x + D*net of
    the holder's model before the call, and the model state advances to
    A*x + B*net; [reset] restores the SOC, pressure and level of every
    holder and leaves the model states as they are. *)
Theorem gas_network_level_sources :
  forall (n : GasNetwork.t) (production : gmap string Q) (demands : Py.dict Q)
         (timestep : Q),
    let n' := GasNetwork.update n production demands timestep in
    let net := fun g => GasNetwork._calculate_net_flow g production demands in
    (GasNetwork.use_state_space_models n = false ->
     GasNetwork.bfg_level (GasNetwork.state n') = GasNetwork.soc_bfg (GasNetwork.state n')
     /\ GasNetwork.bofg_level (GasNetwork.state n')
        = GasNetwork.soc_bofg (GasNetwork.state n')
     /\ GasNetwork.cog_level (GasNetwork.state n')
        = GasNetwork.soc_cog (GasNetwork.state n')
     /\ GasNetwork.bfgh n' = GasNetwork.bfgh n)
    /\ (GasNetwork.use_state_space_models n = true ->
        forall g,
          let m := GasNetwork.get_model g n in
          match g with
          | bfg => GasNetwork.bfg_level (GasNetwork.state n')
          | bofg => GasNetwork.bofg_level (GasNetwork.state n')
          | cog => GasNetwork.cog_level (GasNetwork.state n')
          end
          = StateSpaceGasHolder.C m * StateSpaceGasHolder.x m
            + StateSpaceGasHolder.D m * net g
          /\ StateSpaceGasHolder.x (GasNetwork.get_model g n')
             = StateSpaceGasHolder.A m * StateSpaceGasHolder.x m
               + StateSpaceGasHolder.B m * net g)
    /\ GasNetwork.state (GasNetwork.reset n') = GasNetwork.nominal
    /\ (forall g, GasNetwork.get_model g (GasNetwork.reset n')
                  = GasNetwork.get_model g n').
Proof.
  intros n production demands ts n' net. subst n'.
  unfold GasNetwork.update, GasNetwork._update_holder, StateSpaceGasHolder.call.
  destruct n as [u m1 m2 m3 s]. cbn [GasNetwork.use_state_space_models].
  split_conj.
  - intros ->. cbn. split_conj; reflexivity.
  - intros -> g. destruct g; cbn; split; reflexivity.
  - reflexivity.
  - intros g. destruct u, g; reflexivity.
Qed.

Lemma gas_network_level_sources_witness :
  let n' := GasNetwork.update (GasNetwork.init false) ∅ [] 1.0 in
  GasNetwork.bfg_level (GasNetwork.state n') = GasNetwork.soc_bfg (GasNetwork.state n')
  /\ GasNetwork.bofg_level (GasNetwork.state n')
     = GasNetwork.soc_bofg (GasNetwork.state n')
  /\ GasNetwork.cog_level (GasNetwork.state n')
     = GasNetwork.soc_cog (GasNetwork.state n')
  /\ GasNetwork.bfgh n' = GasNetwork.bfgh (GasNetwork.init false).
Proof.
  refine (proj1 (gas_network_level_sources (GasNetwork.init false) ∅ [] 1.0) _).
  reflexivity.
Defined.

(* ================================================================== *)
(** * Further properties of the environment and of the driver *)

Section EnvProofs.

(** The map a step leaves behind, key by key. *)
Lemma step_state (e e' : MAS_SimEnv.t) (actions : MAS_SimEnv.actions) (noise : Q)
    (obs : gmap string Py.value) :
  MAS_SimEnv.step e actions noise = Some (e', obs) ->
  let wind := match MAS_SimEnv.BF actions with
              | Some a => BF_Agent.wind_volume a
              | None => 4000
              end in
  let net := GasNetwork.state (MAS_SimEnv.gas_network e') in
  obs = MAS_SimEnv.state e'
  /\ (exists si, MAS_SimEnv.state e !! "Si" = Some si
                 /\ obs !! "Si" = Some (Py.Num (Py.clip (Py.num si + noise) 0.3 0.6)))
  /\ obs !! "pig_iron_production" = Some (Py.Num (wind / 20))
  /\ obs !! "bfg_supply" = Some (Py.Num (wind * 25))
  /\ obs !! "soc_bfg" = Some (Py.Num (GasNetwork.soc_bfg net))
  /\ obs !! "p_bfg" = Some (Py.Num (GasNetwork.p_bfg net))
  /\ obs !! "soc_bofg" = Some (Py.Num (GasNetwork.soc_bofg net))
  /\ obs !! "p_bofg" = Some (Py.Num (GasNetwork.p_bofg net))
  /\ obs !! "soc_cog" = Some (Py.Num (GasNetwork.soc_cog net))
  /\ obs !! "p_cog" = Some (Py.Num (GasNetwork.p_cog net))
  /\ HolderInvariant.network_ok net
  /\ MAS_SimEnv.time e' = MAS_SimEnv.time e + MAS_SimEnv.timestep e
  /\ MAS_SimEnv.timestep e' = MAS_SimEnv.timestep e
  /\ MessageBus.time (MAS_SimEnv.message_bus e') = MAS_SimEnv.time e'
  /\ MessageBus.messages (MAS_SimEnv.message_bus e')
     = MessageBus.messages (MAS_SimEnv.message_bus e)
  /\ forall k, k ∉ ["pig_iron_production"; "bfg_supply"; "soc_bfg"; "p_bfg";
                    "soc_bofg"; "p_bofg"; "soc_cog"; "p_cog"; "Si"] ->
               obs !! k = MAS_SimEnv.state e !! k.
Proof.
  unfold MAS_SimEnv.step, MAS_SimEnv._step_simple_dynamics.
  cbn [MAS_SimEnv.state MAS_SimEnv.gas_network MAS_SimEnv.timestep
       MAS_SimEnv.message_bus MAS_SimEnv.time].
  set (wind := match MAS_SimEnv.BF actions with
               | Some a => BF_Agent.wind_volume a
               | None => 4000
               end).
  set (network := GasNetwork.update _ _ _ _).
  unfold MAS_SimEnv.dict_update, GasNetwork.to_dict. cbn [fold_left fst snd].
  repeat (rewrite lookup_insert_ne by discriminate).
  destruct (MAS_SimEnv.state e !! "Si") as [si |] eqn:Esi; [| discriminate].
  intros H. injection H as <- <-. cbv zeta.
  unfold MAS_SimEnv.get_observations.
  cbn [MAS_SimEnv.state MAS_SimEnv.gas_network MAS_SimEnv.timestep
       MAS_SimEnv.message_bus MAS_SimEnv.time MessageBus.update_time
       MessageBus.time MessageBus.messages].
  split_conj; try reflexivity.
  - exists si. split; [reflexivity |]. now rewrite lookup_insert_eq.
  - repeat (rewrite lookup_insert_ne by discriminate). now rewrite lookup_insert_eq.
  - repeat (rewrite lookup_insert_ne by discriminate). now rewrite lookup_insert_eq.
  - repeat (rewrite lookup_insert_ne by discriminate). now rewrite lookup_insert_eq.
  - repeat (rewrite lookup_insert_ne by discriminate). now rewrite lookup_insert_eq.
  - repeat (rewrite lookup_insert_ne by discriminate). now rewrite lookup_insert_eq.
  - repeat (rewrite lookup_insert_ne by discriminate). now rewrite lookup_insert_eq.
  - repeat (rewrite lookup_insert_ne by discriminate). now rewrite lookup_insert_eq.
  - repeat (rewrite lookup_insert_ne by discriminate). now rewrite lookup_insert_eq.
  - subst network. apply update_ok.
  - intros k Hk.
    repeat (rewrite lookup_insert_ne;
            [| intros <-; apply Hk; repeat constructor]).
    reflexivity.
Qed.

Lemma step_fails_iff (e : MAS_SimEnv.t) (actions : MAS_SimEnv.actions) (noise : Q) :
  MAS_SimEnv.step e actions noise = None <-> MAS_SimEnv.state e !! "Si" = None.
Proof.
  unfold MAS_SimEnv.step, MAS_SimEnv._step_simple_dynamics.
  cbn [MAS_SimEnv.state].
  unfold MAS_SimEnv.dict_update, GasNetwork.to_dict. cbn [fold_left fst snd].
  repeat (rewrite lookup_insert_ne by discriminate).
  destruct (MAS_SimEnv.state e !! "Si"); split; intros H; congruence.
Qed.

End EnvProofs.

(** X21: a step of the environment fails only when the observation map
    has lost its "Si" entry.  When it succeeds, the time has advanced by
    the timestep and the bus clock follows it, the messages on the bus are
    untouched, the production entries are wind/20 and wind*25, the Si
    entry is clipped into [0.3, 0.6], and the six gas entries of the
    returned observation are those of the gas network, each SOC in
    [0.05, 0.95] with pressure 8 + 8*SOC. *)
Theorem env_step_observation_consistent :
  forall (e : MAS_SimEnv.t) (actions : MAS_SimEnv.actions) (noise : Q),
    (MAS_SimEnv.step e actions noise = None <-> MAS_SimEnv.state e !! "Si" = None)
    /\ forall e' obs,
        MAS_SimEnv.step e actions noise = Some (e', obs) ->
        obs = MAS_SimEnv.get_observations e'
        /\ MAS_SimEnv.time e' = MAS_SimEnv.time e + MAS_SimEnv.timestep e
        /\ MessageBus.time (MAS_SimEnv.message_bus e') = MAS_SimEnv.time e'
        /\ MessageBus.messages (MAS_SimEnv.message_bus e')
           = MessageBus.messages (MAS_SimEnv.message_bus e)
        /\ (exists si, obs !! "Si" = Some (Py.Num si) /\ 0.3 <= si <= 0.6)
        /\ (forall wind, MAS_SimEnv.BF actions = Some wind ->
              obs !! "pig_iron_production"
              = Some (Py.Num (BF_Agent.wind_volume wind / 20))
              /\ obs !! "bfg_supply" = Some (Py.Num (BF_Agent.wind_volume wind * 25)))
        /\ (exists soc p, obs !! "soc_bfg" = Some (Py.Num soc)
                          /\ obs !! "p_bfg" = Some (Py.Num p)
                          /\ 0.05 <= soc <= 0.95 /\ p == 8.0 + soc * 8.0)
        /\ (exists soc p, obs !! "soc_bofg" = Some (Py.Num soc)
                          /\ obs !! "p_bofg" = Some (Py.Num p)
                          /\ 0.05 <= soc <= 0.95 /\ p == 8.0 + soc * 8.0)
        /\ (exists soc p, obs !! "soc_cog" = Some (Py.Num soc)
                          /\ obs !! "p_cog" = Some (Py.Num p)
                          /\ 0.05 <= soc <= 0.95 /\ p == 8.0 + soc * 8.0).
Proof.
  intros e actions noise. split; [apply step_fails_iff |].
  intros e' obs Hstep.
  destruct (step_state e e' actions noise obs Hstep)
    as (Hobs & (si & _ & Hsi) & Hpig & Hsup & S1 & P1 & S2 & P2 & S3 & P3 & Hnet
        & Htime & _ & Hbus & Hmsg & _).
  split_conj; try assumption.
  - exists (Py.clip (Py.num si + noise) 0.3 0.6). split; [exact Hsi |].
    apply clip_bounds. vm_compute. congruence.
  - intros w Hw. rewrite Hw in Hpig, Hsup. split; assumption.
  - destruct (Hnet bfg) as [Hs Hp]. eexists. eexists.
    split; [exact S1 |]. split; [exact P1 |]. split; [exact Hs | exact Hp].
  - destruct (Hnet bofg) as [Hs Hp]. eexists. eexists.
    split; [exact S2 |]. split; [exact P2 |]. split; [exact Hs | exact Hp].
  - destruct (Hnet cog) as [Hs Hp]. eexists. eexists.
    split; [exact S3 |]. split; [exact P3 |]. split; [exact Hs | exact Hp].
Qed.

Section DriverProofs.

(** Without "SOC_bfg" and "P_bfg" in the observation the blast furnace
    agent works with 0.5 and 12.0, inside every band of its energy
    rules. *)
Lemma bf_step_default_holder (a : BF_Agent.t) (obs : gmap string Py.value)
    (bus : option MessageBus.t) :
  obs !! "SOC_bfg" = None -> obs !! "P_bfg" = None ->
  BF_Agent.gh_full_action_active (BF_Agent.hyst (fst (BF_Agent.step a obs bus))) = false
  /\ BF_Agent.gh_empty_action_active (BF_Agent.hyst (fst (BF_Agent.step a obs bus)))
     = false.
Proof.
  intros H1 H2. unfold BF_Agent.step, Py.get. rewrite H1, H2.
  cbn [default Py.num fst].
  generalize (BF_Agent._apply_process_rules
                (Py.num (default (Py.Num 0.45) (obs !! "Si")))
                (BF_Agent._apply_safety_rules
                   (Py.num (default (Py.Num 0.45) (obs !! "Si")))
                   (Py.num (default (Py.Num 1500) (obs !! "T_hot_metal")))
                   (Py.num (default (Py.Num 50000) (obs !! "O2_available"))) a)).
  intros a'.
  unfold BF_Agent._apply_energy_rules, BF_Agent._apply_economic_rules.
  change (Py.gt 0.5 BF_Agent.SOC_high) with false.
  change (Py.gt 12.0 BF_Agent.P_high) with false.
  change (Py.lt 0.5 0.75) with true.
  change (Py.lt 12.0 13.0) with true.
  change (Py.lt 0.5 BF_Agent.SOC_low) with false.
  change (Py.lt 12.0 BF_Agent.P_low) with false.
  change (Py.gt 0.5 0.30) with true.
  change (Py.gt 12.0 10.0) with true.
  cbn [orb andb].
  repeat match goal with
    | |- context [if ?c then _ else _] => destruct c
    end; split; reflexivity.
Qed.

Lemma tick_ok (s : Main.sim) (noise : Q) :
  DriverSpec.driver_ok s ->
  exists s', Main.tick s noise = Some s'
             /\ DriverSpec.driver_ok s'
             /\ MAS_SimEnv.time (Main.env s') = MAS_SimEnv.time (Main.env s) + 1.0
             /\ MessageBus.time (MAS_SimEnv.message_bus (Main.env s'))
                = MAS_SimEnv.time (Main.env s').
Proof.
  intros (Hsi & Hts & Hobs & Hmsg & Hkeys & _ & _).
  unfold Main.tick.
  pose proof (bf_step_default_holder (Main.bf_agent s) (Main.obs s) None
                (Hkeys "SOC_bfg" ltac:(repeat constructor))
                (Hkeys "P_bfg" ltac:(repeat constructor)))
    as [Hfull Hempty].
  destruct (BF_Agent.step (Main.bf_agent s) (Main.obs s) None) as [bf bf_action].
  destruct (BOF_Agent.step (Main.bof_agent s) (Main.obs s) None)
    as [[bof bof_action] bus'].
  destruct (CokeOven_Agent.step (Main.co_agent s) (Main.obs s) None)
    as [co co_action].
  destruct (GasHolder_Agent.step (Main.gh_agent s) (Main.obs s) None)
    as [gh gh_action].
  cbn [fst] in Hfull, Hempty.
  set (actions := {| MAS_SimEnv.BF := Some bf_action;
                     MAS_SimEnv.BOF := Some bof_action;
                     MAS_SimEnv.CokeOven := Some co_action;
                     MAS_SimEnv.GasHolder := Some gh_action |}).
  destruct (MAS_SimEnv.step (Main.clear_bus (Main.env s)) actions noise)
    as [[e' obs'] |] eqn:Estep.
  - destruct (step_state _ _ _ _ _ Estep)
      as (Ho & (si & _ & Hsi') & _ & _ & _ & _ & _ & _ & _ & _ & _
          & Htime & Hts' & Hbus & Hmsg' & Hother).
    cbn [Main.clear_bus MAS_SimEnv.state MAS_SimEnv.time MAS_SimEnv.timestep
         MAS_SimEnv.message_bus MessageBus.clear MessageBus.messages]
      in Hsi', Htime, Hts', Hmsg', Hother.
    eexists. split; [reflexivity |].
    unfold DriverSpec.driver_ok.
    cbn [Main.env Main.obs Main.bf_agent].
    split_conj.
    + rewrite <- Ho, Hsi'. eexists. reflexivity.
    + congruence.
    + exact Ho.
    + exact Hmsg'.
    + intros k Hk. rewrite Hother.
      * rewrite <- Hobs. apply Hkeys, Hk.
      * unfold DriverSpec.unread_keys in Hk. intros Hw.
        repeat (apply elem_of_cons in Hk as [-> | Hk];
                [repeat (apply elem_of_cons in Hw as [Hw | Hw]; [discriminate Hw |]);
                 inversion Hw |]).
        inversion Hk.
    + exact Hfull.
    + exact Hempty.
    + rewrite Htime, Hts. reflexivity.
    + exact Hbus.
  - exfalso. apply step_fails_iff in Estep.
    cbn [Main.clear_bus MAS_SimEnv.state] in Estep.
    destruct Hsi as [v Hv]. congruence.
Qed.

Lemma start_ok : DriverSpec.driver_ok Main.start.
Proof.
  unfold DriverSpec.driver_ok. split_conj.
  - eexists. vm_compute. reflexivity.
  - reflexivity.
  - reflexivity.
  - reflexivity.
  - intros k Hk. unfold DriverSpec.unread_keys in Hk.
    repeat (apply elem_of_cons in Hk as [-> | Hk]; [vm_compute; reflexivity |]).
    inversion Hk.
  - reflexivity.
  - reflexivity.
Qed.

Lemma run_ok (noises : list Q) :
  forall s, DriverSpec.driver_ok s ->
    exists s', Main.run s noises = Some s'
               /\ DriverSpec.driver_ok s'
               /\ MAS_SimEnv.time (Main.env s')
                  == MAS_SimEnv.time (Main.env s)
                     + inject_Z (Z.of_nat (length noises)).
Proof.
  induction noises as [| n rest IH]; intros s Hs.
  - exists s. split; [reflexivity |]. split; [exact Hs |].
    change (inject_Z (Z.of_nat (length (@nil Q)))) with 0. lra.
  - destruct (tick_ok s n Hs) as (s1 & Htick & Hs1 & Htime & _).
    destruct (IH s1 Hs1) as (s' & Hrun & Hs' & Htime').
    exists s'. cbn [Main.run]. rewrite Htick. split; [exact Hrun |].
    split; [exact Hs' |].
    rewrite Htime', Htime.
    replace (length (n :: rest)) with (S (length rest)) by reflexivity.
    rewrite Nat2Z.inj_succ. unfold Z.succ. rewrite inject_Z_plus.
    change (inject_Z 1) with 1. lra.
Qed.

End DriverProofs.

(** X22: the driver loop of [run_mas_simulation] never raises, whatever
    the noise drawn at each step: after any number of steps there is a
    state, the clock of the environment equals the number of steps, the
    observation handed to the agents is the state of the environment, it
    still has its "Si" entry, and the message bus is empty. *)
Theorem driver_run_never_fails :
  forall noises : list Q,
    exists s, Main.run_mas_simulation noises = Some s
              /\ MAS_SimEnv.time (Main.env s) == inject_Z (Z.of_nat (length noises))
              /\ Main.obs s = MAS_SimEnv.get_observations (Main.env s)
              /\ is_Some (Main.obs s !! "Si")
              /\ MessageBus.messages (MAS_SimEnv.get_message_bus (Main.env s)) = [].
Proof.
  intros noises.
  destruct (run_ok noises Main.start start_ok) as (s & Hrun & Hok & Htime).
  destruct Hok as (Hsi & _ & Hobs & Hmsg & _).
  exists s. split; [exact Hrun |]. split_conj.
  - rewrite Htime. change (MAS_SimEnv.time (Main.env Main.start)) with 0.0. lra.
  - exact Hobs.
  - rewrite Hobs. exact Hsi.
  - exact Hmsg.
Qed.

(** X23: in the driver loop the environment never provides one of the
    upper-case keys "SOC_bfg", "P_bfg", "COG_required", "SOC_bofg",
    "P_bofg", "P_bof_gas", "bof_gas_current", "SOC_cog", "COG_demand"
    that the blast furnace, converter and coke oven agents read, so these
    agents always work with their defaults; in particular the blast
    furnace agent never enters its holder-full or holder-empty action. *)
Theorem driver_agents_never_see_holders :
  forall noises : list Q,
    exists s, Main.run_mas_simulation noises = Some s
              /\ (forall k, k ∈ DriverSpec.unread_keys -> Main.obs s !! k = None)
              /\ (forall k dflt, k ∈ DriverSpec.unread_keys ->
                    Py.get (Main.obs s) k dflt = dflt)
              /\ BF_Agent.gh_full_action_active (BF_Agent.hyst (Main.bf_agent s))
                 = false
              /\ BF_Agent.gh_empty_action_active (BF_Agent.hyst (Main.bf_agent s))
                 = false.
Proof.
  intros noises.
  destruct (run_ok noises Main.start start_ok) as (s & Hrun & Hok & _).
  destruct Hok as (_ & _ & _ & _ & Hkeys & Hfull & Hempty).
  exists s. split; [exact Hrun |]. split_conj; try assumption.
  intros k dflt Hk. unfold Py.get. now rewrite (Hkeys k Hk).
Qed.

(* ================================================================== *)
(** * The surge warning in the driver loop *)

Section DriverAgents.





End DriverAgents.



(* ================================================================== *)
(** * From agent actions to twin inputs *)

Section TranslatorProofs.

Lemma bf_run_limits (id : string) (obs : list (gmap string Py.value)) :
  BF_Limits.within_limits (BF_Agent.st (BF_Agent.run (BF_Agent.init id) obs)).
Proof.
  induction obs as [| o obs IH] using rev_ind.
  - apply init_limits.
  - rewrite run_snoc. now apply step_limits.
Qed.

Lemma bof_run_ok (id : string) (calls : list Runs.call) :
  AgentLimits.bof_ok (BOF_Agent.st (Runs.bof_run (BOF_Agent.init id) calls)).
Proof.
  induction calls as [| c calls IH] using rev_ind.
  - unfold AgentLimits.bof_ok. cbn.
    split_conj; first [reflexivity | vm_compute; congruence].
  - rewrite bof_run_snoc. now apply bof_step_ok.
Qed.

Lemma co_run_ok (id : string) (calls : list Runs.call) :
  AgentLimits.co_ok (CokeOven_Agent.st (Runs.co_run (CokeOven_Agent.init id) calls)).
Proof.
  induction calls as [| c calls IH] using rev_ind.
  - unfold AgentLimits.co_ok. cbn.
    split_conj; first [reflexivity | vm_compute; congruence].
  - rewrite co_run_snoc. now apply co_step_ok.
Qed.

End TranslatorProofs.

(** X24: the twin inputs built from the actions of the agents pass
    [validate] whenever the environment state allows it: along every run
    of the three agents from construction, the blast furnace input is
    valid exactly when "COG_available" of the environment state (20000
    when absent) is not negative, the BOF input exactly when
    "pig_iron_production" (200 when absent) is not negative, and the coke
    oven input always. *)
Theorem twin_inputs_of_agent_actions_validate :
  forall (id : string) (obs : list (gmap string Py.value))
         (calls_bof calls_co : list Runs.call) (env : gmap string Py.value),
    let bf := BF_Agent.st (BF_Agent.run (BF_Agent.init id) obs) in
    let bof := BOF_Agent.st (Runs.bof_run (BOF_Agent.init id) calls_bof) in
    let co := CokeOven_Agent.st (Runs.co_run (CokeOven_Agent.init id) calls_co) in
    BFInput.validate (TwinTranslator.bf_action_to_twin_input (ActionDict.bf bf) env)
    = Py.le 0 (Py.num (Py.get env "COG_available" (Py.Num 20000)))
    /\ BOFInput.validate
         (TwinTranslator.bof_action_to_twin_input (ActionDict.bof bof) env)
       = Py.le 0 (Py.num (Py.get env "pig_iron_production" (Py.Num 200)))
    /\ CokeOvenInput.validate
         (TwinTranslator.coke_oven_action_to_twin_input (ActionDict.coke_oven co) env)
       = true.
Proof.
  intros id obs calls_bof calls_co env bf bof co.
  pose proof (bf_run_limits id obs) as (Hw & _ & Hp).
  pose proof (bof_run_ok id calls_bof) as (Ho & Hs & _ & _).
  pose proof (co_run_ok id calls_co) as (Hh & _ & _).
  fold bf in Hw, Hp. fold bof in Ho, Hs. fold co in Hh.
  unfold SafetyLimits.BF_WIND_MIN, SafetyLimits.BF_WIND_MAX,
    SafetyLimits.BF_PCI_MAX in Hw, Hp.
  clearbody bf bof co. split_conj.
  - unfold BFInput.validate, TwinTranslator.bf_action_to_twin_input,
      TwinTranslator.PCI_TO_COKE_FACTOR.
    change (Py.get (ActionDict.bf bf) "wind_volume" (Py.Num 4000))
      with (Py.Num (BF_Agent.wind_volume bf)).
    change (Py.get (ActionDict.bf bf) "PCI" (Py.Num 150))
      with (Py.Num (BF_Agent.PCI bf)).
    cbn [Py.num BFInput.ore BFInput.pellets BFInput.sinter BFInput.coke_mass_flow
         BFInput.coke_gas_flow BFInput.power BFInput.oxygen
         BFInput.intern_bf_gas_percentage BFInput.power_plant_bf_gas_percentage
         BFInput.slab_heat_furnace_bf_gas_percentage
         BFInput.coke_plant_bf_gas_percentage existsb].
    set (c := Py.num (Py.get env "COG_available" (Py.Num 20000))). clearbody c.
    change (Py.gt (Qabs (50.0 + 20.0 + 20.0 + 10.0 - 100.0)) 0.01) with false.
    change (Py.lt 50.0 0) with false. change (Py.lt 100.0 0) with false.
    change (Py.lt 50000.0 0) with false. cbn [orb].
    change (BF_Agent.PCI bf / 1.5) with (BF_Agent.PCI bf * (10 # 15)).
    cmp_cases; cbn [orb]; first [reflexivity | exfalso; lra].
  - unfold BOFInput.validate, TwinTranslator.bof_action_to_twin_input.
    change (Py.get (ActionDict.bof bof) "oxygen" (Py.Num 45000))
      with (Py.Num (BOF_Agent.oxygen bof)).
    change (Py.get (ActionDict.bof bof) "scrap_steel" (Py.Num 20))
      with (Py.Num (BOF_Agent.scrap_steel bof)).
    cbn [Py.num BOFInput.pig_iron BOFInput.scrap_steel BOFInput.oxygen
         BOFInput.lime BOFInput.power forallb].
    set (p := Py.num (Py.get env "pig_iron_production" (Py.Num 200))). clearbody p.
    change (Py.le 0 5.0) with true. change (Py.le 0 5000.0) with true.
    rewrite (le_intro 0 (BOF_Agent.scrap_steel bof)) by lra.
    rewrite (le_intro 0 (BOF_Agent.oxygen bof)) by lra.
    cbn [andb]. rewrite andb_true_r.
    unfold Py.min. cmp_cases; first [reflexivity | exfalso; lra].
  - unfold CokeOvenInput.validate, TwinTranslator.coke_oven_action_to_twin_input.
    change (Py.get (ActionDict.coke_oven co) "heating_gas_input" (Py.Num 15000))
      with (Py.Num (CokeOven_Agent.heating_gas_input co)).
    cbn [Py.num CokeOvenInput.coal_input CokeOvenInput.heating_gas
         CokeOvenInput.heating_gas_calorific_value CokeOvenInput.steam
         CokeOvenInput.power forallb].
    rewrite (le_intro 0 (CokeOven_Agent.heating_gas_input co)) by lra.
    reflexivity.
Qed.

(** X25: what the translator passes on.  The blast furnace input carries
    the wind volume of the action unchanged; the O2 enrichment and the
    COG ratio chosen by the agent do not reach the twin: two actions with
    the same wind volume and PCI give the same input.  Likewise the blow
    timing of the BOF agent and the pushing rate of the coke oven agent
    are dropped, and the coke oven input does not depend on the
    environment state. *)
Theorem translator_drops_unmapped_actions :
  forall (env : gmap string Py.value),
    (forall s1 s2 : BF_Agent.state,
        BF_Agent.wind_volume s1 = BF_Agent.wind_volume s2 ->
        BF_Agent.PCI s1 = BF_Agent.PCI s2 ->
        TwinTranslator.bf_action_to_twin_input (ActionDict.bf s1) env
        = TwinTranslator.bf_action_to_twin_input (ActionDict.bf s2) env)
    /\ (forall s : BF_Agent.state,
          let i := TwinTranslator.bf_action_to_twin_input (ActionDict.bf s) env in
          BFInput.wind_volume i = BF_Agent.wind_volume s
          /\ BFInput.coke_gas_flow i
             = Py.num (Py.get env "COG_available" (Py.Num 20000)))
    /\ (forall s1 s2 : BOF_Agent.state,
          BOF_Agent.oxygen s1 = BOF_Agent.oxygen s2 ->
          BOF_Agent.scrap_steel s1 = BOF_Agent.scrap_steel s2 ->
          TwinTranslator.bof_action_to_twin_input (ActionDict.bof s1) env
          = TwinTranslator.bof_action_to_twin_input (ActionDict.bof s2) env)
    /\ (forall (s1 s2 : CokeOven_Agent.state) (env' : gmap string Py.value),
          CokeOven_Agent.heating_gas_input s1 = CokeOven_Agent.heating_gas_input s2 ->
          TwinTranslator.coke_oven_action_to_twin_input (ActionDict.coke_oven s1) env
          = TwinTranslator.coke_oven_action_to_twin_input
              (ActionDict.coke_oven s2) env').
Proof.
  intros env. split_conj.
  - intros s1 s2 Hw Hp. unfold TwinTranslator.bf_action_to_twin_input.
    change (Py.get (ActionDict.bf s1) "wind_volume" (Py.Num 4000))
      with (Py.Num (BF_Agent.wind_volume s1)).
    change (Py.get (ActionDict.bf s1) "PCI" (Py.Num 150))
      with (Py.Num (BF_Agent.PCI s1)).
    change (Py.get (ActionDict.bf s2) "wind_volume" (Py.Num 4000))
      with (Py.Num (BF_Agent.wind_volume s2)).
    change (Py.get (ActionDict.bf s2) "PCI" (Py.Num 150))
      with (Py.Num (BF_Agent.PCI s2)).
    cbn [Py.num]. now rewrite Hw, Hp.
  - intros s i. subst i. unfold TwinTranslator.bf_action_to_twin_input,
      TwinTranslator.PCI_TO_COKE_FACTOR.
    change (Py.get (ActionDict.bf s) "wind_volume" (Py.Num 4000))
      with (Py.Num (BF_Agent.wind_volume s)).
    change (Py.get (ActionDict.bf s) "PCI" (Py.Num 150))
      with (Py.Num (BF_Agent.PCI s)).
    cbn [Py.num BFInput.wind_volume BFInput.coke_gas_flow].
    split; reflexivity.
  - intros s1 s2 Ho Hs. unfold TwinTranslator.bof_action_to_twin_input.
    change (Py.get (ActionDict.bof s1) "oxygen" (Py.Num 45000))
      with (Py.Num (BOF_Agent.oxygen s1)).
    change (Py.get (ActionDict.bof s1) "scrap_steel" (Py.Num 20))
      with (Py.Num (BOF_Agent.scrap_steel s1)).
    change (Py.get (ActionDict.bof s2) "oxygen" (Py.Num 45000))
      with (Py.Num (BOF_Agent.oxygen s2)).
    change (Py.get (ActionDict.bof s2) "scrap_steel" (Py.Num 20))
      with (Py.Num (BOF_Agent.scrap_steel s2)).
    cbn [Py.num]. now rewrite Ho, Hs.
  - intros s1 s2 env' Hh. unfold TwinTranslator.coke_oven_action_to_twin_input.
    change (Py.get (ActionDict.coke_oven s1) "heating_gas_input" (Py.Num 15000))
      with (Py.Num (CokeOven_Agent.heating_gas_input s1)).
    change (Py.get (ActionDict.coke_oven s2) "heating_gas_input" (Py.Num 15000))
      with (Py.Num (CokeOven_Agent.heating_gas_input s2)).
    cbn [Py.num]. now rewrite Hh.
Qed.

Lemma translator_drops_unmapped_actions_witness :
  TwinTranslator.bf_action_to_twin_input
    (ActionDict.bf (BF_Agent.st (BF_Agent.init "BF1"))) ∅
  = TwinTranslator.bf_action_to_twin_input
      (ActionDict.bf (BF_Agent.st (BF_Agent.set_O2_enrichment 6.0
                                     (BF_Agent.init "BF1")))) ∅.
Proof.
  exact (proj1 (translator_drops_unmapped_actions ∅) _ _ eq_refl eq_refl).
Defined.

(* ================================================================== *)
(** * The transition recorder *)

Section RecorderProofs.
Import EnhancedDataRecorder.

Variable rnd : Q -> Q.

(** The reward stored for one call. *)
Lemma record_transition_spec (self self' : t) (s : Reward.StandardState)
    (a : Reward.StandardAction) (ns : Reward.StandardState)
    (given : option Reward.t) (d : bool) :
  record_transition rnd self s a ns given d = Some self' ->
  exists r,
    match given with
    | Some g => r = g
    | None => Reward.calculate_reward rnd s a ns = Some r
    end
    /\ transitions self'
       = (transitions self
            ++ [{| state := s; action := a; next_state := ns; reward := r;
                   step := length (transitions self); done := d |}])%list
    /\ rewards self' = (rewards self ++ [r])%list
    /\ states self' = (states self ++ [s])%list
    /\ actions self' = (actions self ++ [a])%list
    /\ episode_count self'
       = (if d then S (episode_count self) else episode_count self)
    /\ current_episode_steps self'
       = (if d then 0%nat else S (current_episode_steps self)).
Proof.
  unfold record_transition. intros H.
  destruct given as [g |].
  - injection H as <-. exists g. split_conj; reflexivity.
  - destruct (Reward.calculate_reward rnd s a ns) as [r |] eqn:E; [| discriminate H].
    injection H as <-. exists r. split_conj; reflexivity.
Qed.

Lemma record_all_spec (entries : list entry) :
  forall self self',
    record_all rnd self entries = Some self' ->
    exists ts,
      transitions self' = (transitions self ++ ts)%list
      /\ rewards self' = (rewards self ++ map reward ts)%list
      /\ states self' = (states self ++ map state ts)%list
      /\ actions self' = (actions self ++ map action ts)%list
      /\ map (fun t => (state t, action t, next_state t, done t)) ts
         = map (fun e : entry =>
                  let '(s, a, ns, _, d) := e in (s, a, ns, d)) entries
      /\ (forall (i : nat) tr, ts !! i = Some tr ->
            step tr = (length (transitions self) + i)%nat)
      /\ episode_count self'
         = (episode_count self
            + length (List.filter (fun e : entry => snd e) entries))%nat
      /\ (Forall (fun e : entry => snd e = false) entries ->
          current_episode_steps self'
          = (current_episode_steps self + length entries)%nat).
Proof.
  induction entries as [| [[[[s a] ns] g] d] rest IH]; intros self self' H.
  - injection H as <-. exists []. rewrite !app_nil_r. cbn.
    split_conj;
      first [reflexivity | lia
            | intros i tr Hi; destruct i; discriminate Hi
            | intros _; lia].
  - cbn [record_all] in H.
    destruct (record_transition rnd self s a ns g d) as [self1 |] eqn:E1;
      [| discriminate H].
    apply record_transition_spec in E1
      as (r & _ & Ht & Hr & Hs & Ha & He & Hc).
    apply IH in H as (ts & Ht' & Hr' & Hs' & Ha' & Hm & Hstep & He' & Hc').
    eexists (_ :: ts).
    rewrite Ht', Hr', Hs', Ha', Ht, Hr, Hs, Ha, <- !app_assoc. cbn [app map].
    split_conj; try reflexivity.
    + cbn [state action next_state done]. now rewrite Hm.
    + intros [| i] tr Hi.
      * injection Hi as <-. cbn [step]. lia.
      * rewrite (Hstep i tr Hi), Ht, length_app. cbn [length]. lia.
    + rewrite He', He. cbn [List.filter snd]. destruct d; cbn [length]; lia.
    + intros Hall. apply Forall_cons in Hall as [Hd Hall]. cbn [snd] in Hd.
      subst d. rewrite (Hc' Hall), Hc. cbn [length]. lia.
Qed.

End RecorderProofs.

(** X26: the four histories of the recorder stay aligned.  After any
    sequence of [record_transition] calls on a new recorder, whatever the
    rounding of the reward computation, there is one
    transition per call, in call order, holding the state, action, next
    state and done flag it was given; the rewards, states and actions
    lists are the corresponding fields of the transitions; the step index
    of a transition is its position; [episode_count] is the number of
    calls with [done] set; and when no call had [done] set the current
    episode has as many steps as there were calls. *)
Theorem recorder_histories_aligned :
  forall (rnd : Q -> Q) (entries : list EnhancedDataRecorder.entry)
         (r : EnhancedDataRecorder.t),
    EnhancedDataRecorder.record_all rnd EnhancedDataRecorder.init entries = Some r ->
    length (EnhancedDataRecorder.transitions r) = length entries
    /\ EnhancedDataRecorder.rewards r
       = map EnhancedDataRecorder.reward (EnhancedDataRecorder.transitions r)
    /\ EnhancedDataRecorder.states r
       = map EnhancedDataRecorder.state (EnhancedDataRecorder.transitions r)
    /\ EnhancedDataRecorder.actions r
       = map EnhancedDataRecorder.action (EnhancedDataRecorder.transitions r)
    /\ map (fun t => (EnhancedDataRecorder.state t, EnhancedDataRecorder.action t,
                      EnhancedDataRecorder.next_state t, EnhancedDataRecorder.done t))
           (EnhancedDataRecorder.transitions r)
       = map (fun e : EnhancedDataRecorder.entry =>
                let '(s, a, ns, _, d) := e in (s, a, ns, d)) entries
    /\ (forall (i : nat) t, EnhancedDataRecorder.transitions r !! i = Some t ->
          EnhancedDataRecorder.step t = i)
    /\ EnhancedDataRecorder.episode_count r
       = length (List.filter (fun e : EnhancedDataRecorder.entry => snd e) entries)
    /\ (Forall (fun e : EnhancedDataRecorder.entry => snd e = false) entries ->
        EnhancedDataRecorder.current_episode_steps r = length entries).
Proof.
  intros rnd entries r H.
  apply record_all_spec in H as (ts & Ht & Hr & Hs & Ha & Hm & Hstep & He & Hc).
  cbn in Ht, Hr, Hs, Ha, Hstep, He, Hc. subst ts.
  split_conj; try assumption.
  apply (f_equal (@length _)) in Hm. now rewrite !length_map in Hm.
Qed.

Lemma recorder_histories_aligned_witness :
  match EnhancedDataRecorder.record_all Py.exact EnhancedDataRecorder.init
          [(StabilitySpec.state_with_socs 0.5 0.5 0.5,
            StabilitySpec.create_default_action,
            StabilitySpec.state_with_socs 0.6 0.5 0.5, None, false);
           (StabilitySpec.state_with_socs 0.6 0.5 0.5,
            StabilitySpec.create_default_action,
            StabilitySpec.state_with_socs 0.7 0.5 0.5, None, true)] with
  | Some r =>
      length (EnhancedDataRecorder.transitions r) = 2%nat
      /\ EnhancedDataRecorder.episode_count r = 1%nat
  | None => False
  end.
Proof.
  destruct (EnhancedDataRecorder.record_all Py.exact EnhancedDataRecorder.init _)
    as [r |] eqn:Hr.
  - pose proof (recorder_histories_aligned _ _ r Hr)
      as (H1 & _ & _ & _ & _ & _ & H2 & _).
    split; [exact H1 | exact H2].
  - vm_compute in Hr. discriminate Hr.
Defined.

(** X27: [get_last_n_transitions(n)] is the slice [transitions[-n:]]: it
    always returns a suffix of the recorded transitions; for
    0 < n <= len it has exactly n elements, for n > len it is the whole
    list, for n = 0 it is also the whole list (not the empty one), and
    for a negative n it is what remains after dropping the first -n
    transitions. *)
Theorem get_last_n_transitions_slice :
  forall (self : EnhancedDataRecorder.t) (n : Z),
    let ts := EnhancedDataRecorder.transitions self in
    let len := Z.of_nat (length ts) in
    let res := EnhancedDataRecorder.get_last_n_transitions self n in
    (exists front, ts = (front ++ res)%list)
    /\ ((0 < n <= len)%Z -> Z.of_nat (length res) = n)
    /\ ((len < n)%Z -> res = ts)
    /\ (n = 0%Z -> res = ts)
    /\ ((n < 0)%Z -> res = drop (Z.to_nat (- n)) ts
                     /\ Z.of_nat (length res) = Z.max 0 (len + n)).
Proof.
  intros self n ts len res. subst res.
  unfold EnhancedDataRecorder.get_last_n_transitions. fold ts. fold len.
  split_conj.
  - eexists. symmetry. apply take_drop.
  - intros [H0 Hn]. apply Z.ltb_lt in H0 as E. rewrite E.
    rewrite length_drop. subst len. lia.
  - intros Hn. assert (E : (0 <? n)%Z = true) by (apply Z.ltb_lt; subst len; lia).
    rewrite E. replace (Z.to_nat (Z.max (len - n) 0)) with 0%nat by lia.
    apply drop_0.
  - intros ->. change (0 <? 0)%Z with false. cbv iota.
    replace (Z.to_nat (Z.min (- 0) len)) with 0%nat by (subst len; lia).
    apply drop_0.
  - intros Hn. assert (E : (0 <? n)%Z = false) by (apply Z.ltb_ge; lia).
    rewrite E. split.
    + destruct (Z.le_gt_cases (- n) len) as [Hle | Hgt].
      * now rewrite Z.min_l by exact Hle.
      * rewrite Z.min_r by lia.
        rewrite !drop_ge; [reflexivity | subst len; lia | subst len; lia].
    + rewrite length_drop. subst len. lia.
Qed.

Lemma get_last_n_transitions_slice_witness :
  EnhancedDataRecorder.get_last_n_transitions EnhancedDataRecorder.init 0
  = EnhancedDataRecorder.transitions EnhancedDataRecorder.init.
Proof.
  exact (proj1 (proj2 (proj2 (proj2
           (get_last_n_transitions_slice EnhancedDataRecorder.init 0)))) eq_refl).
Defined.
